(** * vk_helpers: the Vulkan resource helpers of the renderer back-end

    A shallow embedding of [src/libANGLE/renderer/vulkan/vk_helpers.cpp]:
    the streaming buffer allocator [DynamicBuffer], the descriptor pool
    manager [DynamicDescriptorPool], the line-loop index synthesizer
    [LineLoopHelper] and the image helper [ImageHelper], followed by the
    properties the specification states about them.

    Conventions.
    - Unsigned machine integers are values of [Z] kept in range by an
      explicit reduction ([to_uint32], [to_size_t]); the target is LP64, so
      [size_t] has 64 bits.
    - Vulkan handles are values of [Z]; [VK_NULL_HANDLE] is [0].
    - A method that goes through [ANGLE_TRY] is an [Action]: a function from
      the state it touches to a [Result] and the state it leaves behind.
    - [ASSERT] and [UNREACHABLE] are debug-build checks; the embedding follows
      the release build, where control continues with the next statement.
      The conditions they state appear as hypotheses of the theorems. *)

From Stdlib Require Import ZArith List Lia Bool.
From stdpp Require Import base option list gmap.
Import ListNotations.
Local Open Scope Z_scope.

(** ** Machine integers *)

Module Machine.

Definition SIZE_MAX : Z := 2 ^ 64 - 1.
Definition UINT32_MAX : Z := 2 ^ 32 - 1.

Definition to_size_t (z : Z) : Z := z mod 2 ^ 64.
Definition to_uint32 (z : Z) : Z := z mod 2 ^ 32.
Definition to_uint16 (z : Z) : Z := z mod 2 ^ 16.

(** Modelled from the spec: [roundUp] lives in common/mathutil.h, which is
    not part of the sources. The spec says "round the requested size up to
    alignment"; the computation is done in [size_t]. *)
Definition roundUp (value alignment : Z) : Z :=
  let temp := to_size_t (value + alignment - 1) in
  temp - temp mod alignment.

(** Modelled from the spec: [angle::base::CheckedNumeric<size_t>] is not part
    of the sources. An addition is valid when its result fits [size_t]
    ("or arithmetic would overflow"). *)
Definition CheckedAdd (a b : Z) : option Z :=
  if a + b <=? SIZE_MAX then Some (a + b) else None.

Definition INT_MIN : Z := - 2 ^ 31.
Definition INT_MAX : Z := 2 ^ 31 - 1.

(** [a + b] on two [int]s: a sum that [int] does not hold is undefined
    behaviour ([None]). *)
Definition add_int (a b : Z) : option Z :=
  if (INT_MIN <=? a + b) && (a + b <=? INT_MAX) then Some (a + b) else None.

End Machine.

(** ** The part of the Vulkan API the helpers use *)

Module Vk.

Inductive VkResult : Type :=
| VK_SUCCESS
| VK_ERROR_OUT_OF_HOST_MEMORY
| VK_ERROR_OUT_OF_DEVICE_MEMORY
| VK_ERROR_MEMORY_MAP_FAILED
| VK_ERROR_FRAGMENTED_POOL
| VK_ERROR_OUT_OF_POOL_MEMORY.

#[global] Instance VkResult_eq_dec : EqDecision VkResult.
Proof. solve_decision. Defined.

Definition VK_NULL_HANDLE : Z := 0.

Inductive VkImageLayout : Type :=
| VK_IMAGE_LAYOUT_UNDEFINED
| VK_IMAGE_LAYOUT_GENERAL
| VK_IMAGE_LAYOUT_COLOR_ATTACHMENT_OPTIMAL
| VK_IMAGE_LAYOUT_DEPTH_STENCIL_ATTACHMENT_OPTIMAL
| VK_IMAGE_LAYOUT_DEPTH_STENCIL_READ_ONLY_OPTIMAL
| VK_IMAGE_LAYOUT_SHADER_READ_ONLY_OPTIMAL
| VK_IMAGE_LAYOUT_TRANSFER_SRC_OPTIMAL
| VK_IMAGE_LAYOUT_TRANSFER_DST_OPTIMAL
| VK_IMAGE_LAYOUT_PREINITIALIZED
| VK_IMAGE_LAYOUT_PRESENT_SRC_KHR.

#[global] Instance VkImageLayout_eq_dec : EqDecision VkImageLayout.
Proof. solve_decision. Defined.

(** VkAccessFlagBits *)
Definition VK_ACCESS_SHADER_READ_BIT : Z := 0x20.
Definition VK_ACCESS_COLOR_ATTACHMENT_WRITE_BIT : Z := 0x100.
Definition VK_ACCESS_DEPTH_STENCIL_ATTACHMENT_WRITE_BIT : Z := 0x400.
Definition VK_ACCESS_TRANSFER_READ_BIT : Z := 0x800.
Definition VK_ACCESS_TRANSFER_WRITE_BIT : Z := 0x1000.
Definition VK_ACCESS_HOST_WRITE_BIT : Z := 0x4000.
Definition VK_ACCESS_MEMORY_READ_BIT : Z := 0x8000.

(** VkBufferUsageFlagBits, VkMemoryPropertyFlagBits *)
Definition VK_BUFFER_USAGE_TRANSFER_DST_BIT : Z := 0x2.
Definition VK_BUFFER_USAGE_INDEX_BUFFER_BIT : Z := 0x40.
Definition VK_MEMORY_PROPERTY_HOST_VISIBLE_BIT : Z := 0x2.

(** VkPipelineStageFlagBits, VkImageAspectFlagBits *)
Definition VK_PIPELINE_STAGE_TRANSFER_BIT : Z := 0x1000.
Definition VK_PIPELINE_STAGE_ALL_COMMANDS_BIT : Z := 0x10000.
Definition VK_IMAGE_ASPECT_COLOR_BIT : Z := 0x1.

Definition VK_QUEUE_FAMILY_IGNORED : Z := 2 ^ 32 - 1.
Definition VK_REMAINING_MIP_LEVELS : Z := 2 ^ 32 - 1.

Inductive VkSharingMode : Type := VK_SHARING_MODE_EXCLUSIVE | VK_SHARING_MODE_CONCURRENT.

Inductive VkIndexType : Type := VK_INDEX_TYPE_UINT16 | VK_INDEX_TYPE_UINT32.

Inductive VkDescriptorType : Type :=
| VK_DESCRIPTOR_TYPE_SAMPLER
| VK_DESCRIPTOR_TYPE_COMBINED_IMAGE_SAMPLER
| VK_DESCRIPTOR_TYPE_SAMPLED_IMAGE
| VK_DESCRIPTOR_TYPE_STORAGE_IMAGE
| VK_DESCRIPTOR_TYPE_UNIFORM_TEXEL_BUFFER
| VK_DESCRIPTOR_TYPE_STORAGE_TEXEL_BUFFER
| VK_DESCRIPTOR_TYPE_UNIFORM_BUFFER
| VK_DESCRIPTOR_TYPE_STORAGE_BUFFER
| VK_DESCRIPTOR_TYPE_UNIFORM_BUFFER_DYNAMIC
| VK_DESCRIPTOR_TYPE_STORAGE_BUFFER_DYNAMIC
| VK_DESCRIPTOR_TYPE_INPUT_ATTACHMENT.

Record VkBufferCreateInfo : Type := {
  bci_flags : Z;
  bci_size : Z;
  bci_usage : Z;
  bci_sharingMode : VkSharingMode;
  bci_queueFamilyIndexCount : Z
}.

Record VkMappedMemoryRange : Type := {
  mmr_memory : Z;
  mmr_offset : Z;
  mmr_size : Z
}.

Record VkDescriptorPoolSize : Type := {
  type : VkDescriptorType;
  descriptorCount : Z
}.

Record VkDescriptorPoolCreateInfo : Type := {
  dpci_flags : Z;
  dpci_maxSets : Z;
  dpci_poolSizeCount : Z;
  dpci_pPoolSizes : list VkDescriptorPoolSize
}.

Record VkDescriptorSetAllocateInfo : Type := {
  dsai_descriptorPool : Z;
  dsai_descriptorSetCount : Z;
  dsai_pSetLayouts : Z
}.

Record VkBufferCopy : Type := {
  srcOffset : Z;
  dstOffset : Z;
  size : Z
}.

Record VkImageSubresourceRange : Type := {
  isr_aspectMask : Z;
  isr_baseMipLevel : Z;
  isr_levelCount : Z;
  isr_baseArrayLayer : Z;
  isr_layerCount : Z
}.

Record VkImageMemoryBarrier : Type := {
  srcAccessMask : Z;
  dstAccessMask : Z;
  oldLayout : VkImageLayout;
  newLayout : VkImageLayout;
  srcQueueFamilyIndex : Z;
  dstQueueFamilyIndex : Z;
  image : Z;
  subresourceRange : VkImageSubresourceRange
}.

Record VkImageSubresourceLayers : Type := {
  isl_aspectMask : Z;
  isl_mipLevel : Z;
  isl_baseArrayLayer : Z;
  isl_layerCount : Z
}.

Record VkOffset3D : Type := { x : Z; y : Z; z : Z }.
Record VkExtent3D : Type := { width : Z; height : Z; depth : Z }.

Record VkImageCopy : Type := {
  srcSubresource : VkImageSubresourceLayers;
  ic_srcOffset : VkOffset3D;
  dstSubresource : VkImageSubresourceLayers;
  ic_dstOffset : VkOffset3D;
  extent : VkExtent3D
}.

End Vk.

(** ** Results and actions *)

(** What a call can come to: a value, a driver failure carried by
    [vk::Error], or behaviour the language leaves undefined (a division by
    zero, a store through a null pointer, an index outside an array, a sum of
    two [int]s that [int] does not hold). *)
Inductive Result (A : Type) : Type :=
| Ok (a : A)
| Err (e : Vk.VkResult)
| Undefined.
Arguments Ok {A} a.
Arguments Err {A} e.
Arguments Undefined {A}.

Definition Action (S A : Type) : Type := S -> Result A * S.

Definition ret {S A : Type} (a : A) : Action S A := fun s => (Ok a, s).

(** [ANGLE_TRY]: run [m]; leave with its error when it fails. *)
Definition bind {S A B : Type} (m : Action S A) (k : A -> Action S B) : Action S B :=
  fun s =>
    match m s with
    | (Ok a, s') => k a s'
    | (Err e, s') => (Err e, s')
    | (Undefined, s') => (Undefined, s')
    end.

Definition get {S : Type} : Action S S := fun s => (Ok s, s).
Definition modify {S : Type} (f : S -> S) : Action S unit := fun s => (Ok tt, f s).
Definition undefined {S A : Type} : Action S A := fun s => (Undefined, s).

(** Run an action of a part of the state on the whole. *)
Definition zoom {S T A : Type} (proj : S -> T) (inj : T -> S -> S) (m : Action T A)
  : Action S A :=
  fun s => let '(r, t') := m (proj s) in (r, inj t' s).

Notation "'do' x <- c1 ; c2" := (bind c1 (fun x => c2))
  (at level 10, x name, c1 at level 100, c2 at level 200).
Notation "'ANGLE_TRY' c1 ; c2" := (bind c1 (fun _ => c2))
  (at level 10, c1 at level 100, c2 at level 200).

(** [for (i = lo; i < hi; i++) body] with a body that leaves [i] alone: the
    body runs on [lo], [lo + 1], ..., [hi - 1], each turn starting from what
    the turn before left in the variables [a] the loop carries, and the loop
    is left at the first turn that fails. *)
Fixpoint forEach {S A : Type} (l : list Z) (body : Z -> A -> Action S A) (a : A)
  : Action S A :=
  match l with
  | [] => ret a
  | i :: rest => do a1 <- body i a; forEach rest body a1
  end.

Definition rangeZ (lo hi : Z) : list Z :=
  map (fun k => lo + Z.of_nat k) (seq 0 (Z.to_nat (hi - lo))).

Definition forRange {S A : Type} (lo hi : Z) (body : Z -> A -> Action S A) (a : A)
  : Action S A :=
  forEach (rangeZ lo hi) body a.

(** ** The device behind [renderer->getDevice()] *)

(** The driver is outside the program. The device records what was asked of
    it, hands out fresh handles, and answers each call that can fail with the
    next entry of [pendingResults] ([VK_SUCCESS] once the list is used up), so
    a theorem over every device covers every pattern of driver failures. *)
Module Device.

(** A host address inside a mapped allocation. *)
Record HostPointer : Type := {
  region : Z;
  byteOffset : Z
}.

Inductive HostWrite : Type :=
| WriteU16 (p : HostPointer) (v : Z)
| WriteU32 (p : HostPointer) (v : Z)
| WriteBytes (p : HostPointer) (bytes : list Z).

Inductive DeviceCall : Type :=
| CreateBuffer (info : Vk.VkBufferCreateInfo) (r : Vk.VkResult) (handle : Z)
| AllocateAndBindMemory (flags buffer : Z) (r : Vk.VkResult) (memory : Z)
| MapMemory (memory offset size flags : Z) (r : Vk.VkResult)
| UnmapMemory (memory : Z)
| FlushMappedMemoryRanges (ranges : list Vk.VkMappedMemoryRange) (r : Vk.VkResult)
| InvalidateMappedMemoryRanges (ranges : list Vk.VkMappedMemoryRange) (r : Vk.VkResult)
| DestroyBuffer (handle : Z)
| FreeMemory (handle : Z)
| CreateDescriptorPool (info : Vk.VkDescriptorPoolCreateInfo) (r : Vk.VkResult) (handle : Z)
| AllocateDescriptorSets (info : Vk.VkDescriptorSetAllocateInfo) (r : Vk.VkResult)
| DestroyDescriptorPool (handle : Z).

Record t : Type := {
  nextHandle : Z;
  pendingResults : list Vk.VkResult;
  memoryRequirement : Z -> Z;
  calls : list DeviceCall;
  hostWrites : list HostWrite
}.

Definition nextResult (d : t) : Vk.VkResult :=
  match pendingResults d with
  | [] => Vk.VK_SUCCESS
  | r :: _ => r
  end.

Definition answered (call : Vk.VkResult -> DeviceCall) (d : t) : t :=
  {| nextHandle := nextHandle d;
     pendingResults := tail (pendingResults d);
     memoryRequirement := memoryRequirement d;
     calls := calls d ++ [call (nextResult d)];
     hostWrites := hostWrites d |}.

Definition logged (call : DeviceCall) (d : t) : t :=
  {| nextHandle := nextHandle d;
     pendingResults := pendingResults d;
     memoryRequirement := memoryRequirement d;
     calls := calls d ++ [call];
     hostWrites := hostWrites d |}.

Definition handleTaken (d : t) : t :=
  {| nextHandle := nextHandle d + 1;
     pendingResults := pendingResults d;
     memoryRequirement := memoryRequirement d;
     calls := calls d;
     hostWrites := hostWrites d |}.

Definition written (w : HostWrite) (d : t) : t :=
  {| nextHandle := nextHandle d;
     pendingResults := pendingResults d;
     memoryRequirement := memoryRequirement d;
     calls := calls d;
     hostWrites := hostWrites d ++ [w] |}.

(** A driver call that can fail and creates nothing. *)
Definition call (c : Vk.VkResult -> DeviceCall) (d : t) : Vk.VkResult * t :=
  (nextResult d, answered c d).

(** A driver call that creates an object: on success the object gets the
    next unused handle. *)
Definition create (c : Vk.VkResult -> Z -> DeviceCall) (d : t) : Result Z * t :=
  match nextResult d with
  | Vk.VK_SUCCESS => (Ok (nextHandle d), handleTaken (answered (fun r => c r (nextHandle d)) d))
  | e => (Err e, answered (fun r => c r Vk.VK_NULL_HANDLE) d)
  end.

Definition vkFlushMappedMemoryRanges (ranges : list Vk.VkMappedMemoryRange) (d : t)
  : Vk.VkResult * t :=
  call (FlushMappedMemoryRanges ranges) d.

Definition vkInvalidateMappedMemoryRanges (ranges : list Vk.VkMappedMemoryRange) (d : t)
  : Vk.VkResult * t :=
  call (InvalidateMappedMemoryRanges ranges) d.

(** [ANGLE_VK_TRY]: a driver result other than [VK_SUCCESS] becomes the
    error of the enclosing method. *)
Definition ANGLE_VK_TRY {S : Type} (c : t -> Vk.VkResult * t) : Action (S * t) unit :=
  fun '(s, d) =>
    match c d with
    | (Vk.VK_SUCCESS, d') => (Ok tt, (s, d'))
    | (e, d') => (Err e, (s, d'))
    end.

End Device.

(** ** The renderer capability *)

Module RendererVk.

Inductive GarbageKind : Type :=
| BufferObject
| DeviceMemoryObject
| DescriptorPoolObject
| ImageObject.

Record GarbageObject : Type := {
  kind : GarbageKind;
  handle : Z
}.

Record t : Type := {
  mDevice : Device.t;
  nonCoherentAtomSize : Z;
  mCurrentQueueSerial : Z;
  mGarbage : list (Z * GarbageObject)
}.

Definition getCurrentQueueSerial (renderer : t) : Z := mCurrentQueueSerial renderer.

Definition withDevice (d : Device.t) (renderer : t) : t :=
  {| mDevice := d;
     nonCoherentAtomSize := nonCoherentAtomSize renderer;
     mCurrentQueueSerial := mCurrentQueueSerial renderer;
     mGarbage := mGarbage renderer |}.

(** Modelled from the spec: [RendererVk::releaseObject] is declared in
    RendererVk.h, which is not part of the sources. "[releaseObject(serial,
    obj)] transfers ownership of [obj] into a deferred-release queue keyed by
    [serial]": the object joins the end of [mGarbage]; the caller's wrapper is
    left without a handle. *)
Definition releaseObject (serial : Z) (k : GarbageKind) (h : Z) (renderer : t) : t :=
  {| mDevice := mDevice renderer;
     nonCoherentAtomSize := nonCoherentAtomSize renderer;
     mCurrentQueueSerial := mCurrentQueueSerial renderer;
     mGarbage := mGarbage renderer ++ [(serial, {| kind := k; handle := h |})] |}.

End RendererVk.

(** ** DynamicBuffer *)

Module DynamicBuffer.

Record BufferAndMemory : Type := {
  buffer : Z;
  memory : Z
}.

(** The fields of the class. Its declaration (vk_helpers.h) is not part of
    the sources; the widths are those the casts in [allocate] show: the two
    offsets are [uint32_t], the sizes and the alignment are [size_t]. *)
Record t : Type := {
  mUsage : Z;
  mMinSize : Z;
  mBuffer : Z;
  mMemory : Z;
  mNextAllocationOffset : Z;
  mLastFlushOrInvalidateOffset : Z;
  mSize : Z;
  mAlignment : Z;
  mMappedMemory : option Device.HostPointer;
  mRetainedBuffers : list BufferAndMemory
}.

Definition DynamicBuffer (usage minSize : Z) : t :=
  {| mUsage := usage;
     mMinSize := minSize;
     mBuffer := Vk.VK_NULL_HANDLE;
     mMemory := Vk.VK_NULL_HANDLE;
     mNextAllocationOffset := 0;
     mLastFlushOrInvalidateOffset := 0;
     mSize := 0;
     mAlignment := 0;
     mMappedMemory := None;
     mRetainedBuffers := [] |}.

Definition set_mBuffer (v : Z) (self : t) : t :=
  {| mUsage := mUsage self; mMinSize := mMinSize self; mBuffer := v; mMemory := mMemory self;
     mNextAllocationOffset := mNextAllocationOffset self;
     mLastFlushOrInvalidateOffset := mLastFlushOrInvalidateOffset self;
     mSize := mSize self; mAlignment := mAlignment self;
     mMappedMemory := mMappedMemory self; mRetainedBuffers := mRetainedBuffers self |}.

Definition set_mMemory (v : Z) (self : t) : t :=
  {| mUsage := mUsage self; mMinSize := mMinSize self; mBuffer := mBuffer self; mMemory := v;
     mNextAllocationOffset := mNextAllocationOffset self;
     mLastFlushOrInvalidateOffset := mLastFlushOrInvalidateOffset self;
     mSize := mSize self; mAlignment := mAlignment self;
     mMappedMemory := mMappedMemory self; mRetainedBuffers := mRetainedBuffers self |}.

Definition set_mNextAllocationOffset (v : Z) (self : t) : t :=
  {| mUsage := mUsage self; mMinSize := mMinSize self; mBuffer := mBuffer self;
     mMemory := mMemory self;
     mNextAllocationOffset := v;
     mLastFlushOrInvalidateOffset := mLastFlushOrInvalidateOffset self;
     mSize := mSize self; mAlignment := mAlignment self;
     mMappedMemory := mMappedMemory self; mRetainedBuffers := mRetainedBuffers self |}.

Definition set_mLastFlushOrInvalidateOffset (v : Z) (self : t) : t :=
  {| mUsage := mUsage self; mMinSize := mMinSize self; mBuffer := mBuffer self;
     mMemory := mMemory self;
     mNextAllocationOffset := mNextAllocationOffset self;
     mLastFlushOrInvalidateOffset := v;
     mSize := mSize self; mAlignment := mAlignment self;
     mMappedMemory := mMappedMemory self; mRetainedBuffers := mRetainedBuffers self |}.

Definition set_mSize (v : Z) (self : t) : t :=
  {| mUsage := mUsage self; mMinSize := mMinSize self; mBuffer := mBuffer self;
     mMemory := mMemory self;
     mNextAllocationOffset := mNextAllocationOffset self;
     mLastFlushOrInvalidateOffset := mLastFlushOrInvalidateOffset self;
     mSize := v; mAlignment := mAlignment self;
     mMappedMemory := mMappedMemory self; mRetainedBuffers := mRetainedBuffers self |}.

Definition set_mMinSize (v : Z) (self : t) : t :=
  {| mUsage := mUsage self; mMinSize := v; mBuffer := mBuffer self;
     mMemory := mMemory self;
     mNextAllocationOffset := mNextAllocationOffset self;
     mLastFlushOrInvalidateOffset := mLastFlushOrInvalidateOffset self;
     mSize := mSize self; mAlignment := mAlignment self;
     mMappedMemory := mMappedMemory self; mRetainedBuffers := mRetainedBuffers self |}.

Definition set_mAlignment (v : Z) (self : t) : t :=
  {| mUsage := mUsage self; mMinSize := mMinSize self; mBuffer := mBuffer self;
     mMemory := mMemory self;
     mNextAllocationOffset := mNextAllocationOffset self;
     mLastFlushOrInvalidateOffset := mLastFlushOrInvalidateOffset self;
     mSize := mSize self; mAlignment := v;
     mMappedMemory := mMappedMemory self; mRetainedBuffers := mRetainedBuffers self |}.

Definition set_mMappedMemory (v : option Device.HostPointer) (self : t) : t :=
  {| mUsage := mUsage self; mMinSize := mMinSize self; mBuffer := mBuffer self;
     mMemory := mMemory self;
     mNextAllocationOffset := mNextAllocationOffset self;
     mLastFlushOrInvalidateOffset := mLastFlushOrInvalidateOffset self;
     mSize := mSize self; mAlignment := mAlignment self;
     mMappedMemory := v; mRetainedBuffers := mRetainedBuffers self |}.

Definition set_mRetainedBuffers (v : list BufferAndMemory) (self : t) : t :=
  {| mUsage := mUsage self; mMinSize := mMinSize self; mBuffer := mBuffer self;
     mMemory := mMemory self;
     mNextAllocationOffset := mNextAllocationOffset self;
     mLastFlushOrInvalidateOffset := mLastFlushOrInvalidateOffset self;
     mSize := mSize self; mAlignment := mAlignment self;
     mMappedMemory := mMappedMemory self; mRetainedBuffers := v |}.

(** The object itself, and an assignment to its fields, inside an action
    that also carries the device or the renderer. *)
Definition this {X : Type} : Action (t * X) t := fun s => (Ok (fst s), s).
Definition assign {X : Type} (f : t -> t) : Action (t * X) unit :=
  modify (fun s => (f (fst s), snd s)).

Definition onDevice {A : Type} (m : Action (t * Device.t) A) : Action (t * RendererVk.t) A :=
  zoom (fun s => (fst s, RendererVk.mDevice (snd s)))
       (fun s' s => (fst s', RendererVk.withDevice (snd s') (snd s))) m.

Definition init (alignment : Z) (renderer : RendererVk.t) (self : t) : t :=
  set_mAlignment
    (Z.max alignment (Machine.to_size_t (RendererVk.nonCoherentAtomSize renderer))) self.

Definition valid (self : t) : bool := 0 <? mAlignment self.

(** Modelled from the spec: [Buffer::init], [AllocateBufferMemory],
    [DeviceMemory::map] and [DeviceMemory::unmap] are defined in vk_utils,
    which is not part of the sources. "Create a new buffer of size
    [max(need, minSize)] with the configured usage, allocate host-visible
    memory for it, bind, and map the full range." A wrapper gets its handle
    when the driver call succeeds; the size that comes back with the memory
    is the driver's requirement for the buffer. *)
Definition mBuffer_init (createInfo : Vk.VkBufferCreateInfo) : Action (t * Device.t) unit :=
  fun s =>
    match Device.create (Device.CreateBuffer createInfo) (snd s) with
    | (Ok h, d') => (Ok tt, (set_mBuffer h (fst s), d'))
    | (Err e, d') => (Err e, (fst s, d'))
    | (Undefined, d') => (Undefined, (fst s, d'))
    end.

(** Modelled from the spec: see [mBuffer_init]. *)
Definition AllocateBufferMemory (memoryPropertyFlags : Z) : Action (t * RendererVk.t) unit :=
  onDevice (fun s =>
    let self := set_mSize (Machine.to_size_t (Device.memoryRequirement (snd s) (mBuffer (fst s))))
                          (fst s) in
    match Device.create (Device.AllocateAndBindMemory memoryPropertyFlags (mBuffer self))
                        (snd s) with
    | (Ok h, d') => (Ok tt, (set_mMemory h self, d'))
    | (Err e, d') => (Err e, (self, d'))
    | (Undefined, d') => (Undefined, (self, d'))
    end).

(** Modelled from the spec: see [mBuffer_init]. *)
Definition mMemory_map (offset size flags : Z) : Action (t * Device.t) unit :=
  fun s =>
    match Device.call (Device.MapMemory (mMemory (fst s)) offset size flags) (snd s) with
    | (Vk.VK_SUCCESS, d') =>
        (Ok tt, (set_mMappedMemory
                   (Some {| Device.region := mMemory (fst s); Device.byteOffset := offset |})
                   (fst s), d'))
    | (e, d') => (Err e, (fst s, d'))
    end.

(** Modelled from the spec: see [mBuffer_init]. *)
Definition mMemory_unmap : Action (t * Device.t) unit :=
  fun s => (Ok tt, (fst s, Device.logged (Device.UnmapMemory (mMemory (fst s))) (snd s))).

Definition flush : Action (t * Device.t) unit :=
  do self <- this;
  if mLastFlushOrInvalidateOffset self <? mNextAllocationOffset self then
    let range :=
      {| Vk.mmr_memory := mMemory self;
         Vk.mmr_offset := mLastFlushOrInvalidateOffset self;
         Vk.mmr_size := mNextAllocationOffset self - mLastFlushOrInvalidateOffset self |} in
    ANGLE_TRY Device.ANGLE_VK_TRY (Device.vkFlushMappedMemoryRanges [range]);
    assign (set_mLastFlushOrInvalidateOffset (mNextAllocationOffset self))
  else ret tt.

Definition invalidate : Action (t * Device.t) unit :=
  do self <- this;
  if mLastFlushOrInvalidateOffset self <? mNextAllocationOffset self then
    let range :=
      {| Vk.mmr_memory := mMemory self;
         Vk.mmr_offset := mLastFlushOrInvalidateOffset self;
         Vk.mmr_size := mNextAllocationOffset self - mLastFlushOrInvalidateOffset self |} in
    ANGLE_TRY Device.ANGLE_VK_TRY (Device.vkInvalidateMappedMemoryRanges [range]);
    assign (set_mLastFlushOrInvalidateOffset (mNextAllocationOffset self))
  else ret tt.

(** What [allocate] writes through its out-parameters. [handleOut] and
    [newBufferAllocatedOut] may be null pointers: they are written ([Some])
    only when the caller passes a place for them. *)
Record AllocateOut : Type := {
  ptrOut : option Device.HostPointer;
  handleOut : option Z;
  offsetOut : Z;
  newBufferAllocatedOut : option bool
}.

Definition pointerAdd (p : option Device.HostPointer) (n : Z) : option Device.HostPointer :=
  match p with
  | Some q => Some {| Device.region := Device.region q;
                      Device.byteOffset := Device.byteOffset q + n |}
  | None => None
  end.

Definition isMapped (self : t) : bool :=
  match mMappedMemory self with Some _ => true | None => false end.

(** [mRetainedBuffers.emplace_back(std::move(mBuffer), std::move(mMemory))]:
    the pair joins the end of the list and the two wrappers are left
    without a handle. *)
Definition retainCurrent (self : t) : t :=
  set_mMemory Vk.VK_NULL_HANDLE
    (set_mBuffer Vk.VK_NULL_HANDLE
       (set_mRetainedBuffers
          (mRetainedBuffers self ++ [{| buffer := mBuffer self; memory := mMemory self |}])
          self)).

(** The body of the [if] in [allocate], up to the two offsets it resets:
    the current backing is flushed and unmapped when it is mapped and put
    among the retained buffers, and a new one is created, given memory and
    mapped. *)
Definition rotate (sizeToAllocate : Z) : Action (t * RendererVk.t) unit :=
  do self <- this;
  ANGLE_TRY (if isMapped self
             then ANGLE_TRY onDevice flush;
                  ANGLE_TRY onDevice mMemory_unmap;
                  assign (set_mMappedMemory None)
             else ret tt);
  ANGLE_TRY assign retainCurrent;
  let createInfo :=
    {| Vk.bci_flags := 0;
       Vk.bci_size := Z.max sizeToAllocate (mMinSize self);
       Vk.bci_usage := mUsage self;
       Vk.bci_sharingMode := Vk.VK_SHARING_MODE_EXCLUSIVE;
       Vk.bci_queueFamilyIndexCount := 0 |} in
  ANGLE_TRY onDevice (mBuffer_init createInfo);
  ANGLE_TRY AllocateBufferMemory Vk.VK_MEMORY_PROPERTY_HOST_VISIBLE_BIT;
  do self1 <- this;
  ANGLE_TRY onDevice (mMemory_map 0 (mSize self1) 0);
  ANGLE_TRY assign (set_mNextAllocationOffset 0);
  assign (set_mLastFlushOrInvalidateOffset 0).

(** The test of the [if] in [allocate]: the checked sum is invalid, or it
    reaches [mSize]. *)
Definition needsNewBuffer (sizeToAllocate : Z) (self : t) : bool :=
  match Machine.CheckedAdd (mNextAllocationOffset self) sizeToAllocate with
  | None => true
  | Some v => mSize self <=? v
  end.

Definition allocate (sizeInBytes : Z) (handleRequested newBufferAllocatedRequested : bool)
  : Action (t * RendererVk.t) AllocateOut :=
  do self <- this;
  if mAlignment self =? 0 then undefined else
  let sizeToAllocate := Machine.roundUp sizeInBytes (mAlignment self) in
  do newBufferAllocated <-
    (if needsNewBuffer sizeToAllocate self
     then ANGLE_TRY rotate sizeToAllocate;
          ret (if newBufferAllocatedRequested then Some true else None)
     else ret (if newBufferAllocatedRequested then Some false else None));
  do self2 <- this;
  let out :=
    {| ptrOut := pointerAdd (mMappedMemory self2) (mNextAllocationOffset self2);
       handleOut := if handleRequested then Some (mBuffer self2) else None;
       offsetOut := mNextAllocationOffset self2;
       newBufferAllocatedOut := newBufferAllocated |} in
  ANGLE_TRY assign (set_mNextAllocationOffset
                      (Machine.to_uint32
                         (mNextAllocationOffset self2 + Machine.to_uint32 sizeToAllocate)));
  ret out.

(** One turn of the loop of [releaseRetainedBuffers]. *)
Definition releaseOne (renderer : RendererVk.t) (toFree : BufferAndMemory) : RendererVk.t :=
  let currentSerial := RendererVk.getCurrentQueueSerial renderer in
  RendererVk.releaseObject currentSerial RendererVk.DeviceMemoryObject (memory toFree)
    (RendererVk.releaseObject currentSerial RendererVk.BufferObject (buffer toFree) renderer).

Definition releaseRetainedBuffers (s : t * RendererVk.t) : t * RendererVk.t :=
  (set_mRetainedBuffers [] (fst s), fold_left releaseOne (mRetainedBuffers (fst s)) (snd s)).

Definition release (s : t * RendererVk.t) : t * RendererVk.t :=
  let s1 := releaseRetainedBuffers s in
  let self := set_mAlignment 0 (fst s1) in
  let currentSerial := RendererVk.getCurrentQueueSerial (snd s1) in
  let renderer1 :=
    RendererVk.releaseObject currentSerial RendererVk.BufferObject (mBuffer self) (snd s1) in
  let renderer2 :=
    RendererVk.releaseObject currentSerial RendererVk.DeviceMemoryObject (mMemory self)
      renderer1 in
  (set_mMemory Vk.VK_NULL_HANDLE (set_mBuffer Vk.VK_NULL_HANDLE self), renderer2).

Definition getCurrentBufferHandle (self : t) : Z := mBuffer self.

Definition setMinimumSizeForTesting (minSize : Z) (self : t) : t :=
  set_mSize 0 (set_mMinSize minSize self).

(** A run of [allocate] calls, one per requested size, each asking for the
    handle and for the new-buffer flag; the results come back in call
    order. *)
Fixpoint allocateAll (sizes : list Z) (s : t * RendererVk.t)
  : list (Result AllocateOut) * (t * RendererVk.t) :=
  match sizes with
  | [] => ([], s)
  | sizeInBytes :: rest =>
      let '(r, s1) := allocate sizeInBytes true true s in
      let '(rs, s2) := allocateAll rest s1 in
      (r :: rs, s2)
  end.

(** Modelled from the spec: [Buffer::destroy] and [DeviceMemory::destroy]
    are defined in vk_utils, which is not part of the sources. "[destroy]
    immediately releases resources"; "[destroy] followed by [destroy] is
    safe": a wrapper that holds a handle has the driver destroy it and is left
    without a handle; a wrapper without a handle does nothing. *)
Definition Buffer_destroy (handle : Z) (d : Device.t) : Z * Device.t :=
  if handle =? Vk.VK_NULL_HANDLE then (handle, d)
  else (Vk.VK_NULL_HANDLE, Device.logged (Device.DestroyBuffer handle) d).

(** Modelled from the spec: see [Buffer_destroy]. *)
Definition DeviceMemory_destroy (handle : Z) (d : Device.t) : Z * Device.t :=
  if handle =? Vk.VK_NULL_HANDLE then (handle, d)
  else (Vk.VK_NULL_HANDLE, Device.logged (Device.FreeMemory handle) d).

(** One turn of the loop of [destroy]. *)
Definition destroyOne (d : Device.t) (toFree : BufferAndMemory) : Device.t :=
  snd (DeviceMemory_destroy (memory toFree) (snd (Buffer_destroy (buffer toFree) d))).

Definition destroy (s : t * Device.t) : t * Device.t :=
  let d1 := fold_left destroyOne (mRetainedBuffers (fst s)) (snd s) in
  let self1 := set_mAlignment 0 (set_mRetainedBuffers [] (fst s)) in
  let b := Buffer_destroy (mBuffer self1) d1 in
  let m := DeviceMemory_destroy (mMemory self1) (snd b) in
  (set_mMemory (fst m) (set_mBuffer (fst b) self1), snd m).

End DynamicBuffer.

(** ** DynamicDescriptorPool *)

Module DynamicDescriptorPool.

(** The fields of the class; the counters and the entries of
    [mFreeDescriptorSets] are [uint32_t]. *)
Record t : Type := {
  mMaxSetsPerPool : Z;
  mCurrentSetsCount : Z;
  mCurrentDescriptorPool : Z;
  mPoolSizes : list Vk.VkDescriptorPoolSize;
  mFreeDescriptorSets : list Z
}.

Definition set_mCurrentDescriptorPool (v : Z) (self : t) : t :=
  {| mMaxSetsPerPool := mMaxSetsPerPool self; mCurrentSetsCount := mCurrentSetsCount self;
     mCurrentDescriptorPool := v; mPoolSizes := mPoolSizes self;
     mFreeDescriptorSets := mFreeDescriptorSets self |}.

Definition set_mCurrentSetsCount (v : Z) (self : t) : t :=
  {| mMaxSetsPerPool := mMaxSetsPerPool self; mCurrentSetsCount := v;
     mCurrentDescriptorPool := mCurrentDescriptorPool self; mPoolSizes := mPoolSizes self;
     mFreeDescriptorSets := mFreeDescriptorSets self |}.

Definition set_mFreeDescriptorSets (v : list Z) (self : t) : t :=
  {| mMaxSetsPerPool := mMaxSetsPerPool self; mCurrentSetsCount := mCurrentSetsCount self;
     mCurrentDescriptorPool := mCurrentDescriptorPool self; mPoolSizes := mPoolSizes self;
     mFreeDescriptorSets := v |}.

Definition set_mPoolSizes (v : list Vk.VkDescriptorPoolSize) (self : t) : t :=
  {| mMaxSetsPerPool := mMaxSetsPerPool self; mCurrentSetsCount := mCurrentSetsCount self;
     mCurrentDescriptorPool := mCurrentDescriptorPool self; mPoolSizes := v;
     mFreeDescriptorSets := mFreeDescriptorSets self |}.

Definition setMaxSetsPerPoolForTesting (maxSetsPerPool : Z) (self : t) : t :=
  {| mMaxSetsPerPool := maxSetsPerPool; mCurrentSetsCount := mCurrentSetsCount self;
     mCurrentDescriptorPool := mCurrentDescriptorPool self; mPoolSizes := mPoolSizes self;
     mFreeDescriptorSets := mFreeDescriptorSets self |}.

Definition this {X : Type} : Action (t * X) t := fun s => (Ok (fst s), s).
Definition assign {X : Type} (f : t -> t) : Action (t * X) unit :=
  modify (fun s => (f (fst s), snd s)).

Definition onDevice {A : Type} (m : Action (t * Device.t) A) : Action (t * RendererVk.t) A :=
  zoom (fun s => (fst s, RendererVk.mDevice (snd s)))
       (fun s' s => (fst s', RendererVk.withDevice (snd s') (snd s))) m.

Section Constants.

(** The constants of vk_helpers.h, which is not part of the sources: the two
    slot indices, the default ceiling on sets per pool and the number of
    entries of the [mFreeDescriptorSets] array. *)
Variables kUniformsDescriptorSetIndex kTextureDescriptorSetIndex : nat.
Variable kDefaultDescriptorPoolMaxSets : Z.
Variable kMaxDescriptorSetLayouts : nat.

Definition GetDescriptorSetIndexfromType (descriptorType : Vk.VkDescriptorType) : nat :=
  match descriptorType with
  | Vk.VK_DESCRIPTOR_TYPE_UNIFORM_BUFFER_DYNAMIC => kUniformsDescriptorSetIndex
  | Vk.VK_DESCRIPTOR_TYPE_COMBINED_IMAGE_SAMPLER => kTextureDescriptorSetIndex
  | _ => 0%nat
  end.

Definition DynamicDescriptorPool : t :=
  {| mMaxSetsPerPool := kDefaultDescriptorPoolMaxSets;
     mCurrentSetsCount := 0;
     mCurrentDescriptorPool := Vk.VK_NULL_HANDLE;
     mPoolSizes := [];
     mFreeDescriptorSets := replicate kMaxDescriptorSetLayouts 0 |}.

(** [mFreeDescriptorSets[setIndex] += poolSize.descriptorCount]. The slot
    indices lie inside the array; an index outside it (undefined in the
    source) reads 0 and stores nothing here. *)
Definition addPoolSize (free : list Z) (poolSize : Vk.VkDescriptorPoolSize) : list Z :=
  let setIndex := GetDescriptorSetIndexfromType (Vk.type poolSize) in
  <[setIndex := Machine.to_uint32 (default 0 (free !! setIndex) + Vk.descriptorCount poolSize)]>
    free.

(** Modelled from the spec: [DescriptorPool::init] and
    [DescriptorPool::allocateDescriptorSets] are defined in vk_utils, which
    is not part of the sources. "Underlying pool-allocation failure is
    surfaced to the caller": each is one driver call that can fail; [init]
    gives the wrapper its handle. The sets handed back are not tracked. *)
Definition mCurrentDescriptorPool_init (info : Vk.VkDescriptorPoolCreateInfo)
  : Action (t * Device.t) unit :=
  fun s =>
    match Device.create (Device.CreateDescriptorPool info) (snd s) with
    | (Ok h, d') => (Ok tt, (set_mCurrentDescriptorPool h (fst s), d'))
    | (Err e, d') => (Err e, (fst s, d'))
    | (Undefined, d') => (Undefined, (fst s, d'))
    end.

(** Modelled from the spec: see [mCurrentDescriptorPool_init]. *)
Definition mCurrentDescriptorPool_allocateDescriptorSets
  (allocInfo : Vk.VkDescriptorSetAllocateInfo) : Action (t * Device.t) unit :=
  Device.ANGLE_VK_TRY (Device.call (Device.AllocateDescriptorSets allocInfo)).

Definition allocateNewPool : Action (t * Device.t) unit :=
  do self <- this;
  let descriptorPoolInfo :=
    {| Vk.dpci_flags := 0;
       Vk.dpci_maxSets := mMaxSetsPerPool self;
       Vk.dpci_poolSizeCount := Machine.to_uint32 (Z.of_nat (length (mPoolSizes self)));
       Vk.dpci_pPoolSizes := mPoolSizes self |} in
  ANGLE_TRY assign (fun p =>
              set_mFreeDescriptorSets (replicate (length (mFreeDescriptorSets p)) 0) p);
  ANGLE_TRY assign (set_mCurrentSetsCount 0);
  ANGLE_TRY assign (fun p =>
              set_mFreeDescriptorSets
                (fold_left addPoolSize (mPoolSizes p) (mFreeDescriptorSets p)) p);
  mCurrentDescriptorPool_init descriptorPoolInfo.

Definition init (poolSizes : list Vk.VkDescriptorPoolSize) : Action (t * Device.t) unit :=
  ANGLE_TRY assign (set_mPoolSizes poolSizes);
  allocateNewPool.

(** [renderer->releaseObject(currentSerial, &mCurrentDescriptorPool)] *)
Definition releaseCurrentPool : Action (t * RendererVk.t) unit :=
  fun s =>
    let currentSerial := RendererVk.getCurrentQueueSerial (snd s) in
    (Ok tt,
     (set_mCurrentDescriptorPool Vk.VK_NULL_HANDLE (fst s),
      RendererVk.releaseObject currentSerial RendererVk.DescriptorPoolObject
        (mCurrentDescriptorPool (fst s)) (snd s))).

(** The test of the [if] in [allocateSets]. *)
Definition needsNewPool (descriptorSetCount : Z) (descriptorSetIndex : nat) (self : t) : bool :=
  (default 0 (mFreeDescriptorSets self !! descriptorSetIndex) <? descriptorSetCount)
  || (mMaxSetsPerPool self <=? mCurrentSetsCount self).

(** An index outside [mFreeDescriptorSets] is undefined behaviour. *)
Definition allocateSets (descriptorSetLayout descriptorSetCount : Z) (descriptorSetIndex : nat)
  : Action (t * RendererVk.t) unit :=
  do self <- this;
  if negb (bool_decide (descriptorSetIndex < length (mFreeDescriptorSets self))%nat)
  then undefined
  else
    ANGLE_TRY (if needsNewPool descriptorSetCount descriptorSetIndex self
               then ANGLE_TRY releaseCurrentPool;
                    onDevice allocateNewPool
               else ret tt);
    do self1 <- this;
    let allocInfo :=
      {| Vk.dsai_descriptorPool := mCurrentDescriptorPool self1;
         Vk.dsai_descriptorSetCount := descriptorSetCount;
         Vk.dsai_pSetLayouts := descriptorSetLayout |} in
    ANGLE_TRY onDevice (mCurrentDescriptorPool_allocateDescriptorSets allocInfo);
    ANGLE_TRY assign (fun p =>
                set_mFreeDescriptorSets
                  (<[descriptorSetIndex :=
                       Machine.to_uint32
                         (default 0 (mFreeDescriptorSets p !! descriptorSetIndex)
                          - descriptorSetCount)]> (mFreeDescriptorSets p)) p);
    assign (fun p => set_mCurrentSetsCount (Machine.to_uint32 (mCurrentSetsCount p + 1)) p).

(** A run of [allocateSets] calls, each given as (slot index, count). *)
Fixpoint allocateSetsAll (descriptorSetLayout : Z) (requests : list (nat * Z))
  (s : t * RendererVk.t) : list (Result unit * (t * RendererVk.t)) :=
  match requests with
  | [] => []
  | (descriptorSetIndex, descriptorSetCount) :: rest =>
      let r := allocateSets descriptorSetLayout descriptorSetCount descriptorSetIndex s in
      r :: allocateSetsAll descriptorSetLayout rest (snd r)
  end.

End Constants.

End DynamicDescriptorPool.

(** ** Command recording *)

Module CommandBuffer.

Inductive Command : Type :=
| copyBuffer (srcBuffer destBuffer regionCount : Z) (regions : list Vk.VkBufferCopy)
| drawIndexed (indexCount instanceCount firstIndex vertexOffset firstInstance : Z)
| singleImageBarrier (srcStageMask dstStageMask dependencyFlags : Z)
    (imageMemoryBarrier : Vk.VkImageMemoryBarrier)
| copyImage (srcImage : Z) (srcImageLayout : Vk.VkImageLayout)
    (dstImage : Z) (dstImageLayout : Vk.VkImageLayout)
    (regionCount : Z) (regions : list Vk.VkImageCopy).

(** A command buffer is the list of the commands recorded into it, oldest
    first. *)
Definition t : Type := list Command.

Definition record (c : Command) (commandBuffer : t) : t := commandBuffer ++ [c].

End CommandBuffer.

(** ** The draw-call parameters and the element-array buffer *)

Module Gl.

Inductive GLenum : Type :=
| GL_UNSIGNED_BYTE
| GL_UNSIGNED_SHORT
| GL_UNSIGNED_INT.

#[global] Instance GLenum_eq_dec : EqDecision GLenum.
Proof. solve_decision. Defined.

Record Offset : Type := { x : Z; y : Z; z : Z }.
Record Extents : Type := { width : Z; height : Z; depth : Z }.

(** Modelled from the spec: [gl::DrawCallParams] is declared in
    libANGLE/params.h, which is not part of the sources. "Draw-call
    parameters: first vertex, vertex count, index count, index type, and (for
    client draws) a host-side index pointer." The first vertex is a [GLint],
    the vertex count a [size_t], the index count a [GLsizei]; [mIndices] is
    the client memory readable at the index pointer, byte by byte. *)
Record DrawCallParams : Type := {
  mFirstVertex : Z;
  mVertexCount : Z;
  mIndexCount : Z;
  mType : GLenum;
  mIndices : list Z
}.

Definition firstVertex (p : DrawCallParams) : Z := mFirstVertex p.
Definition vertexCount (p : DrawCallParams) : Z := mVertexCount p.
Definition indexCount (p : DrawCallParams) : Z := mIndexCount p.
Definition type (p : DrawCallParams) : GLenum := mType p.
Definition indices (p : DrawCallParams) : list Z := mIndices p.

(** Modelled from the spec: [getClampedVertexCount<uint32_t>], see
    [DrawCallParams]; the vertex count cut down to what [uint32_t] holds. *)
Definition getClampedVertexCount_uint32 (p : DrawCallParams) : Z :=
  if Machine.UINT32_MAX <? mVertexCount p then Machine.UINT32_MAX else mVertexCount p.

(** Modelled from the spec: [gl_vk::GetIndexType] is defined in vk_utils,
    which is not part of the sources. "The underlying GPU API does not accept
    8-bit indices": unsigned bytes and unsigned shorts are drawn as 16-bit
    indices. *)
Definition GetIndexType (t : GLenum) : Vk.VkIndexType :=
  match t with
  | GL_UNSIGNED_BYTE => Vk.VK_INDEX_TYPE_UINT16
  | GL_UNSIGNED_SHORT => Vk.VK_INDEX_TYPE_UINT16
  | GL_UNSIGNED_INT => Vk.VK_INDEX_TYPE_UINT32
  end.

End Gl.

Module BufferVk.

(** Modelled from the spec: [BufferVk] and the command graph it takes part in
    are not part of the sources. "The helper also adds a read-after-write
    dependency from the source buffer": the buffer keeps the list of the
    command-graph nodes that read it. *)
Record t : Type := {
  mBuffer : Z;
  mCurrentReadingNodes : list Z
}.

Definition addReadDependency (readingNode : Z) (self : t) : t :=
  {| mBuffer := mBuffer self;
     mCurrentReadingNodes := mCurrentReadingNodes self ++ [readingNode] |}.

End BufferVk.

(** ** LineLoopHelper *)

Module LineLoopHelper.

Definition kLineLoopDynamicBufferUsage : Z :=
  Z.lor Vk.VK_BUFFER_USAGE_INDEX_BUFFER_BIT Vk.VK_BUFFER_USAGE_TRANSFER_DST_BIT.
Definition kLineLoopDynamicBufferMinSize : Z := 1024 * 1024.

(** [mDynamicIndexBuffer] is the one field of the class. The helper is also
    a command-graph resource (a base class that is not part of the sources):
    [mCurrentWritingNode] names its node in the graph and [mCommands] is the
    command buffer [beginWriteResource] hands out. *)
Record t : Type := {
  mDynamicIndexBuffer : DynamicBuffer.t;
  mCurrentWritingNode : Z;
  mCommands : CommandBuffer.t
}.

Definition set_mDynamicIndexBuffer (v : DynamicBuffer.t) (self : t) : t :=
  {| mDynamicIndexBuffer := v;
     mCurrentWritingNode := mCurrentWritingNode self;
     mCommands := mCommands self |}.

Definition set_mCommands (v : CommandBuffer.t) (self : t) : t :=
  {| mDynamicIndexBuffer := mDynamicIndexBuffer self;
     mCurrentWritingNode := mCurrentWritingNode self;
     mCommands := v |}.

Definition LineLoopHelper (renderer : RendererVk.t) (node : Z) : t :=
  {| mDynamicIndexBuffer :=
       DynamicBuffer.init 4 renderer
         (DynamicBuffer.DynamicBuffer kLineLoopDynamicBufferUsage kLineLoopDynamicBufferMinSize);
     mCurrentWritingNode := node;
     mCommands := [] |}.

(** A method of [mDynamicIndexBuffer] run on the helper. *)
Definition onIndexBuffer {X A : Type} (m : Action (DynamicBuffer.t * X) A) : Action (t * X) A :=
  zoom (fun s => (mDynamicIndexBuffer (fst s), snd s))
       (fun s' s => (set_mDynamicIndexBuffer (fst s') (fst s), snd s')) m.

Definition onDevice {A : Type} (m : Action (t * Device.t) A) : Action (t * RendererVk.t) A :=
  zoom (fun s => (fst s, RendererVk.mDevice (snd s)))
       (fun s' s => (fst s', RendererVk.withDevice (snd s') (snd s))) m.

(** A store through a host pointer. *)
Definition store (w : Device.HostWrite) : Action (t * RendererVk.t) unit :=
  modify (fun s =>
            (fst s, RendererVk.withDevice (Device.written w (RendererVk.mDevice (snd s))) (snd s))).

Definition advance (p : Device.HostPointer) (n : Z) : Device.HostPointer :=
  {| Device.region := Device.region p; Device.byteOffset := Device.byteOffset p + n |}.

(** What an entry point writes through [bufferHandleOut] and [offsetOut]. *)
Record IndexBufferOut : Type := {
  bufferHandleOut : option Z;
  offsetOut : Z
}.

Definition getIndexBufferForDrawArrays (drawCallParams : Gl.DrawCallParams)
  : Action (t * RendererVk.t) IndexBufferOut :=
  let allocateBytes :=
    Machine.to_size_t (4 * Machine.to_size_t (Gl.vertexCount drawCallParams + 1)) in
  ANGLE_TRY modify (fun s =>
              let s' := DynamicBuffer.releaseRetainedBuffers (mDynamicIndexBuffer (fst s), snd s) in
              (set_mDynamicIndexBuffer (fst s') (fst s), snd s'));
  do out <- onIndexBuffer (DynamicBuffer.allocate allocateBytes true false);
  let offset := DynamicBuffer.offsetOut out in
  let clampedVertexCount := Gl.getClampedVertexCount_uint32 drawCallParams in
  let unsignedFirstVertex := Machine.to_uint32 (Gl.firstVertex drawCallParams) in
  let vertexCount := Machine.to_uint32 (clampedVertexCount + unsignedFirstVertex) in
  match DynamicBuffer.ptrOut out with
  | None => undefined
  | Some indices =>
      do indices1 <-
        forRange unsignedFirstVertex vertexCount
          (fun vertexIndex p =>
             ANGLE_TRY store (Device.WriteU32 p vertexIndex);
             ret (advance p 4))
          indices;
      ANGLE_TRY store (Device.WriteU32 indices1 unsignedFirstVertex);
      ANGLE_TRY onDevice (onIndexBuffer DynamicBuffer.flush);
      ret {| bufferHandleOut := DynamicBuffer.handleOut out; offsetOut := offset |}
  end.

Definition unitSizeOf (indexType : Vk.VkIndexType) : Z :=
  match indexType with
  | Vk.VK_INDEX_TYPE_UINT16 => 2
  | Vk.VK_INDEX_TYPE_UINT32 => 4
  end.

(** [indexCount] is an [int], and [indexCount + 1] is added as [int]s
    before the product with [unitSize] widens it to [size_t]. *)
Definition getIndexBufferForElementArrayBuffer (elementArrayBufferVk : BufferVk.t)
  (indexType : Vk.VkIndexType) (indexCount elementArrayOffset : Z)
  : Action (t * RendererVk.t) (IndexBufferOut * BufferVk.t) :=
  let unitSize := unitSizeOf indexType in
  match Machine.add_int indexCount 1 with
  | None => undefined
  | Some indexCountPlusOne =>
  let allocateBytes := Machine.to_size_t (unitSize * Machine.to_size_t indexCountPlusOne) in
  ANGLE_TRY modify (fun s =>
              let s' := DynamicBuffer.releaseRetainedBuffers (mDynamicIndexBuffer (fst s), snd s) in
              (set_mDynamicIndexBuffer (fst s') (fst s), snd s'));
  do out <- onIndexBuffer (DynamicBuffer.allocate allocateBytes true false);
  let destinationOffset := DynamicBuffer.offsetOut out in
  let sourceOffset := Machine.to_size_t elementArrayOffset in
  let unitCount := Machine.to_size_t indexCount in
  let copy1 :=
    {| Vk.srcOffset := sourceOffset;
       Vk.dstOffset := destinationOffset;
       Vk.size := Machine.to_size_t (unitCount * unitSize) |} in
  let copy2 :=
    {| Vk.srcOffset := sourceOffset;
       Vk.dstOffset := Machine.to_size_t (destinationOffset + Machine.to_size_t (unitCount * unitSize));
       Vk.size := unitSize |} in
  let copies := [copy1; copy2] in
  do self <- (fun s => (Ok (fst s), s));
  let elementArrayBufferVk1 :=
    BufferVk.addReadDependency (mCurrentWritingNode self) elementArrayBufferVk in
  ANGLE_TRY modify (fun s =>
              (set_mCommands
                 (CommandBuffer.record
                    (CommandBuffer.copyBuffer (BufferVk.mBuffer elementArrayBufferVk1)
                       (default Vk.VK_NULL_HANDLE (DynamicBuffer.handleOut out)) 2 copies)
                    (mCommands (fst s))) (fst s), snd s));
  ANGLE_TRY onDevice (onIndexBuffer DynamicBuffer.flush);
  ret ({| bufferHandleOut := DynamicBuffer.handleOut out; offsetOut := destinationOffset |},
       elementArrayBufferVk1)
  end.

(** [memcpy(dst, src, n)] from the client array: [None] when the array has
    fewer than [n] bytes to read. *)
Definition clientBytes (src : list Z) (n : Z) : option (list Z) :=
  if (0 <=? n) && (n <=? Z.of_nat (length src)) then Some (take (Z.to_nat n) src) else None.

(** [indexCount()] is a [GLsizei], an [int]: [indexCount() + 1] is added
    as [int]s before the product with [unitSize] widens it to [size_t]. *)
Definition getIndexBufferForClientElementArray (drawCallParams : Gl.DrawCallParams)
  : Action (t * RendererVk.t) IndexBufferOut :=
  let indexType := Gl.GetIndexType (Gl.type drawCallParams) in
  let unitSize := unitSizeOf indexType in
  match Machine.add_int (Gl.indexCount drawCallParams) 1 with
  | None => undefined
  | Some indexCountPlusOne =>
  let allocateBytes := Machine.to_size_t (unitSize * Machine.to_size_t indexCountPlusOne) in
  do out <- onIndexBuffer (DynamicBuffer.allocate allocateBytes true false);
  let offset := DynamicBuffer.offsetOut out in
  match DynamicBuffer.ptrOut out with
  | None => undefined
  | Some indices =>
      ANGLE_TRY (if decide (Gl.type drawCallParams = Gl.GL_UNSIGNED_BYTE)
                 then
                   let indicesDst := indices in
                   let srcPtr := Gl.indices drawCallParams in
                   ANGLE_TRY forRange 0 (Gl.indexCount drawCallParams)
                     (fun i _ =>
                        match srcPtr !! Z.to_nat i with
                        | Some b => store (Device.WriteU16 (advance indicesDst (2 * i)) b)
                        | None => undefined
                        end)
                     tt;
                   match srcPtr !! 0%nat with
                   | Some b =>
                       store (Device.WriteU16
                                (advance indicesDst (2 * Gl.indexCount drawCallParams)) b)
                   | None => undefined
                   end
                 else
                   match clientBytes (Gl.indices drawCallParams)
                           (unitSize * Gl.indexCount drawCallParams),
                         clientBytes (Gl.indices drawCallParams) unitSize with
                   | Some body, Some head =>
                       ANGLE_TRY store (Device.WriteBytes indices body);
                       store (Device.WriteBytes
                                (advance indices (unitSize * Gl.indexCount drawCallParams)) head)
                   | _, _ => undefined
                   end);
      ANGLE_TRY onDevice (onIndexBuffer DynamicBuffer.flush);
      ret {| bufferHandleOut := DynamicBuffer.handleOut out; offsetOut := offset |}
  end
  end.

Definition Draw (count : Z) (commandBuffer : CommandBuffer.t) : CommandBuffer.t :=
  CommandBuffer.record (CommandBuffer.drawIndexed (Machine.to_uint32 (count + 1)) 1 0 0 0)
    commandBuffer.

Definition destroy (s : t * Device.t) : t * Device.t :=
  let s' := DynamicBuffer.destroy (mDynamicIndexBuffer (fst s), snd s) in
  (set_mDynamicIndexBuffer (fst s') (fst s), snd s').

End LineLoopHelper.

(** ** ImageHelper *)

Module ImageHelper.

Record t : Type := {
  mImage : Z;
  mDeviceMemory : Z;
  mExtents : Gl.Extents;
  mFormat : Z;
  mSamples : Z;
  mAllocatedMemorySize : Z;
  mCurrentLayout : Vk.VkImageLayout;
  mLayerCount : Z
}.

Definition set_mCurrentLayout (v : Vk.VkImageLayout) (self : t) : t :=
  {| mImage := mImage self; mDeviceMemory := mDeviceMemory self; mExtents := mExtents self;
     mFormat := mFormat self; mSamples := mSamples self;
     mAllocatedMemorySize := mAllocatedMemorySize self;
     mCurrentLayout := v; mLayerCount := mLayerCount self |}.

Definition getCurrentLayout (self : t) : Vk.VkImageLayout := mCurrentLayout self.
Definition getImage (self : t) : Z := mImage self.

(** Gets access flags that are common between source and dest layouts. The
    [default] branch passes [UNREACHABLE()] and returns 0. *)
Definition GetBasicLayoutAccessFlags (layout : Vk.VkImageLayout) : Z :=
  match layout with
  | Vk.VK_IMAGE_LAYOUT_COLOR_ATTACHMENT_OPTIMAL => Vk.VK_ACCESS_COLOR_ATTACHMENT_WRITE_BIT
  | Vk.VK_IMAGE_LAYOUT_DEPTH_STENCIL_ATTACHMENT_OPTIMAL =>
      Vk.VK_ACCESS_DEPTH_STENCIL_ATTACHMENT_WRITE_BIT
  | Vk.VK_IMAGE_LAYOUT_TRANSFER_DST_OPTIMAL => Vk.VK_ACCESS_TRANSFER_WRITE_BIT
  | Vk.VK_IMAGE_LAYOUT_PRESENT_SRC_KHR => Vk.VK_ACCESS_MEMORY_READ_BIT
  | Vk.VK_IMAGE_LAYOUT_TRANSFER_SRC_OPTIMAL => Vk.VK_ACCESS_TRANSFER_READ_BIT
  | Vk.VK_IMAGE_LAYOUT_UNDEFINED
  | Vk.VK_IMAGE_LAYOUT_GENERAL
  | Vk.VK_IMAGE_LAYOUT_PREINITIALIZED => 0
  | _ => 0
  end.

Definition changeLayoutWithStages (aspectMask : Z) (newLayout : Vk.VkImageLayout)
  (srcStageMask dstStageMask : Z) (s : t * CommandBuffer.t) : t * CommandBuffer.t :=
  let self := fst s in
  let srcAccessMask0 := GetBasicLayoutAccessFlags (mCurrentLayout self) in
  let srcAccessMask1 :=
    if decide (mCurrentLayout self = Vk.VK_IMAGE_LAYOUT_PREINITIALIZED)
    then Z.lor srcAccessMask0 Vk.VK_ACCESS_HOST_WRITE_BIT
    else srcAccessMask0 in
  let dstAccessMask0 := GetBasicLayoutAccessFlags newLayout in
  let srcAccessMask2 :=
    if decide (newLayout = Vk.VK_IMAGE_LAYOUT_SHADER_READ_ONLY_OPTIMAL)
    then Z.lor srcAccessMask1 (Z.lor Vk.VK_ACCESS_HOST_WRITE_BIT Vk.VK_ACCESS_TRANSFER_WRITE_BIT)
    else srcAccessMask1 in
  let dstAccessMask1 :=
    if decide (newLayout = Vk.VK_IMAGE_LAYOUT_SHADER_READ_ONLY_OPTIMAL)
    then Z.lor dstAccessMask0 Vk.VK_ACCESS_SHADER_READ_BIT
    else dstAccessMask0 in
  let dstAccessMask2 :=
    if decide (newLayout = Vk.VK_IMAGE_LAYOUT_DEPTH_STENCIL_ATTACHMENT_OPTIMAL)
    then Z.lor dstAccessMask1 Vk.VK_ACCESS_DEPTH_STENCIL_ATTACHMENT_WRITE_BIT
    else dstAccessMask1 in
  let imageMemoryBarrier :=
    {| Vk.srcAccessMask := srcAccessMask2;
       Vk.dstAccessMask := dstAccessMask2;
       Vk.oldLayout := mCurrentLayout self;
       Vk.newLayout := newLayout;
       Vk.srcQueueFamilyIndex := Vk.VK_QUEUE_FAMILY_IGNORED;
       Vk.dstQueueFamilyIndex := Vk.VK_QUEUE_FAMILY_IGNORED;
       Vk.image := mImage self;
       Vk.subresourceRange :=
         {| Vk.isr_aspectMask := aspectMask;
            Vk.isr_baseMipLevel := 0;
            Vk.isr_levelCount := Vk.VK_REMAINING_MIP_LEVELS;
            Vk.isr_baseArrayLayer := 0;
            Vk.isr_layerCount := mLayerCount self |} |} in
  (set_mCurrentLayout newLayout self,
   CommandBuffer.record
     (CommandBuffer.singleImageBarrier srcStageMask dstStageMask 0 imageMemoryBarrier) (snd s)).

(** [Copy] gets its two images by pointer, and nothing keeps a caller from
    passing the same image twice: the images live in a store keyed by
    address, and a method called through a pointer updates the store. A
    pointer to no image is undefined behaviour. *)
Definition through (p : Z) (method : t * CommandBuffer.t -> t * CommandBuffer.t)
  : Action (gmap Z t * CommandBuffer.t) unit :=
  fun s =>
    match fst s !! p with
    | Some self =>
        let s' := method (self, snd s) in
        (Ok tt, (<[p := fst s']> (fst s), snd s'))
    | None => (Undefined, s)
    end.

Definition deref (p : Z) : Action (gmap Z t * CommandBuffer.t) t :=
  fun s =>
    match fst s !! p with
    | Some self => (Ok self, s)
    | None => (Undefined, s)
    end.

Definition Copy (srcImage dstImage : Z) (srcOffset dstOffset : Gl.Offset)
  (copySize : Gl.Extents) (aspectMask : Z) : Action (gmap Z t * CommandBuffer.t) unit :=
  do src0 <- deref srcImage;
  ANGLE_TRY (if negb (bool_decide (getCurrentLayout src0 = Vk.VK_IMAGE_LAYOUT_TRANSFER_SRC_OPTIMAL))
                && negb (bool_decide (getCurrentLayout src0 = Vk.VK_IMAGE_LAYOUT_GENERAL))
             then through srcImage
                    (changeLayoutWithStages Vk.VK_IMAGE_ASPECT_COLOR_BIT
                       Vk.VK_IMAGE_LAYOUT_TRANSFER_SRC_OPTIMAL
                       Vk.VK_PIPELINE_STAGE_ALL_COMMANDS_BIT Vk.VK_PIPELINE_STAGE_TRANSFER_BIT)
             else ret tt);
  do dst0 <- deref dstImage;
  ANGLE_TRY (if negb (bool_decide (getCurrentLayout dst0 = Vk.VK_IMAGE_LAYOUT_TRANSFER_DST_OPTIMAL))
                && negb (bool_decide (getCurrentLayout dst0 = Vk.VK_IMAGE_LAYOUT_GENERAL))
             then through dstImage
                    (changeLayoutWithStages Vk.VK_IMAGE_ASPECT_COLOR_BIT
                       Vk.VK_IMAGE_LAYOUT_TRANSFER_DST_OPTIMAL
                       Vk.VK_PIPELINE_STAGE_ALL_COMMANDS_BIT Vk.VK_PIPELINE_STAGE_TRANSFER_BIT)
             else ret tt);
  let region :=
    {| Vk.srcSubresource :=
         {| Vk.isl_aspectMask := aspectMask; Vk.isl_mipLevel := 0;
            Vk.isl_baseArrayLayer := 0; Vk.isl_layerCount := 1 |};
       Vk.ic_srcOffset :=
         {| Vk.x := Gl.x srcOffset; Vk.y := Gl.y srcOffset; Vk.z := Gl.z srcOffset |};
       Vk.dstSubresource :=
         {| Vk.isl_aspectMask := aspectMask; Vk.isl_mipLevel := 0;
            Vk.isl_baseArrayLayer := 0; Vk.isl_layerCount := 1 |};
       Vk.ic_dstOffset :=
         {| Vk.x := Gl.x dstOffset; Vk.y := Gl.y dstOffset; Vk.z := Gl.z dstOffset |};
       Vk.extent :=
         {| Vk.width := Machine.to_uint32 (Gl.width copySize);
            Vk.height := Machine.to_uint32 (Gl.height copySize);
            Vk.depth := Machine.to_uint32 (Gl.depth copySize) |} |} in
  do src1 <- deref srcImage;
  do dst1 <- deref dstImage;
  modify (fun s =>
            (fst s,
             CommandBuffer.record
               (CommandBuffer.copyImage (getImage src1) (getCurrentLayout src1)
                  (getImage dst1) (getCurrentLayout dst1) 1 [region]) (snd s))).

(** Modelled from the spec: [gl::ImageIndex::getLevelIndex] is not part of
    the sources. "[getSize(imageIndex)] returns the level-N extents": the
    index is given by its level. The extents are [int]s: a shift by a negative
    count, or by 32 or more, is undefined behaviour; [>>] on an [int] is the
    arithmetic shift. *)
Definition getSize (mipLevel : Z) (self : t) : Result Gl.Extents :=
  if (0 <=? mipLevel) && (mipLevel <? 32)
  then Ok {| Gl.width := Z.max 1 (Z.shiftr (Gl.width (mExtents self)) mipLevel);
             Gl.height := Z.max 1 (Z.shiftr (Gl.height (mExtents self)) mipLevel);
             Gl.depth := Gl.depth (mExtents self) |}
  else Undefined.

(** A run of [changeLayoutWithStages] calls on one image and one command
    buffer, one call for each layout of [layouts]. *)
Definition changeLayoutAll (aspectMask srcStageMask dstStageMask : Z)
  (layouts : list Vk.VkImageLayout) (s : t * CommandBuffer.t) : t * CommandBuffer.t :=
  fold_left (fun s0 newLayout =>
               changeLayoutWithStages aspectMask newLayout srcStageMask dstStageMask s0)
    layouts s.

End ImageHelper.

(** ** Vocabulary of the statements *)

Module Trace.

(** What a rotation of [self] that succeeds asks of a device whose next
    unused handle is [h]: the flush of what is not flushed yet and the unmap
    when [self] is mapped, then the new buffer, its memory (of the size
    [size] the driver requires), and the map of all of it. *)
Definition rotationCalls (sizeToAllocate h size : Z) (self : DynamicBuffer.t)
  : list Device.DeviceCall :=
  (if DynamicBuffer.isMapped self
   then (if DynamicBuffer.mLastFlushOrInvalidateOffset self
            <? DynamicBuffer.mNextAllocationOffset self
         then [Device.FlushMappedMemoryRanges
                 [{| Vk.mmr_memory := DynamicBuffer.mMemory self;
                     Vk.mmr_offset := DynamicBuffer.mLastFlushOrInvalidateOffset self;
                     Vk.mmr_size := DynamicBuffer.mNextAllocationOffset self
                                    - DynamicBuffer.mLastFlushOrInvalidateOffset self |}]
                 Vk.VK_SUCCESS]
         else [])
        ++ [Device.UnmapMemory (DynamicBuffer.mMemory self)]
   else [])
  ++ [Device.CreateBuffer
        {| Vk.bci_flags := 0;
           Vk.bci_size := Z.max sizeToAllocate (DynamicBuffer.mMinSize self);
           Vk.bci_usage := DynamicBuffer.mUsage self;
           Vk.bci_sharingMode := Vk.VK_SHARING_MODE_EXCLUSIVE;
           Vk.bci_queueFamilyIndexCount := 0 |} Vk.VK_SUCCESS h;
      Device.AllocateAndBindMemory Vk.VK_MEMORY_PROPERTY_HOST_VISIBLE_BIT h Vk.VK_SUCCESS (h + 1);
      Device.MapMemory (h + 1) 0 size 0 Vk.VK_SUCCESS].

(** The object a rotation of [self] that succeeds leaves behind. *)
Definition rotated (h size : Z) (self : DynamicBuffer.t) : DynamicBuffer.t :=
  {| DynamicBuffer.mUsage := DynamicBuffer.mUsage self;
     DynamicBuffer.mMinSize := DynamicBuffer.mMinSize self;
     DynamicBuffer.mBuffer := h;
     DynamicBuffer.mMemory := h + 1;
     DynamicBuffer.mNextAllocationOffset := 0;
     DynamicBuffer.mLastFlushOrInvalidateOffset := 0;
     DynamicBuffer.mSize := size;
     DynamicBuffer.mAlignment := DynamicBuffer.mAlignment self;
     DynamicBuffer.mMappedMemory := Some {| Device.region := h + 1; Device.byteOffset := 0 |};
     DynamicBuffer.mRetainedBuffers :=
       DynamicBuffer.mRetainedBuffers self
       ++ [{| DynamicBuffer.buffer := DynamicBuffer.mBuffer self;
              DynamicBuffer.memory := DynamicBuffer.mMemory self |}] |}.

(** The driver answers [VK_SUCCESS] to every call still to come. *)
Definition neverFails (d : Device.t) : Prop :=
  Forall (fun r => r = Vk.VK_SUCCESS) (Device.pendingResults d).

End Trace.

(** ** Concrete scenarios *)

Module Scenario.

(** A device that has handed out no handle yet, whose driver never fails
    and requires [size] bytes for every buffer. *)
Definition device (size : Z) : Device.t :=
  {| Device.nextHandle := 1;
     Device.pendingResults := [];
     Device.memoryRequirement := fun _ => size;
     Device.calls := [];
     Device.hostWrites := [] |}.

Definition renderer (size : Z) : RendererVk.t :=
  {| RendererVk.mDevice := device size;
     RendererVk.nonCoherentAtomSize := 64;
     RendererVk.mCurrentQueueSerial := 7;
     RendererVk.mGarbage := [] |}.

(** The same renderer with a driver that answers the calls that can fail
    with [results], in that order, and with success afterwards. *)
Definition rendererAnswering (results : list Vk.VkResult) (size : Z) : RendererVk.t :=
  {| RendererVk.mDevice :=
       {| Device.nextHandle := 1;
          Device.pendingResults := results;
          Device.memoryRequirement := fun _ => size;
          Device.calls := [];
          Device.hostWrites := [] |};
     RendererVk.nonCoherentAtomSize := 64;
     RendererVk.mCurrentQueueSerial := 7;
     RendererVk.mGarbage := [] |}.

(** An index-and-transfer buffer with the given floor and alignment, on a
    renderer whose device backs every buffer with [size] bytes. *)
Definition dynamicBuffer (minSize alignment size : Z) : DynamicBuffer.t * RendererVk.t :=
  (DynamicBuffer.init alignment (renderer size)
     (DynamicBuffer.DynamicBuffer LineLoopHelper.kLineLoopDynamicBufferUsage minSize),
   renderer size).

(** Scenarios S3 and S4: slots 0 (uniforms) and 1 (textures) of three, at
    most two sets per pool, eight descriptors of each kind, after [init]. *)
Definition poolSizes : list Vk.VkDescriptorPoolSize :=
  [{| Vk.type := Vk.VK_DESCRIPTOR_TYPE_UNIFORM_BUFFER_DYNAMIC; Vk.descriptorCount := 8 |};
   {| Vk.type := Vk.VK_DESCRIPTOR_TYPE_COMBINED_IMAGE_SAMPLER; Vk.descriptorCount := 8 |}].

Definition descriptorPool : DynamicDescriptorPool.t * RendererVk.t :=
  let s := snd (DynamicDescriptorPool.init 0%nat 1%nat poolSizes
                  (DynamicDescriptorPool.DynamicDescriptorPool 2 3, device 0)) in
  (fst s, RendererVk.withDevice (snd s) (renderer 0)).

(** Two images of 16 by 16 texels, at addresses 100 and 200: the first in
    the undefined layout, the second in the general layout. *)
Definition image (handle : Z) (layout : Vk.VkImageLayout) : ImageHelper.t :=
  {| ImageHelper.mImage := handle;
     ImageHelper.mDeviceMemory := handle + 1;
     ImageHelper.mExtents := {| Gl.width := 16; Gl.height := 16; Gl.depth := 1 |};
     ImageHelper.mFormat := 0;
     ImageHelper.mSamples := 1;
     ImageHelper.mAllocatedMemorySize := 1024;
     ImageHelper.mCurrentLayout := layout;
     ImageHelper.mLayerCount := 1 |}.

Definition images : gmap Z ImageHelper.t :=
  <[200 := image 20 Vk.VK_IMAGE_LAYOUT_GENERAL]>
    (<[100 := image 10 Vk.VK_IMAGE_LAYOUT_UNDEFINED]> ∅).

Definition origin : Gl.Offset := {| Gl.x := 0; Gl.y := 0; Gl.z := 0 |}.
Definition extents : Gl.Extents := {| Gl.width := 16; Gl.height := 16; Gl.depth := 1 |}.

(** Scenarios S6 and S7: a line-loop helper that has not allocated yet, on
    a renderer whose device backs every buffer with [size] bytes. *)
Definition lineLoopHelper (size : Z) : LineLoopHelper.t * RendererVk.t :=
  (LineLoopHelper.LineLoopHelper (renderer size) 1, renderer size).

Definition drawArraysParams (first count : Z) : Gl.DrawCallParams :=
  {| Gl.mFirstVertex := first;
     Gl.mVertexCount := count;
     Gl.mIndexCount := 0;
     Gl.mType := Gl.GL_UNSIGNED_INT;
     Gl.mIndices := [] |}.

Definition clientBytesParams (src : list Z) : Gl.DrawCallParams :=
  {| Gl.mFirstVertex := 0;
     Gl.mVertexCount := 0;
     Gl.mIndexCount := Z.of_nat (length src);
     Gl.mType := Gl.GL_UNSIGNED_BYTE;
     Gl.mIndices := src |}.

End Scenario.

(** ** What the retained buffers become in the deferred-release queue *)

Module Released.

(** The entries [releaseRetainedBuffers] adds to the queue for the retained
    pairs [l] under the serial [serial]: buffer then memory, pair by pair. *)
Definition entries (serial : Z) (l : list DynamicBuffer.BufferAndMemory)
  : list (Z * RendererVk.GarbageObject) :=
  flat_map
    (fun toFree =>
       [(serial, {| RendererVk.kind := RendererVk.BufferObject;
                    RendererVk.handle := DynamicBuffer.buffer toFree |});
        (serial, {| RendererVk.kind := RendererVk.DeviceMemoryObject;
                    RendererVk.handle := DynamicBuffer.memory toFree |})]) l.

End Released.

(** ** Invariants *)

Module Invariant.

(** What every state of a run satisfies, given the alignment [A]: the
    alignment stays, [mNextAllocationOffset] is a multiple of it, and neither
    the backing nor what the driver will require for a buffer goes beyond
    what a 32-bit offset can address. *)
Definition bounded (A : Z) (s : DynamicBuffer.t * RendererVk.t) : Prop :=
  DynamicBuffer.mAlignment (fst s) = A
  /\ (A | DynamicBuffer.mNextAllocationOffset (fst s))
  /\ 0 <= DynamicBuffer.mNextAllocationOffset (fst s)
  /\ DynamicBuffer.mSize (fst s) <= 2 ^ 32
  /\ (forall h, Machine.to_size_t (Device.memoryRequirement (RendererVk.mDevice (snd s)) h)
                <= 2 ^ 32).

Definition keepsBounded (A : Z) (s s' : DynamicBuffer.t * RendererVk.t) : Prop :=
  bounded A s -> bounded A s'.

(** What every state of a run of [allocateSets] calls satisfies, given the
    ceiling [M], the recipe [P] and the number [L] of slots: they stay,
    [mCurrentSetsCount] is within the ceiling, and every counter of
    [mFreeDescriptorSets] is a [uint32_t]. *)
Definition accounted (M : Z) (P : list Vk.VkDescriptorPoolSize) (L : nat)
  (self : DynamicDescriptorPool.t) : Prop :=
  DynamicDescriptorPool.mMaxSetsPerPool self = M
  /\ DynamicDescriptorPool.mPoolSizes self = P
  /\ length (DynamicDescriptorPool.mFreeDescriptorSets self) = L
  /\ 0 <= DynamicDescriptorPool.mCurrentSetsCount self <= M
  /\ Forall (fun f => 0 <= f < 2 ^ 32) (DynamicDescriptorPool.mFreeDescriptorSets self).

(** What the steps of [allocate] and [flush] other than
    [mRetainedBuffers.emplace_back] leave alone: the deferred-release queue,
    the serial and the retained buffers. *)
Definition queueKept (s s' : DynamicBuffer.t * RendererVk.t) : Prop :=
  RendererVk.mGarbage (snd s') = RendererVk.mGarbage (snd s)
  /\ RendererVk.mCurrentQueueSerial (snd s') = RendererVk.mCurrentQueueSerial (snd s)
  /\ DynamicBuffer.mRetainedBuffers (fst s') = DynamicBuffer.mRetainedBuffers (fst s).

(** The same, with the buffer and the memory in use. *)
Definition backingKept (s s' : DynamicBuffer.t * RendererVk.t) : Prop :=
  queueKept s s'
  /\ DynamicBuffer.mBuffer (fst s') = DynamicBuffer.mBuffer (fst s)
  /\ DynamicBuffer.mMemory (fst s') = DynamicBuffer.mMemory (fst s).

(** [queueKept] for the index buffer of a [LineLoopHelper]. *)
Definition indexQueueKept (s s' : LineLoopHelper.t * RendererVk.t) : Prop :=
  queueKept (LineLoopHelper.mDynamicIndexBuffer (fst s), snd s)
    (LineLoopHelper.mDynamicIndexBuffer (fst s'), snd s').

End Invariant.

(** ** The capacity of a fresh descriptor pool *)

Module Capacity.

Section Constants.

Variables kUniformsDescriptorSetIndex kTextureDescriptorSetIndex : nat.

(** The sum of the [descriptorCount] of the entries of [poolSizes] whose
    type maps to the slot [slot]. *)
Fixpoint bucketSum (slot : nat) (poolSizes : list Vk.VkDescriptorPoolSize) : Z :=
  match poolSizes with
  | [] => 0
  | poolSize :: rest =>
      (if bool_decide
            (DynamicDescriptorPool.GetDescriptorSetIndexfromType kUniformsDescriptorSetIndex
               kTextureDescriptorSetIndex (Vk.type poolSize) = slot)
       then Vk.descriptorCount poolSize
       else 0)
      + bucketSum slot rest
  end.

(** The same sum as the [uint32_t] counter holds it. *)
Definition ofSlot (slot : nat) (poolSizes : list Vk.VkDescriptorPoolSize) : Z :=
  Machine.to_uint32 (bucketSum slot poolSizes).

End Constants.

End Capacity.


(** ** What the line-loop entry points are expected to write *)

Module Expected.

(** The stores that put [values] in consecutive units of [stride] bytes,
    the first of them [k] units after [p]. *)
Fixpoint storesFrom (mk : Device.HostPointer -> Z -> Device.HostWrite) (stride : Z)
  (p : Device.HostPointer) (k : Z) (values : list Z) : list Device.HostWrite :=
  match values with
  | [] => []
  | v :: rest =>
      mk (LineLoopHelper.advance p (stride * k)) v :: storesFrom mk stride p (k + 1) rest
  end.

Definition stores (mk : Device.HostPointer -> Z -> Device.HostWrite) (stride : Z)
  (p : Device.HostPointer) (values : list Z) : list Device.HostWrite :=
  storesFrom mk stride p 0 values.

(** [first, first + 1, ..., first + count - 1, first]. *)
Definition lineLoop (first count : Z) : list Z :=
  map (fun k => first + Z.of_nat k) (seq 0 (Z.to_nat count)) ++ [first].

(** The source indices in order, then the first of them again. *)
Definition closed (src : list Z) : list Z := src ++ take 1 src.

(** The renderer after the stores [ws] through host pointers. *)
Definition writtenAll (ws : list Device.HostWrite) (renderer : RendererVk.t) : RendererVk.t :=
  fold_left
    (fun r w => RendererVk.withDevice (Device.written w (RendererVk.mDevice r)) r) ws renderer.

(** The driver calls of a [flush] of [self] that succeeds. *)
Definition flushCalls (self : DynamicBuffer.t) : list Device.DeviceCall :=
  if DynamicBuffer.mLastFlushOrInvalidateOffset self <? DynamicBuffer.mNextAllocationOffset self
  then [Device.FlushMappedMemoryRanges
          [{| Vk.mmr_memory := DynamicBuffer.mMemory self;
              Vk.mmr_offset := DynamicBuffer.mLastFlushOrInvalidateOffset self;
              Vk.mmr_size := DynamicBuffer.mNextAllocationOffset self
                             - DynamicBuffer.mLastFlushOrInvalidateOffset self |}]
          Vk.VK_SUCCESS]
  else [].

End Expected.

(** ** Frame conditions *)

(** A relation between the state before and the state after that every
    step of an action keeps, whatever the step comes to. *)
Definition keeps {S : Type} (R : S -> S -> Prop) {A : Type} (m : Action S A) : Prop :=
  forall s, R s (snd (m s)).


(** ** What the destroy step asks of the driver *)

Module Destroyed.

(** The driver calls [DynamicBuffer::destroy] makes for the pairs [l]:
    buffer then memory, pair by pair, a wrapper without a handle being
    passed over. *)
Definition calls (l : list DynamicBuffer.BufferAndMemory) : list Device.DeviceCall :=
  flat_map
    (fun toFree =>
       (if DynamicBuffer.buffer toFree =? Vk.VK_NULL_HANDLE then []
        else [Device.DestroyBuffer (DynamicBuffer.buffer toFree)])
       ++ (if DynamicBuffer.memory toFree =? Vk.VK_NULL_HANDLE then []
           else [Device.FreeMemory (DynamicBuffer.memory toFree)])) l.

End Destroyed.


(** ** What a command buffer says about layouts *)

Module Recorded.

(** The (old layout, new layout) pairs of the image barriers of a command
    buffer that concern the image [image], oldest first. *)
Definition transitions (image : Z) (commandBuffer : CommandBuffer.t)
  : list (Vk.VkImageLayout * Vk.VkImageLayout) :=
  flat_map
    (fun c =>
       match c with
       | CommandBuffer.singleImageBarrier _ _ _ barrier =>
           if Vk.image barrier =? image
           then [(Vk.oldLayout barrier, Vk.newLayout barrier)] else []
       | _ => []
       end) commandBuffer.

End Recorded.


(** ** The handles a dynamic buffer answers for *)

Module Held.

(** The handles of the retained pairs and of the pair in use. *)
Definition handles (self : DynamicBuffer.t) : list Z :=
  flat_map (fun toFree => [DynamicBuffer.buffer toFree; DynamicBuffer.memory toFree])
    (DynamicBuffer.mRetainedBuffers self)
  ++ [DynamicBuffer.mBuffer self; DynamicBuffer.mMemory self].

(** The handles the driver created in the calls [calls]. *)
Definition created (calls : list Device.DeviceCall) : list Z :=
  flat_map
    (fun c =>
       match c with
       | Device.CreateBuffer _ Vk.VK_SUCCESS h => [h]
       | Device.AllocateAndBindMemory _ _ Vk.VK_SUCCESS m => [m]
       | _ => []
       end) calls.

(** The handles in the deferred-release queue. *)
Definition queued (renderer : RendererVk.t) : list Z :=
  map (fun entry => RendererVk.handle (snd entry)) (RendererVk.mGarbage renderer).

End Held.

(** Inclusion of one list of handles in another, both given by their
    elements. *)
Ltac list_subset :=
  let x := fresh "x" in
  intros x; rewrite ?elem_of_app, ?elem_of_cons, ?elem_of_nil; tauto.

(** * Properties *)

(** ** Actions *)

Section ActionFacts.

Context {S : Type}.

Lemma bind_Ok_inv {A B : Type} (m : Action S A) (k : A -> Action S B) s b s2 :
  bind m k s = (Ok b, s2) ->
  exists a s1, m s = (Ok a, s1) /\ k a s1 = (Ok b, s2).
Proof.
  unfold bind. destruct (m s) as [[a | e |] s1]; intros H; try discriminate.
  exists a, s1. split; [reflexivity | exact H].
Qed.

Lemma bind_Ok {A B : Type} (m : Action S A) (k : A -> Action S B) s a s1 :
  m s = (Ok a, s1) -> bind m k s = k a s1.
Proof. intros H. unfold bind. rewrite H. reflexivity. Qed.

Lemma keeps_ret (R : S -> S -> Prop) {A : Type} (a : A) :
  (forall s, R s s) -> keeps R (ret a).
Proof. intros Hrefl s. apply Hrefl. Qed.

Lemma keeps_undefined (R : S -> S -> Prop) {A : Type} :
  (forall s, R s s) -> keeps R (@undefined S A).
Proof. intros Hrefl s. apply Hrefl. Qed.

Lemma keeps_bind (R : S -> S -> Prop) {A B : Type} (m : Action S A) (k : A -> Action S B) :
  (forall s1 s2 s3, R s1 s2 -> R s2 s3 -> R s1 s3) ->
  keeps R m -> (forall a, keeps R (k a)) -> keeps R (bind m k).
Proof.
  intros Htrans Hm Hk s. unfold bind. specialize (Hm s).
  destruct (m s) as [[a | e |] s1]; simpl in *; try exact Hm.
  eapply Htrans; [exact Hm | apply Hk].
Qed.

Lemma keeps_if (R : S -> S -> Prop) {A : Type} (b : bool) (m1 m2 : Action S A) :
  keeps R m1 -> keeps R m2 -> keeps R (if b then m1 else m2).
Proof. destruct b; auto. Qed.

Lemma keeps_forEach (R : S -> S -> Prop) {A : Type} (l : list Z)
  (body : Z -> A -> Action S A) :
  (forall s, R s s) ->
  (forall s1 s2 s3, R s1 s2 -> R s2 s3 -> R s1 s3) ->
  (forall i a, keeps R (body i a)) -> forall a, keeps R (forEach l body a).
Proof.
  intros Hrefl Htrans Hbody. induction l as [| i rest IH]; intros a; simpl.
  - apply keeps_ret, Hrefl.
  - apply keeps_bind; auto.
Qed.

End ActionFacts.

(** ** Machine integers *)

Lemma to_uint32_small (v : Z) : 0 <= v < 2 ^ 32 -> Machine.to_uint32 v = v.
Proof. intros H. unfold Machine.to_uint32. apply Z.mod_small. exact H. Qed.

Lemma to_size_t_small (v : Z) : 0 <= v < 2 ^ 64 -> Machine.to_size_t v = v.
Proof. intros H. unfold Machine.to_size_t. apply Z.mod_small. exact H. Qed.

Lemma add_int_small (a b : Z) :
  - 2 ^ 31 <= a + b < 2 ^ 31 -> Machine.add_int a b = Some (a + b).
Proof.
  intros H. unfold Machine.add_int, Machine.INT_MIN, Machine.INT_MAX.
  replace ((- 2 ^ 31 <=? a + b) && (a + b <=? 2 ^ 31 - 1)) with true; [reflexivity |].
  symmetry. apply andb_true_iff. split; apply Z.leb_le; lia.
Qed.

Lemma to_size_t_range (v : Z) : 0 <= Machine.to_size_t v < 2 ^ 64.
Proof. unfold Machine.to_size_t. apply Z.mod_pos_bound. lia. Qed.

Lemma to_uint32_range (v : Z) : 0 <= Machine.to_uint32 v < 2 ^ 32.
Proof. unfold Machine.to_uint32. apply Z.mod_pos_bound. lia. Qed.

Lemma roundUp_divide (v a : Z) : a <> 0 -> (a | Machine.roundUp v a).
Proof.
  intros Ha. unfold Machine.roundUp. cbv zeta.
  exists (Machine.to_size_t (v + a - 1) / a).
  pose proof (Z.div_mod (Machine.to_size_t (v + a - 1)) a Ha). lia.
Qed.

Lemma roundUp_range (v a : Z) : 0 < a -> 0 <= Machine.roundUp v a < 2 ^ 64.
Proof.
  intros Ha. unfold Machine.roundUp. cbv zeta.
  pose proof (to_size_t_range (v + a - 1)) as Ht.
  pose proof (Z.mod_pos_bound (Machine.to_size_t (v + a - 1)) a Ha) as Hm.
  pose proof (Z.mod_le (Machine.to_size_t (v + a - 1)) a ltac:(lia) Ha). lia.
Qed.

(** Without overflow [roundUp] is the least multiple of the alignment that is
    not below the value. *)
Lemma roundUp_least (v a : Z) :
  0 < a -> 0 <= v -> v + a - 1 < 2 ^ 64 ->
  v <= Machine.roundUp v a < v + a.
Proof.
  intros Ha Hv Hfit. unfold Machine.roundUp. cbv zeta.
  rewrite to_size_t_small by lia.
  pose proof (Z.mod_pos_bound (v + a - 1) a Ha). lia.
Qed.

(** ** DynamicBuffer: flush *)

Lemma flush_empty_range (self : DynamicBuffer.t) (device : Device.t) :
  DynamicBuffer.mNextAllocationOffset self <= DynamicBuffer.mLastFlushOrInvalidateOffset self ->
  DynamicBuffer.flush (self, device) = (Ok tt, (self, device)).
Proof.
  intros H. unfold DynamicBuffer.flush, DynamicBuffer.this, bind. simpl.
  destruct (Z.ltb_spec (DynamicBuffer.mLastFlushOrInvalidateOffset self)
              (DynamicBuffer.mNextAllocationOffset self)); [lia | reflexivity].
Qed.

Lemma flush_range (self : DynamicBuffer.t) (device : Device.t) :
  DynamicBuffer.mLastFlushOrInvalidateOffset self < DynamicBuffer.mNextAllocationOffset self ->
  DynamicBuffer.flush (self, device) =
    let range :=
      {| Vk.mmr_memory := DynamicBuffer.mMemory self;
         Vk.mmr_offset := DynamicBuffer.mLastFlushOrInvalidateOffset self;
         Vk.mmr_size := DynamicBuffer.mNextAllocationOffset self
                        - DynamicBuffer.mLastFlushOrInvalidateOffset self |} in
    let device' := Device.answered (Device.FlushMappedMemoryRanges [range]) device in
    match Device.nextResult device with
    | Vk.VK_SUCCESS =>
        (Ok tt,
         (DynamicBuffer.set_mLastFlushOrInvalidateOffset
            (DynamicBuffer.mNextAllocationOffset self) self, device'))
    | e => (Err e, (self, device'))
    end.
Proof.
  intros H. unfold DynamicBuffer.flush, DynamicBuffer.this, bind. simpl.
  destruct (Z.ltb_spec (DynamicBuffer.mLastFlushOrInvalidateOffset self)
              (DynamicBuffer.mNextAllocationOffset self)); [| lia].
  unfold Device.ANGLE_VK_TRY, Device.vkFlushMappedMemoryRanges, Device.call.
  destruct (Device.nextResult device); reflexivity.
Qed.

Lemma flush_Ok_flushed (self self' : DynamicBuffer.t) (device device' : Device.t) :
  DynamicBuffer.flush (self, device) = (Ok tt, (self', device')) ->
  DynamicBuffer.mNextAllocationOffset self'
    <= DynamicBuffer.mLastFlushOrInvalidateOffset self'.
Proof.
  intros H.
  destruct (Z.lt_ge_cases (DynamicBuffer.mLastFlushOrInvalidateOffset self)
              (DynamicBuffer.mNextAllocationOffset self)) as [Hlt | Hge].
  - rewrite (flush_range _ _ Hlt) in H. cbv zeta in H.
    destruct (Device.nextResult device); try discriminate.
    injection H as <- <-. simpl. lia.
  - rewrite (flush_empty_range _ _ Hge) in H. injection H as <- <-. exact Hge.
Qed.

(** C7 (as the code has it). As long as [lastFlushedOffset] is not above
    [nextOffset]: [flush] does nothing when [lastFlushedOffset] equals
    [nextOffset]; otherwise it asks the driver to flush exactly the range
    [[lastFlushedOffset, nextOffset)] and, when the driver succeeds, moves
    [lastFlushedOffset] up to [nextOffset] (a failure is returned and leaves
    the offsets alone); a second [flush] right after a successful one does
    nothing. The test in [flush] is [nextOffset > lastFlushedOffset], and
    [allocate] advances the 32-bit [nextOffset] modulo [2 ^ 32], so the
    ordering is a condition on the state and not an invariant. *)
Theorem flush_idempotent (self : DynamicBuffer.t) (device : Device.t) :
  DynamicBuffer.mLastFlushOrInvalidateOffset self <= DynamicBuffer.mNextAllocationOffset self ->
  let last := DynamicBuffer.mLastFlushOrInvalidateOffset self in
  let next := DynamicBuffer.mNextAllocationOffset self in
  let range :=
    {| Vk.mmr_memory := DynamicBuffer.mMemory self;
       Vk.mmr_offset := last;
       Vk.mmr_size := next - last |} in
  (last = next -> DynamicBuffer.flush (self, device) = (Ok tt, (self, device)))
  /\ (last <> next ->
      exists device',
        Device.calls device' =
          Device.calls device ++ [Device.FlushMappedMemoryRanges [range] (Device.nextResult device)]
        /\ DynamicBuffer.flush (self, device) =
             match Device.nextResult device with
             | Vk.VK_SUCCESS =>
                 (Ok tt, (DynamicBuffer.set_mLastFlushOrInvalidateOffset next self, device'))
             | e => (Err e, (self, device'))
             end)
  /\ (forall self1 device1,
        DynamicBuffer.flush (self, device) = (Ok tt, (self1, device1)) ->
        DynamicBuffer.mLastFlushOrInvalidateOffset self1
          = DynamicBuffer.mNextAllocationOffset self1
        /\ DynamicBuffer.flush (self1, device1) = (Ok tt, (self1, device1))).
Proof.
  intros Hinv last next range. split; [| split].
  - intros Heq. apply flush_empty_range. subst last next. lia.
  - intros Hne. eexists. split; [| apply flush_range; subst last next; lia].
    reflexivity.
  - intros self1 device1 H. pose proof (flush_Ok_flushed _ _ _ _ H) as Hdone. split.
    + destruct (Z.lt_ge_cases (DynamicBuffer.mLastFlushOrInvalidateOffset self)
                  (DynamicBuffer.mNextAllocationOffset self)) as [Hlt | Hge].
      * rewrite (flush_range _ _ Hlt) in H. cbv zeta in H.
        destruct (Device.nextResult device); try discriminate.
        injection H as <- <-. reflexivity.
      * rewrite (flush_empty_range _ _ Hge) in H. injection H as <- <-. lia.
    + apply flush_empty_range. exact Hdone.
Qed.

(** C7, witness: scenario S2. After a request of 1 KiB nothing is flushed
    yet; [flush] asks the driver for the range [[0, 1024)] of memory 2. *)
Lemma flush_idempotent_witness :
  let s1 := snd (DynamicBuffer.allocate 1024 true true
                   (Scenario.dynamicBuffer 1048576 256 1048576)) in
  let self := fst s1 in
  let device := RendererVk.mDevice (snd s1) in
  DynamicBuffer.mLastFlushOrInvalidateOffset self <= DynamicBuffer.mNextAllocationOffset self
  /\ exists device',
       Device.calls device'
       = Device.calls device
         ++ [Device.FlushMappedMemoryRanges
               [{| Vk.mmr_memory := 2; Vk.mmr_offset := 0; Vk.mmr_size := 1024 |}]
               Vk.VK_SUCCESS]
       /\ DynamicBuffer.flush (self, device)
          = (Ok tt, (DynamicBuffer.set_mLastFlushOrInvalidateOffset 1024 self, device')).
Proof.
  cbv zeta.
  set (s1 := snd (DynamicBuffer.allocate 1024 true true
                    (Scenario.dynamicBuffer 1048576 256 1048576))).
  assert (Hinv : DynamicBuffer.mLastFlushOrInvalidateOffset (fst s1)
                 <= DynamicBuffer.mNextAllocationOffset (fst s1))
    by (vm_compute; discriminate).
  split; [exact Hinv |].
  destruct (flush_idempotent (fst s1) (RendererVk.mDevice (snd s1)) Hinv) as (_ & Hflush & _).
  destruct Hflush as (device' & Hcalls & Hrun); [vm_compute; discriminate |].
  exists device'. split; [exact Hcalls | exact Hrun].
Defined.

(** C7, counterexample: a backing of 8 GiB. A request of [2 ^ 32 - 256]
    bytes is served at offset 0 and flushed, so [lastFlushedOffset] is
    [4294967040]. The next request, of 512 bytes, fits the backing: it is
    served at offset [4294967040], and [nextOffset], a 32-bit counter, wraps
    around to 256. The two offsets differ, and [flush] does nothing: it makes
    no driver call and leaves [lastFlushedOffset] where it was. *)
Lemma flush_skips_after_offset_wrap :
  let s1 := snd (DynamicBuffer.allocate 4294967040 true true
                   (Scenario.dynamicBuffer 1048576 256 8589934592)) in
  let s2 := snd (DynamicBuffer.onDevice DynamicBuffer.flush s1) in
  let served := DynamicBuffer.allocate 512 true true s2 in
  let self := fst (snd served) in
  let device := RendererVk.mDevice (snd (snd served)) in
  fst served
  = Ok {| DynamicBuffer.ptrOut :=
            Some {| Device.region := 2; Device.byteOffset := 4294967040 |};
          DynamicBuffer.handleOut := Some 1;
          DynamicBuffer.offsetOut := 4294967040;
          DynamicBuffer.newBufferAllocatedOut := Some false |}
  /\ DynamicBuffer.mLastFlushOrInvalidateOffset self = 4294967040
  /\ DynamicBuffer.mNextAllocationOffset self = 256
  /\ DynamicBuffer.mLastFlushOrInvalidateOffset self
     <> DynamicBuffer.mNextAllocationOffset self
  /\ DynamicBuffer.flush (self, device) = (Ok tt, (self, device)).
Proof.
  cbv zeta. split; [vm_compute; reflexivity |].
  split; [vm_compute; reflexivity |]. split; [vm_compute; reflexivity |].
  split; [vm_compute; discriminate | vm_compute; reflexivity].
Qed.

(** ** The device *)

Lemma create_Ok (c : Vk.VkResult -> Z -> Device.DeviceCall) (d d' : Device.t) (h : Z) :
  Device.create c d = (Ok h, d') ->
  Device.nextResult d = Vk.VK_SUCCESS
  /\ h = Device.nextHandle d
  /\ d' = Device.handleTaken (Device.answered (fun r => c r (Device.nextHandle d)) d).
Proof.
  unfold Device.create. destruct (Device.nextResult d) eqn:Hr; intros H; try discriminate.
  injection H as <- <-. auto.
Qed.

Lemma create_success (c : Vk.VkResult -> Z -> Device.DeviceCall) (d : Device.t) :
  Device.nextResult d = Vk.VK_SUCCESS ->
  Device.create c d
  = (Ok (Device.nextHandle d),
     Device.handleTaken (Device.answered (fun r => c r (Device.nextHandle d)) d)).
Proof. intros Hr. unfold Device.create. rewrite Hr. reflexivity. Qed.

Lemma neverFails_nextResult (d : Device.t) :
  Trace.neverFails d -> Device.nextResult d = Vk.VK_SUCCESS.
Proof.
  unfold Trace.neverFails, Device.nextResult. intros H.
  destruct (Device.pendingResults d) as [| r rest]; [reflexivity |].
  inversion H; subst. reflexivity.
Qed.

Lemma neverFails_answered (c : Vk.VkResult -> Device.DeviceCall) (d : Device.t) :
  Trace.neverFails d -> Trace.neverFails (Device.answered c d).
Proof.
  unfold Trace.neverFails. simpl. intros H.
  destruct (Device.pendingResults d) as [| r rest]; simpl; [constructor |].
  inversion H; subst. assumption.
Qed.

Lemma neverFails_handleTaken (d : Device.t) :
  Trace.neverFails d -> Trace.neverFails (Device.handleTaken d).
Proof. unfold Trace.neverFails. simpl. auto. Qed.

Lemma neverFails_logged (c : Device.DeviceCall) (d : Device.t) :
  Trace.neverFails d -> Trace.neverFails (Device.logged c d).
Proof. unfold Trace.neverFails. simpl. auto. Qed.

Lemma neverFails_written (w : Device.HostWrite) (d : Device.t) :
  Trace.neverFails d -> Trace.neverFails (Device.written w d).
Proof. unfold Trace.neverFails. simpl. auto. Qed.

Create HintDb device.
#[local] Hint Resolve neverFails_nextResult neverFails_answered neverFails_handleTaken
  neverFails_logged neverFails_written : device.

(** ** DynamicBuffer: the steps of a rotation *)

Lemma onDevice_run {A : Type} (m : Action (DynamicBuffer.t * Device.t) A)
  (self : DynamicBuffer.t) (renderer : RendererVk.t) :
  DynamicBuffer.onDevice m (self, renderer)
  = (fst (m (self, RendererVk.mDevice renderer)),
     (fst (snd (m (self, RendererVk.mDevice renderer))),
      RendererVk.withDevice (snd (snd (m (self, RendererVk.mDevice renderer)))) renderer)).
Proof.
  unfold DynamicBuffer.onDevice, zoom. simpl.
  destruct (m (self, RendererVk.mDevice renderer)) as [r [self' d']]. reflexivity.
Qed.

Lemma flush_Ok_inv (self self' : DynamicBuffer.t) (d d' : Device.t) :
  DynamicBuffer.flush (self, d) = (Ok tt, (self', d')) ->
  ((DynamicBuffer.mLastFlushOrInvalidateOffset self <? DynamicBuffer.mNextAllocationOffset self)
   = true
   /\ Device.nextResult d = Vk.VK_SUCCESS
   /\ self' = DynamicBuffer.set_mLastFlushOrInvalidateOffset
                (DynamicBuffer.mNextAllocationOffset self) self
   /\ d' = Device.answered
             (Device.FlushMappedMemoryRanges
                [{| Vk.mmr_memory := DynamicBuffer.mMemory self;
                    Vk.mmr_offset := DynamicBuffer.mLastFlushOrInvalidateOffset self;
                    Vk.mmr_size := DynamicBuffer.mNextAllocationOffset self
                                   - DynamicBuffer.mLastFlushOrInvalidateOffset self |}]) d)
  \/ ((DynamicBuffer.mLastFlushOrInvalidateOffset self <? DynamicBuffer.mNextAllocationOffset self)
      = false
      /\ self' = self /\ d' = d).
Proof.
  intros H.
  destruct (Z.ltb_spec (DynamicBuffer.mLastFlushOrInvalidateOffset self)
              (DynamicBuffer.mNextAllocationOffset self)) as [Hlt | Hge].
  - left. rewrite (flush_range _ _ Hlt) in H. cbv zeta in H.
    destruct (Device.nextResult d) eqn:Hr; try discriminate.
    injection H as <- <-. auto.
  - right. rewrite (flush_empty_range _ _ Hge) in H. injection H as <- <-. auto.
Qed.

Lemma flush_success (self : DynamicBuffer.t) (d : Device.t) :
  Device.nextResult d = Vk.VK_SUCCESS ->
  exists self' d',
    DynamicBuffer.flush (self, d) = (Ok tt, (self', d'))
    /\ (Trace.neverFails d -> Trace.neverFails d').
Proof.
  intros Hr.
  destruct (Z.lt_ge_cases (DynamicBuffer.mLastFlushOrInvalidateOffset self)
              (DynamicBuffer.mNextAllocationOffset self)) as [Hlt | Hge].
  - rewrite (flush_range _ _ Hlt). cbv zeta. rewrite Hr.
    eexists _, _. split; [reflexivity | auto with device].
  - rewrite (flush_empty_range _ _ Hge). eexists _, _. split; [reflexivity | auto].
Qed.

Lemma mBuffer_init_Ok (info : Vk.VkBufferCreateInfo) (self self' : DynamicBuffer.t)
  (d d' : Device.t) :
  DynamicBuffer.mBuffer_init info (self, d) = (Ok tt, (self', d')) ->
  Device.nextResult d = Vk.VK_SUCCESS
  /\ self' = DynamicBuffer.set_mBuffer (Device.nextHandle d) self
  /\ d' = Device.handleTaken
            (Device.answered (fun r => Device.CreateBuffer info r (Device.nextHandle d)) d).
Proof.
  unfold DynamicBuffer.mBuffer_init. simpl.
  destruct (Device.create (Device.CreateBuffer info) d) as [[h | e |] d1] eqn:Hc;
    intros H; try discriminate.
  apply create_Ok in Hc as (Hr & -> & ->). injection H as <- <-. auto.
Qed.

Lemma AllocateBufferMemory_Ok (flags : Z) (self self' : DynamicBuffer.t)
  (renderer renderer' : RendererVk.t) :
  DynamicBuffer.AllocateBufferMemory flags (self, renderer) = (Ok tt, (self', renderer')) ->
  let d := RendererVk.mDevice renderer in
  Device.nextResult d = Vk.VK_SUCCESS
  /\ self' = DynamicBuffer.set_mMemory (Device.nextHandle d)
               (DynamicBuffer.set_mSize
                  (Machine.to_size_t (Device.memoryRequirement d (DynamicBuffer.mBuffer self)))
                  self)
  /\ renderer' =
       RendererVk.withDevice
         (Device.handleTaken
            (Device.answered
               (fun r => Device.AllocateAndBindMemory flags (DynamicBuffer.mBuffer self) r
                           (Device.nextHandle d)) d)) renderer.
Proof.
  unfold DynamicBuffer.AllocateBufferMemory. rewrite onDevice_run. simpl.
  destruct (Device.create _ (RendererVk.mDevice renderer)) as [[h | e |] d1] eqn:Hc;
    intros H; try discriminate.
  apply create_Ok in Hc as (Hr & -> & ->). simpl in H. injection H as <- <-. auto.
Qed.

Lemma mMemory_map_Ok (offset size flags : Z) (self self' : DynamicBuffer.t) (d d' : Device.t) :
  DynamicBuffer.mMemory_map offset size flags (self, d) = (Ok tt, (self', d')) ->
  Device.nextResult d = Vk.VK_SUCCESS
  /\ self' = DynamicBuffer.set_mMappedMemory
               (Some {| Device.region := DynamicBuffer.mMemory self;
                        Device.byteOffset := offset |}) self
  /\ d' = Device.answered (Device.MapMemory (DynamicBuffer.mMemory self) offset size flags) d.
Proof.
  unfold DynamicBuffer.mMemory_map, Device.call. simpl.
  destruct (Device.nextResult d) eqn:Hr; intros H; try discriminate.
  injection H as <- <-. auto.
Qed.

Lemma rotate_Ok (need : Z) (self self1 : DynamicBuffer.t) (renderer renderer1 : RendererVk.t) :
  DynamicBuffer.rotate need (self, renderer) = (Ok tt, (self1, renderer1)) ->
  let d := RendererVk.mDevice renderer in
  let h := Device.nextHandle d in
  let size := Machine.to_size_t (Device.memoryRequirement d h) in
  self1 = Trace.rotated h size self
  /\ RendererVk.mGarbage renderer1 = RendererVk.mGarbage renderer
  /\ RendererVk.mCurrentQueueSerial renderer1 = RendererVk.mCurrentQueueSerial renderer
  /\ RendererVk.nonCoherentAtomSize renderer1 = RendererVk.nonCoherentAtomSize renderer
  /\ Device.calls (RendererVk.mDevice renderer1)
     = Device.calls d ++ Trace.rotationCalls need h size self
  /\ Device.nextHandle (RendererVk.mDevice renderer1) = h + 2
  /\ Device.memoryRequirement (RendererVk.mDevice renderer1) = Device.memoryRequirement d
  /\ Device.hostWrites (RendererVk.mDevice renderer1) = Device.hostWrites d.
Proof.
  intros H d h size. subst d h size.
  unfold DynamicBuffer.rotate in H.
  unfold DynamicBuffer.this at 1 in H. unfold bind at 1 in H. cbn [fst snd] in H.
  apply bind_Ok_inv in H as ([] & [selfA rA] & Hpre & H).
  apply bind_Ok_inv in H as ([] & [selfB rB] & Hretain & H).
  apply bind_Ok_inv in H as ([] & [selfC rC] & Hbuf & H).
  apply bind_Ok_inv in H as ([] & [selfD rD] & Hmem & H).
  unfold DynamicBuffer.this at 1 in H. unfold bind at 1 in H. cbn [fst snd] in H.
  apply bind_Ok_inv in H as ([] & [selfE rE] & Hmap & H).
  apply bind_Ok_inv in H as ([] & [selfF rF] & Hnext & H).
  unfold DynamicBuffer.assign, modify in Hretain, Hnext, H. cbn [fst snd] in Hretain, Hnext, H.
  injection H as <- <-. injection Hnext as <- <-. injection Hretain as <- <-.
  rewrite onDevice_run in Hbuf, Hmap.
  destruct (DynamicBuffer.mBuffer_init _ _) as [rb [sb db]] eqn:Hb in Hbuf.
  cbn [fst snd] in Hbuf. injection Hbuf as -> <- <-.
  apply mBuffer_init_Ok in Hb as (HrB & -> & ->).
  apply AllocateBufferMemory_Ok in Hmem as (HrD & -> & ->).
  destruct (DynamicBuffer.mMemory_map _ _ _ _) as [rm [sm dm]] eqn:Hm in Hmap.
  cbn [fst snd] in Hmap. injection Hmap as -> <- <-.
  apply mMemory_map_Ok in Hm as (HrE & -> & ->).
  cbn in HrD, HrE.
  unfold Trace.rotated, Trace.rotationCalls.
  destruct (DynamicBuffer.isMapped self) eqn:Hmapped.
  - apply bind_Ok_inv in Hpre as ([] & [selfP rP] & Hflush & Hpre).
    apply bind_Ok_inv in Hpre as ([] & [selfQ rQ] & Hunmap & Hpre).
    unfold DynamicBuffer.assign, modify in Hpre. cbn [fst snd] in Hpre.
    injection Hpre as <- <-.
    rewrite onDevice_run in Hflush, Hunmap.
    unfold DynamicBuffer.mMemory_unmap in Hunmap. cbn [fst snd] in Hunmap.
    injection Hunmap as <- <-.
    destruct (DynamicBuffer.flush _) as [rf [sf df]] eqn:Hf in Hflush.
    cbn [fst snd] in Hflush. injection Hflush as -> <- <-.
    apply flush_Ok_inv in Hf as [(Hlt & HrF & -> & ->) | (Hge & -> & ->)].
    + rewrite Hlt. cbn in HrB, HrD, HrE |- *. rewrite HrF, HrB, HrD, HrE.
      repeat split; first [reflexivity | lia | rewrite <- !app_assoc; reflexivity].
    + rewrite Hge. cbn in HrB, HrD, HrE |- *. rewrite HrB, HrD, HrE.
      repeat split; first [reflexivity | lia | rewrite <- !app_assoc; reflexivity].
  - unfold ret in Hpre. injection Hpre as <- <-.
    cbn in HrB, HrD, HrE |- *. rewrite HrB, HrD, HrE.
    repeat split; first [reflexivity | lia | rewrite <- !app_assoc; reflexivity].
Qed.

Lemma rotate_success (need : Z) (self : DynamicBuffer.t) (renderer : RendererVk.t) :
  Trace.neverFails (RendererVk.mDevice renderer) ->
  exists self1 renderer1,
    DynamicBuffer.rotate need (self, renderer) = (Ok tt, (self1, renderer1))
    /\ Trace.neverFails (RendererVk.mDevice renderer1).
Proof.
  intros Hok. unfold DynamicBuffer.rotate.
  unfold DynamicBuffer.this at 1. unfold bind at 1. cbn [fst snd].
  assert (Hpre : exists selfA rA,
             (if DynamicBuffer.isMapped self
              then ANGLE_TRY DynamicBuffer.onDevice DynamicBuffer.flush;
                   ANGLE_TRY DynamicBuffer.onDevice DynamicBuffer.mMemory_unmap;
                   DynamicBuffer.assign (DynamicBuffer.set_mMappedMemory None)
              else ret tt) (self, renderer) = (Ok tt, (selfA, rA))
             /\ Trace.neverFails (RendererVk.mDevice rA)).
  { destruct (DynamicBuffer.isMapped self).
    - destruct (flush_success self (RendererVk.mDevice renderer))
        as (sf & df & Hf & Hokf); [auto with device |].
      eexists _, _. split.
      + erewrite bind_Ok; [| rewrite onDevice_run, Hf; reflexivity].
        erewrite bind_Ok; [| rewrite onDevice_run; reflexivity].
        reflexivity.
      + cbn. auto with device.
    - eexists _, _. split; [reflexivity | assumption]. }
  destruct Hpre as (selfA & rA & Hpre & HokA).
  erewrite bind_Ok; [| exact Hpre].
  erewrite bind_Ok; [| reflexivity].
  erewrite bind_Ok;
    [| rewrite onDevice_run; unfold DynamicBuffer.mBuffer_init; cbn [fst snd];
       rewrite create_success by auto with device; reflexivity].
  erewrite bind_Ok;
    [| unfold DynamicBuffer.AllocateBufferMemory; rewrite onDevice_run; cbn [fst snd];
       rewrite create_success by (cbn; auto with device); reflexivity].
  unfold DynamicBuffer.this at 1. unfold bind at 1. cbn [fst snd].
  erewrite bind_Ok;
    [| rewrite onDevice_run; unfold DynamicBuffer.mMemory_map, Device.call; cbn [fst snd];
       rewrite neverFails_nextResult by (cbn; auto 10 with device); reflexivity].
  erewrite bind_Ok; [| reflexivity].
  eexists _, _. split; [reflexivity |]. cbn. auto 10 with device.
Qed.

(** ** DynamicBuffer: allocate *)

Lemma needsNewBuffer_true (need : Z) (self : DynamicBuffer.t) :
  DynamicBuffer.needsNewBuffer need self = true <->
  Machine.SIZE_MAX < DynamicBuffer.mNextAllocationOffset self + need
  \/ DynamicBuffer.mSize self <= DynamicBuffer.mNextAllocationOffset self + need.
Proof.
  unfold DynamicBuffer.needsNewBuffer, Machine.CheckedAdd.
  destruct (Z.leb_spec (DynamicBuffer.mNextAllocationOffset self + need) Machine.SIZE_MAX).
  - rewrite Z.leb_le. split; [auto | intros [? | ?]; [lia | assumption]].
  - split; auto.
Qed.

Lemma needsNewBuffer_false (need : Z) (self : DynamicBuffer.t) :
  DynamicBuffer.needsNewBuffer need self = false <->
  DynamicBuffer.mNextAllocationOffset self + need <= Machine.SIZE_MAX
  /\ DynamicBuffer.mNextAllocationOffset self + need < DynamicBuffer.mSize self.
Proof.
  pose proof (needsNewBuffer_true need self) as H.
  destruct (DynamicBuffer.needsNewBuffer need self).
  - split; [discriminate |]. intros [? ?].
    destruct (proj1 H eq_refl); lia.
  - split; [| reflexivity]. intros _.
    split; apply Z.nlt_ge || apply Z.nle_gt; intros Hc; [| ];
      (assert (false = true) by (apply H; auto); discriminate).
Qed.

(** A request that stays below [mSize] is served from the current backing:
    no driver call, no change but the bump of [mNextAllocationOffset]. *)
Lemma allocate_reuse (sizeInBytes : Z) (handleRequested flagRequested : bool)
  (self : DynamicBuffer.t) (renderer : RendererVk.t) :
  DynamicBuffer.mAlignment self <> 0 ->
  DynamicBuffer.needsNewBuffer
    (Machine.roundUp sizeInBytes (DynamicBuffer.mAlignment self)) self = false ->
  DynamicBuffer.allocate sizeInBytes handleRequested flagRequested (self, renderer)
  = (Ok {| DynamicBuffer.ptrOut :=
             DynamicBuffer.pointerAdd (DynamicBuffer.mMappedMemory self)
               (DynamicBuffer.mNextAllocationOffset self);
           DynamicBuffer.handleOut :=
             if handleRequested then Some (DynamicBuffer.mBuffer self) else None;
           DynamicBuffer.offsetOut := DynamicBuffer.mNextAllocationOffset self;
           DynamicBuffer.newBufferAllocatedOut :=
             if flagRequested then Some false else None |},
     (DynamicBuffer.set_mNextAllocationOffset
        (Machine.to_uint32
           (DynamicBuffer.mNextAllocationOffset self
            + Machine.to_uint32
                (Machine.roundUp sizeInBytes (DynamicBuffer.mAlignment self)))) self,
      renderer)).
Proof.
  intros Hvalid Hfit. unfold DynamicBuffer.allocate.
  unfold DynamicBuffer.this at 1. unfold bind at 1. cbn [fst snd].
  destruct (Z.eqb_spec (DynamicBuffer.mAlignment self) 0); [contradiction |].
  cbv zeta. rewrite Hfit. reflexivity.
Qed.

(** A request that reaches [mSize] is served by a rotation; when the call
    succeeds, this is what it has done. *)
Lemma allocate_rotate_Ok (sizeInBytes : Z) (handleRequested flagRequested : bool)
  (self self' : DynamicBuffer.t) (renderer renderer' : RendererVk.t)
  (out : DynamicBuffer.AllocateOut) :
  DynamicBuffer.mAlignment self <> 0 ->
  DynamicBuffer.needsNewBuffer
    (Machine.roundUp sizeInBytes (DynamicBuffer.mAlignment self)) self = true ->
  DynamicBuffer.allocate sizeInBytes handleRequested flagRequested (self, renderer)
  = (Ok out, (self', renderer')) ->
  let need := Machine.roundUp sizeInBytes (DynamicBuffer.mAlignment self) in
  let d := RendererVk.mDevice renderer in
  let h := Device.nextHandle d in
  let size := Machine.to_size_t (Device.memoryRequirement d h) in
  out = {| DynamicBuffer.ptrOut := Some {| Device.region := h + 1; Device.byteOffset := 0 |};
           DynamicBuffer.handleOut := if handleRequested then Some h else None;
           DynamicBuffer.offsetOut := 0;
           DynamicBuffer.newBufferAllocatedOut :=
             if flagRequested then Some true else None |}
  /\ self' = DynamicBuffer.set_mNextAllocationOffset
               (Machine.to_uint32 (0 + Machine.to_uint32 need)) (Trace.rotated h size self)
  /\ RendererVk.mGarbage renderer' = RendererVk.mGarbage renderer
  /\ RendererVk.mCurrentQueueSerial renderer' = RendererVk.mCurrentQueueSerial renderer
  /\ RendererVk.nonCoherentAtomSize renderer' = RendererVk.nonCoherentAtomSize renderer
  /\ Device.calls (RendererVk.mDevice renderer')
     = Device.calls d ++ Trace.rotationCalls need h size self
  /\ Device.nextHandle (RendererVk.mDevice renderer') = h + 2
  /\ Device.memoryRequirement (RendererVk.mDevice renderer') = Device.memoryRequirement d
  /\ Device.hostWrites (RendererVk.mDevice renderer') = Device.hostWrites d.
Proof.
  intros Hvalid Hrot H need d h size.
  unfold DynamicBuffer.allocate in H.
  unfold DynamicBuffer.this at 1 in H. unfold bind at 1 in H. cbn [fst snd] in H.
  destruct (Z.eqb_spec (DynamicBuffer.mAlignment self) 0); [contradiction |].
  cbv zeta in H. rewrite Hrot in H.
  apply bind_Ok_inv in H as (flag & [self1 r1] & Hr & H).
  apply bind_Ok_inv in Hr as ([] & [self2 r2] & Hr & Hflag).
  unfold ret in Hflag. injection Hflag as <- <- <-.
  apply rotate_Ok in Hr as (-> & Hg & Hs & Ha & Hc & Hh & Hm & Hw).
  unfold DynamicBuffer.this, DynamicBuffer.assign, modify, bind, ret in H.
  cbn [fst snd] in H. injection H as <- <- <-.
  repeat split; assumption || reflexivity.
Qed.

Lemma allocate_rotate_success (sizeInBytes : Z) (handleRequested flagRequested : bool)
  (self : DynamicBuffer.t) (renderer : RendererVk.t) :
  DynamicBuffer.mAlignment self <> 0 ->
  Trace.neverFails (RendererVk.mDevice renderer) ->
  exists out s',
    DynamicBuffer.allocate sizeInBytes handleRequested flagRequested (self, renderer)
    = (Ok out, s')
    /\ Trace.neverFails (RendererVk.mDevice (snd s')).
Proof.
  intros Hvalid Hok.
  destruct (DynamicBuffer.needsNewBuffer
              (Machine.roundUp sizeInBytes (DynamicBuffer.mAlignment self)) self) eqn:Hrot.
  - unfold DynamicBuffer.allocate.
    unfold DynamicBuffer.this at 1. unfold bind at 1. cbn [fst snd].
    destruct (Z.eqb_spec (DynamicBuffer.mAlignment self) 0); [contradiction |].
    cbv zeta. rewrite Hrot.
    destruct (rotate_success (Machine.roundUp sizeInBytes (DynamicBuffer.mAlignment self))
                self renderer Hok) as (self1 & r1 & Hr & Hok1).
    erewrite bind_Ok; [| erewrite bind_Ok; [| exact Hr]; reflexivity].
    eexists _, _. split; [reflexivity | exact Hok1].
  - rewrite allocate_reuse by assumption. eexists _, _. split; [reflexivity | exact Hok].
Qed.

(** C1 (as the code has it). [allocate] rotates exactly when
    [nextOffset + roundUp(size, alignment)] reaches the backing size
    ([>=], not only when it exceeds it) or the addition overflows. A rotation
    that succeeds has flushed what was not flushed and unmapped the backing
    when it was mapped, put the current (buffer, memory) pair among the
    retained buffers, created a buffer of size
    [max(roundUp(size, alignment), minSize)] with its memory and mapping, and
    reset both offsets to 0 before serving the request at offset 0; it
    succeeds whenever the driver does. Otherwise the current backing is
    reused: no driver call is made and only [nextOffset] moves. *)
Theorem allocate_rotates_iff_reaches_size (sizeInBytes : Z) (handleRequested : bool)
  (self : DynamicBuffer.t) (renderer : RendererVk.t) :
  DynamicBuffer.mAlignment self <> 0 ->
  let need := Machine.roundUp sizeInBytes (DynamicBuffer.mAlignment self) in
  let next := DynamicBuffer.mNextAllocationOffset self in
  let d := RendererVk.mDevice renderer in
  let h := Device.nextHandle d in
  let size := Machine.to_size_t (Device.memoryRequirement d h) in
  let reaches := Machine.SIZE_MAX < next + need \/ DynamicBuffer.mSize self <= next + need in
  (~ reaches ->
   DynamicBuffer.allocate sizeInBytes handleRequested true (self, renderer)
   = (Ok {| DynamicBuffer.ptrOut :=
              DynamicBuffer.pointerAdd (DynamicBuffer.mMappedMemory self) next;
            DynamicBuffer.handleOut :=
              if handleRequested then Some (DynamicBuffer.mBuffer self) else None;
            DynamicBuffer.offsetOut := next;
            DynamicBuffer.newBufferAllocatedOut := Some false |},
      (DynamicBuffer.set_mNextAllocationOffset
         (Machine.to_uint32 (next + Machine.to_uint32 need)) self,
       renderer)))
  /\ (reaches ->
      forall out self' renderer',
        DynamicBuffer.allocate sizeInBytes handleRequested true (self, renderer)
        = (Ok out, (self', renderer')) ->
        DynamicBuffer.newBufferAllocatedOut out = Some true
        /\ DynamicBuffer.offsetOut out = 0
        /\ Device.calls (RendererVk.mDevice renderer')
           = Device.calls d ++ Trace.rotationCalls need h size self
        /\ DynamicBuffer.mRetainedBuffers self'
           = DynamicBuffer.mRetainedBuffers self
             ++ [{| DynamicBuffer.buffer := DynamicBuffer.mBuffer self;
                    DynamicBuffer.memory := DynamicBuffer.mMemory self |}]
        /\ DynamicBuffer.mBuffer self' = h
        /\ DynamicBuffer.mMemory self' = h + 1
        /\ DynamicBuffer.mSize self' = size
        /\ DynamicBuffer.mLastFlushOrInvalidateOffset self' = 0
        /\ DynamicBuffer.mNextAllocationOffset self'
           = Machine.to_uint32 (0 + Machine.to_uint32 need))
  /\ (reaches ->
      Trace.neverFails d ->
      exists out s',
        DynamicBuffer.allocate sizeInBytes handleRequested true (self, renderer)
        = (Ok out, s')).
Proof.
  intros Hvalid need next d h size reaches. split; [| split].
  - intros Hfit. apply allocate_reuse; [assumption |].
    change (DynamicBuffer.needsNewBuffer need self = false).
    destruct (DynamicBuffer.needsNewBuffer need self) eqn:Hn; [| reflexivity].
    exfalso. apply Hfit. apply needsNewBuffer_true. exact Hn.
  - intros Hreach out self' renderer' H.
    apply allocate_rotate_Ok in H as (-> & -> & _ & _ & _ & Hcalls & _);
      [| assumption | apply needsNewBuffer_true; exact Hreach].
    repeat split; try reflexivity. exact Hcalls.
  - intros _ Hok.
    destruct (allocate_rotate_success sizeInBytes handleRequested true self renderer Hvalid Hok)
      as (out & s' & H & _).
    exists out, s'. exact H.
Qed.

(** C1, witness: the first request on a fresh buffer (scenario S1) reaches
    the size 0 of the missing backing, and the call rotates and succeeds. *)
Lemma allocate_rotates_iff_reaches_size_witness :
  DynamicBuffer.mAlignment (fst (Scenario.dynamicBuffer 1048576 256 1048576)) <> 0
  /\ exists out s',
       DynamicBuffer.allocate 300 true true (Scenario.dynamicBuffer 1048576 256 1048576)
       = (Ok out, s').
Proof.
  assert (Hvalid : DynamicBuffer.mAlignment (fst (Scenario.dynamicBuffer 1048576 256 1048576))
                   <> 0) by (vm_compute; discriminate).
  split; [exact Hvalid |].
  apply (allocate_rotates_iff_reaches_size 300 true
           (fst (Scenario.dynamicBuffer 1048576 256 1048576))
           (snd (Scenario.dynamicBuffer 1048576 256 1048576)) Hvalid).
  - right. vm_compute. discriminate.
  - constructor.
Defined.

(** C1, counterexample: with a backing of 1024 bytes and 768 of them handed
    out, a request of 256 bytes ends exactly at the size of the backing: it
    does not exceed it and nothing overflows, yet the call rotates (new
    buffer 3, offset 0, flag set) instead of reusing buffer 1. *)
Lemma allocate_exact_fit_rotates :
  let s1 := snd (DynamicBuffer.allocate 768 true true (Scenario.dynamicBuffer 1024 256 1024)) in
  DynamicBuffer.mBuffer (fst s1) = 1
  /\ DynamicBuffer.mNextAllocationOffset (fst s1)
     + Machine.roundUp 256 (DynamicBuffer.mAlignment (fst s1))
     = DynamicBuffer.mSize (fst s1)
  /\ DynamicBuffer.mSize (fst s1) <= Machine.SIZE_MAX
  /\ fst (DynamicBuffer.allocate 256 true true s1)
     = Ok {| DynamicBuffer.ptrOut := Some {| Device.region := 4; Device.byteOffset := 0 |};
             DynamicBuffer.handleOut := Some 3;
             DynamicBuffer.offsetOut := 0;
             DynamicBuffer.newBufferAllocatedOut := Some true |}.
Proof.
  cbv zeta. split; [| split; [| split]].
  - vm_compute. reflexivity.
  - vm_compute. reflexivity.
  - vm_compute. discriminate.
  - vm_compute. reflexivity.
Qed.

(** ** DynamicBuffer: the retained buffers *)

Lemma releaseOne_fold (l : list DynamicBuffer.BufferAndMemory) (renderer : RendererVk.t) :
  let renderer' := fold_left DynamicBuffer.releaseOne l renderer in
  RendererVk.mGarbage renderer'
  = RendererVk.mGarbage renderer
    ++ Released.entries (RendererVk.mCurrentQueueSerial renderer) l
  /\ RendererVk.mCurrentQueueSerial renderer' = RendererVk.mCurrentQueueSerial renderer
  /\ RendererVk.mDevice renderer' = RendererVk.mDevice renderer
  /\ RendererVk.nonCoherentAtomSize renderer' = RendererVk.nonCoherentAtomSize renderer.
Proof.
  revert renderer. induction l as [| toFree rest IH]; intros renderer; cbn [fold_left].
  - cbn. rewrite app_nil_r. auto.
  - destruct (IH (DynamicBuffer.releaseOne renderer toFree)) as (Hg & Hs & Hd & Ha).
    cbv zeta. rewrite Hg, Hs, Hd, Ha. cbn. rewrite <- !app_assoc. auto.
Qed.

Lemma releaseRetainedBuffers_queue (self : DynamicBuffer.t) (renderer : RendererVk.t) :
  let s' := DynamicBuffer.releaseRetainedBuffers (self, renderer) in
  DynamicBuffer.mRetainedBuffers (fst s') = []
  /\ RendererVk.mGarbage (snd s')
     = RendererVk.mGarbage renderer
       ++ Released.entries (RendererVk.mCurrentQueueSerial renderer)
            (DynamicBuffer.mRetainedBuffers self).
Proof.
  cbv zeta. unfold DynamicBuffer.releaseRetainedBuffers. cbn [fst snd]. split; [reflexivity |].
  apply releaseOne_fold.
Qed.

(** C4 (as the code has it). When a request does not fit in the current
    backing and the call succeeds, the handle returned differs from the one
    in use before, [newBufferFlag] is [true] when it is requested, the
    offset returned is 0, and the superseded (buffer, memory) pair is the
    last of the retained buffers; the deferred-release queue is as it was.
    The pair enters the queue, under the current serial, at the next
    [releaseRetainedBuffers]. The call succeeds whenever the driver does.
    The second hypothesis says that the handle in use was handed out by the
    device. *)
Theorem allocate_rotation_retains_superseded (sizeInBytes : Z)
  (handleRequested flagRequested : bool) (self : DynamicBuffer.t) (renderer : RendererVk.t) :
  DynamicBuffer.mAlignment self <> 0 ->
  DynamicBuffer.mBuffer self < Device.nextHandle (RendererVk.mDevice renderer) ->
  let need := Machine.roundUp sizeInBytes (DynamicBuffer.mAlignment self) in
  let next := DynamicBuffer.mNextAllocationOffset self in
  let superseded :=
    {| DynamicBuffer.buffer := DynamicBuffer.mBuffer self;
       DynamicBuffer.memory := DynamicBuffer.mMemory self |} in
  Machine.SIZE_MAX < next + need \/ DynamicBuffer.mSize self < next + need ->
  (forall out self' renderer',
     DynamicBuffer.allocate sizeInBytes handleRequested flagRequested (self, renderer)
     = (Ok out, (self', renderer')) ->
     DynamicBuffer.getCurrentBufferHandle self' <> DynamicBuffer.getCurrentBufferHandle self
     /\ DynamicBuffer.handleOut out
        = (if handleRequested then Some (DynamicBuffer.getCurrentBufferHandle self') else None)
     /\ DynamicBuffer.newBufferAllocatedOut out = (if flagRequested then Some true else None)
     /\ DynamicBuffer.offsetOut out = 0
     /\ DynamicBuffer.mRetainedBuffers self'
        = DynamicBuffer.mRetainedBuffers self ++ [superseded]
     /\ RendererVk.mGarbage renderer' = RendererVk.mGarbage renderer
     /\ RendererVk.mGarbage (snd (DynamicBuffer.releaseRetainedBuffers (self', renderer')))
        = RendererVk.mGarbage renderer
          ++ Released.entries (RendererVk.mCurrentQueueSerial renderer)
               (DynamicBuffer.mRetainedBuffers self ++ [superseded]))
  /\ (Trace.neverFails (RendererVk.mDevice renderer) ->
      exists out s',
        DynamicBuffer.allocate sizeInBytes handleRequested flagRequested (self, renderer)
        = (Ok out, s')).
Proof.
  intros Hvalid Hown need next superseded Hnofit. split.
  - intros out self' renderer' H.
    apply allocate_rotate_Ok in H as (-> & -> & Hg & Hs & _);
      [| assumption | apply needsNewBuffer_true; fold need next; lia].
    pose proof (releaseRetainedBuffers_queue
                  (DynamicBuffer.set_mNextAllocationOffset
                     (Machine.to_uint32
                        (0 + Machine.to_uint32
                               (Machine.roundUp sizeInBytes (DynamicBuffer.mAlignment self))))
                     (Trace.rotated (Device.nextHandle (RendererVk.mDevice renderer))
                        (Machine.to_size_t
                           (Device.memoryRequirement (RendererVk.mDevice renderer)
                              (Device.nextHandle (RendererVk.mDevice renderer)))) self))
                  renderer') as (_ & Hq).
    rewrite Hq, Hg, Hs. cbn.
    repeat split; try reflexivity.
    unfold DynamicBuffer.getCurrentBufferHandle. lia.
  - intros Hok.
    destruct (allocate_rotate_success sizeInBytes handleRequested flagRequested self renderer
                Hvalid Hok) as (out & s' & H & _).
    exists out, s'. exact H.
Qed.

(** C4, witness: scenario S1. After requests of 300 and 500 bytes on a
    backing of 1 MiB, a request of 1 MiB does not fit. *)
Lemma allocate_rotation_retains_superseded_witness :
  let s2 := snd (DynamicBuffer.allocateAll [300; 500]
                   (Scenario.dynamicBuffer 1048576 256 1048576)) in
  let s3 := snd (DynamicBuffer.allocate 1048576 true true s2) in
  (DynamicBuffer.mAlignment (fst s2) <> 0
   /\ DynamicBuffer.mBuffer (fst s2) < Device.nextHandle (RendererVk.mDevice (snd s2))
   /\ DynamicBuffer.mSize (fst s2)
      < DynamicBuffer.mNextAllocationOffset (fst s2)
        + Machine.roundUp 1048576 (DynamicBuffer.mAlignment (fst s2)))
  /\ DynamicBuffer.getCurrentBufferHandle (fst s3) <> DynamicBuffer.getCurrentBufferHandle (fst s2)
  /\ DynamicBuffer.mRetainedBuffers (fst s3)
     = DynamicBuffer.mRetainedBuffers (fst s2)
       ++ [{| DynamicBuffer.buffer := DynamicBuffer.mBuffer (fst s2);
              DynamicBuffer.memory := DynamicBuffer.mMemory (fst s2) |}].
Proof.
  cbv zeta.
  set (s2 := snd (DynamicBuffer.allocateAll [300; 500]
                    (Scenario.dynamicBuffer 1048576 256 1048576))).
  assert (H1 : DynamicBuffer.mAlignment (fst s2) <> 0) by (vm_compute; discriminate).
  assert (H2 : DynamicBuffer.mBuffer (fst s2) < Device.nextHandle (RendererVk.mDevice (snd s2)))
    by (vm_compute; reflexivity).
  assert (H3 : DynamicBuffer.mSize (fst s2)
               < DynamicBuffer.mNextAllocationOffset (fst s2)
                 + Machine.roundUp 1048576 (DynamicBuffer.mAlignment (fst s2)))
    by (vm_compute; reflexivity).
  split; [auto |].
  destruct (allocate_rotation_retains_superseded 1048576 true true (fst s2) (snd s2) H1 H2
              (or_intror H3)) as [Hdone _].
  destruct (Hdone
              (match fst (DynamicBuffer.allocate 1048576 true true s2) with
               | Ok out => out
               | _ => {| DynamicBuffer.ptrOut := None; DynamicBuffer.handleOut := None;
                         DynamicBuffer.offsetOut := 0;
                         DynamicBuffer.newBufferAllocatedOut := None |}
               end)
              (fst (snd (DynamicBuffer.allocate 1048576 true true s2)))
              (snd (snd (DynamicBuffer.allocate 1048576 true true s2))))
    as (Hh & _ & _ & _ & Hr & _).
  - vm_compute. reflexivity.
  - split; [exact Hh | exact Hr].
Defined.

(** C4, counterexample: scenario S1. The request of 1 MiB does not fit, the
    call rotates from buffer 1 to buffer 3, and after it the deferred-release
    queue is empty: buffer 1 is among the retained buffers, not in the
    queue. *)
Lemma allocate_rotation_queue_untouched :
  let s2 := snd (DynamicBuffer.allocateAll [300; 500]
                   (Scenario.dynamicBuffer 1048576 256 1048576)) in
  let r3 := DynamicBuffer.allocate 1048576 true true s2 in
  DynamicBuffer.mBuffer (fst s2) = 1
  /\ DynamicBuffer.mSize (fst s2)
     < DynamicBuffer.mNextAllocationOffset (fst s2)
       + Machine.roundUp 1048576 (DynamicBuffer.mAlignment (fst s2))
  /\ fst r3
     = Ok {| DynamicBuffer.ptrOut := Some {| Device.region := 4; Device.byteOffset := 0 |};
             DynamicBuffer.handleOut := Some 3;
             DynamicBuffer.offsetOut := 0;
             DynamicBuffer.newBufferAllocatedOut := Some true |}
  /\ RendererVk.mGarbage (snd (snd r3)) = []
  /\ DynamicBuffer.mRetainedBuffers (fst (snd r3))
     = [{| DynamicBuffer.buffer := 0; DynamicBuffer.memory := 0 |};
        {| DynamicBuffer.buffer := 1; DynamicBuffer.memory := 2 |}].
Proof.
  cbv zeta. repeat split; vm_compute; reflexivity.
Qed.

(** ** DynamicBuffer: offsets along a run of requests *)

Lemma allocate_rotate_run (sizeInBytes : Z) (handleRequested flagRequested : bool)
  (self : DynamicBuffer.t) (renderer : RendererVk.t) :
  DynamicBuffer.mAlignment self <> 0 ->
  DynamicBuffer.needsNewBuffer
    (Machine.roundUp sizeInBytes (DynamicBuffer.mAlignment self)) self = true ->
  match DynamicBuffer.rotate (Machine.roundUp sizeInBytes (DynamicBuffer.mAlignment self))
          (self, renderer) with
  | (Ok _, _) =>
      exists out, fst (DynamicBuffer.allocate sizeInBytes handleRequested flagRequested
                         (self, renderer)) = Ok out
  | (Err e, s1) =>
      DynamicBuffer.allocate sizeInBytes handleRequested flagRequested (self, renderer)
      = (Err e, s1)
  | (Undefined, s1) =>
      DynamicBuffer.allocate sizeInBytes handleRequested flagRequested (self, renderer)
      = (Undefined, s1)
  end.
Proof.
  intros Hvalid Hrot.
  destruct (DynamicBuffer.rotate _ (self, renderer)) as [[[] | e |] s1] eqn:Hr;
    unfold DynamicBuffer.allocate;
    unfold DynamicBuffer.this at 1; unfold bind at 1; cbn [fst snd];
    (destruct (Z.eqb_spec (DynamicBuffer.mAlignment self) 0); [contradiction |]);
    cbv zeta; rewrite Hrot.
  - erewrite bind_Ok; [| erewrite bind_Ok; [| exact Hr]; reflexivity].
    eexists. reflexivity.
  - unfold bind at 1. unfold bind at 1. rewrite Hr. reflexivity.
  - unfold bind at 1. unfold bind at 1. rewrite Hr. reflexivity.
Qed.

Lemma keepsBounded_refl (A : Z) s : Invariant.keepsBounded A s s.
Proof. unfold Invariant.keepsBounded. auto. Qed.

Lemma keepsBounded_trans (A : Z) s1 s2 s3 :
  Invariant.keepsBounded A s1 s2 -> Invariant.keepsBounded A s2 s3 -> Invariant.keepsBounded A s1 s3.
Proof. unfold Invariant.keepsBounded. auto. Qed.

Lemma rotate_keepsBounded (A need : Z) : keeps (Invariant.keepsBounded A) (DynamicBuffer.rotate need).
Proof.
  assert (Hassign : forall f,
             (forall self, DynamicBuffer.mAlignment (f self) = DynamicBuffer.mAlignment self
                           /\ (DynamicBuffer.mNextAllocationOffset (f self)
                               = DynamicBuffer.mNextAllocationOffset self
                               \/ DynamicBuffer.mNextAllocationOffset (f self) = 0)
                           /\ DynamicBuffer.mSize (f self) = DynamicBuffer.mSize self) ->
             keeps (Invariant.keepsBounded A) (@DynamicBuffer.assign RendererVk.t f)).
  { intros f Hf [self r] (Ha & Hd & Hn & Hs & Hm). cbn.
    destruct (Hf self) as (Ha' & Hn' & Hs'). unfold Invariant.bounded. cbn.
    rewrite Ha', Hs'. repeat split; try assumption.
    - destruct Hn' as [-> | ->]; [assumption | apply Z.divide_0_r].
    - destruct Hn' as [-> | ->]; [assumption | lia]. }
  assert (Hdev : forall (m : Action (DynamicBuffer.t * Device.t) unit),
             (forall self d,
                 let s' := snd (m (self, d)) in
                 DynamicBuffer.mAlignment (fst s') = DynamicBuffer.mAlignment self
                 /\ DynamicBuffer.mNextAllocationOffset (fst s')
                    = DynamicBuffer.mNextAllocationOffset self
                 /\ DynamicBuffer.mSize (fst s') = DynamicBuffer.mSize self
                 /\ Device.memoryRequirement (snd s') = Device.memoryRequirement d) ->
             keeps (Invariant.keepsBounded A) (DynamicBuffer.onDevice m)).
  { intros m Hm [self r] (Ha & Hd & Hn & Hs & Hq). rewrite onDevice_run. cbn [fst snd] in *.
    destruct (Hm self (RendererVk.mDevice r)) as (Ha' & Hn' & Hs' & Hq').
    unfold Invariant.bounded. cbn [fst snd]. rewrite Ha', Hn', Hs'. cbn. rewrite Hq'. auto. }
  unfold DynamicBuffer.rotate.
  apply keeps_bind; [apply keepsBounded_trans | intros s; apply keepsBounded_refl |].
  intros self.
  repeat (apply keeps_bind; [apply keepsBounded_trans | | intros ?]).
  - apply keeps_if; [| apply keeps_ret, keepsBounded_refl].
    repeat (apply keeps_bind; [apply keepsBounded_trans | | intros ?]).
    + apply Hdev. intros self0 d. cbv zeta.
      destruct (Z.lt_ge_cases (DynamicBuffer.mLastFlushOrInvalidateOffset self0)
                  (DynamicBuffer.mNextAllocationOffset self0)) as [Hlt | Hge].
      * rewrite (flush_range _ _ Hlt). cbv zeta.
        destruct (Device.nextResult d); cbn; auto.
      * rewrite (flush_empty_range _ _ Hge). cbn. auto.
    + apply Hdev. intros self0 d. cbn. auto.
    + apply Hassign. intros self0. cbn. auto.
  - apply Hassign. intros self0. cbn. auto.
  - apply Hdev. intros self0 d. unfold DynamicBuffer.mBuffer_init, Device.create. cbn [fst snd].
    destruct (Device.nextResult d); cbn; auto.
  - intros [self0 r] (Ha & Hd & Hn & Hs & Hq).
    unfold DynamicBuffer.AllocateBufferMemory. rewrite onDevice_run. cbn [fst snd].
    unfold Device.create.
    destruct (Device.nextResult (RendererVk.mDevice r)); unfold Invariant.bounded; cbn;
      repeat split; auto.
  - intros s. apply keepsBounded_refl.
  - apply Hdev. intros self0 d. unfold DynamicBuffer.mMemory_map, Device.call. cbn [fst snd].
    destruct (Device.nextResult d); cbn; auto.
  - apply Hassign. intros self0. cbn. auto.
  - apply Hassign. intros self0. cbn. auto.
Qed.

Lemma allocate_step (A sizeInBytes : Z) (self : DynamicBuffer.t) (renderer : RendererVk.t) :
  0 < A ->
  Invariant.bounded A (self, renderer) ->
  Machine.roundUp sizeInBytes A < 2 ^ 32 ->
  let res := DynamicBuffer.allocate sizeInBytes true true (self, renderer) in
  Invariant.bounded A (snd res)
  /\ (forall out,
        fst res = Ok out ->
        (A | DynamicBuffer.offsetOut out)
        /\ DynamicBuffer.mNextAllocationOffset (fst (snd res))
           = DynamicBuffer.offsetOut out + Machine.roundUp sizeInBytes A
        /\ (DynamicBuffer.newBufferAllocatedOut out = Some false ->
            DynamicBuffer.offsetOut out = DynamicBuffer.mNextAllocationOffset self)).
Proof.
  intros HA Hb Hneed res.
  pose proof Hb as (Ha & Hd & Hn & Hs & Hq). cbn [fst snd] in Ha, Hd, Hn, Hs, Hq.
  assert (Hvalid : DynamicBuffer.mAlignment self <> 0) by lia.
  pose proof (roundUp_range sizeInBytes A HA) as Hrange.
  pose proof (roundUp_divide sizeInBytes A ltac:(lia)) as Hdiv.
  destruct (DynamicBuffer.needsNewBuffer
              (Machine.roundUp sizeInBytes (DynamicBuffer.mAlignment self)) self) eqn:Hrot.
  - pose proof (allocate_rotate_run sizeInBytes true true self renderer Hvalid Hrot) as Hrun.
    pose proof (rotate_keepsBounded A
                  (Machine.roundUp sizeInBytes (DynamicBuffer.mAlignment self))
                  (self, renderer) Hb) as Hkeep.
    destruct (DynamicBuffer.rotate _ (self, renderer)) as [[[] | e |] s1] eqn:Hr.
    + destruct Hrun as (out & Hout). subst res.
      destruct (DynamicBuffer.allocate sizeInBytes true true (self, renderer))
        as [r0 [self' renderer']] eqn:Halloc.
      cbn [fst snd] in Hout |- *. subst r0.
      apply allocate_rotate_Ok in Halloc as (-> & -> & _ & _ & _ & _ & _ & Hm & _);
        [| assumption | assumption].
      rewrite Ha. rewrite (to_uint32_small (Machine.roundUp sizeInBytes A)) by lia.
      rewrite Z.add_0_l. rewrite to_uint32_small by lia.
      split.
      * unfold Invariant.bounded. cbn. rewrite Hm. repeat split; auto; lia.
      * intros out [= <-]. cbn. repeat split.
        -- apply Z.divide_0_r.
        -- discriminate.
    + subst res. rewrite Hrun. cbn [fst snd] in *. split; [exact Hkeep | discriminate].
    + subst res. rewrite Hrun. cbn [fst snd] in *. split; [exact Hkeep | discriminate].
  - subst res. rewrite allocate_reuse by assumption.
    apply needsNewBuffer_false in Hrot as [_ Hfit]. rewrite Ha in Hfit |- *.
    rewrite (to_uint32_small (Machine.roundUp sizeInBytes A)) by lia.
    rewrite to_uint32_small by lia.
    cbn [fst snd]. split.
    + unfold Invariant.bounded. cbn. repeat split; auto; try lia.
      apply Z.divide_add_r; assumption.
    + intros out [= <-]. cbn. auto.
Qed.

Lemma allocateAll_cons (sizeInBytes : Z) (rest : list Z) (s : DynamicBuffer.t * RendererVk.t) :
  DynamicBuffer.allocateAll (sizeInBytes :: rest) s
  = (fst (DynamicBuffer.allocate sizeInBytes true true s)
       :: fst (DynamicBuffer.allocateAll rest
                 (snd (DynamicBuffer.allocate sizeInBytes true true s))),
     snd (DynamicBuffer.allocateAll rest
            (snd (DynamicBuffer.allocate sizeInBytes true true s)))).
Proof.
  cbn [DynamicBuffer.allocateAll].
  destruct (DynamicBuffer.allocate sizeInBytes true true s) as [r s1]. cbn [fst snd].
  destruct (DynamicBuffer.allocateAll rest s1) as [rs s2]. reflexivity.
Qed.

Lemma allocateAll_offsets (A : Z) (sizes : list Z) :
  0 < A ->
  Forall (fun s => Machine.roundUp s A < 2 ^ 32) sizes ->
  forall state,
    Invariant.bounded A state ->
    let outs := fst (DynamicBuffer.allocateAll sizes state) in
    length outs = length sizes
    /\ (forall i out, outs !! i = Some (Ok out) -> (A | DynamicBuffer.offsetOut out))
    /\ (forall out,
          outs !! 0%nat = Some (Ok out) ->
          DynamicBuffer.newBufferAllocatedOut out = Some false ->
          DynamicBuffer.offsetOut out = DynamicBuffer.mNextAllocationOffset (fst state))
    /\ (forall i s a b,
          sizes !! i = Some s ->
          outs !! i = Some (Ok a) ->
          outs !! S i = Some (Ok b) ->
          DynamicBuffer.newBufferAllocatedOut b = Some false ->
          DynamicBuffer.offsetOut a + Machine.roundUp s A <= DynamicBuffer.offsetOut b).
Proof.
  intros HA Hsizes. induction Hsizes as [| s rest Hs Hrest IH]; intros state Hb outs.
  - subst outs. cbn. repeat split; intros; discriminate.
  - subst outs. rewrite allocateAll_cons. cbn [fst snd].
    destruct state as [self renderer].
    destruct (allocate_step A s self renderer HA Hb Hs) as (Hb1 & Hout).
    destruct (IH _ Hb1) as (Hlen & Hdiv & Hfirst & Hbump).
    split; [cbn [length]; f_equal; exact Hlen |].
    split; [| split].
    + intros [| i] out Hi; cbn in Hi.
      * injection Hi as Hi. apply (Hout out Hi).
      * apply (Hdiv i out Hi).
    + intros out Hi Hflag. cbn in Hi. injection Hi as Hi.
      apply (Hout out Hi). exact Hflag.
    + intros [| i] s0 a b Hsi Ha Hbi Hflag; cbn in Hsi, Ha, Hbi.
      * injection Hsi as <-. injection Ha as Ha.
        destruct (Hout a Ha) as (_ & Hnext & _).
        rewrite (Hfirst b Hbi Hflag). lia.
      * apply (Hbump i s0 a b Hsi Ha Hbi Hflag).
Qed.

Lemma allocateAll_success (A : Z) (sizes : list Z) :
  0 < A ->
  Forall (fun s => Machine.roundUp s A < 2 ^ 32) sizes ->
  forall state,
    Invariant.bounded A state ->
    Trace.neverFails (RendererVk.mDevice (snd state)) ->
    Forall (fun r => exists out, r = Ok out) (fst (DynamicBuffer.allocateAll sizes state)).
Proof.
  intros HA Hsizes. induction Hsizes as [| s rest Hs Hrest IH]; intros state Hb Hok.
  - constructor.
  - rewrite allocateAll_cons. cbn [fst snd]. destruct state as [self renderer].
    destruct (allocate_step A s self renderer HA Hb Hs) as (Hb1 & _).
    assert (Hvalid : DynamicBuffer.mAlignment self <> 0) by (destruct Hb as (Ha & _); cbn in Ha; lia).
    destruct (allocate_rotate_success s true true self renderer Hvalid Hok)
      as (out & s' & Halloc & Hok').
    rewrite Halloc in Hb1 |- *. cbn [fst snd] in *.
    constructor; [exists out; reflexivity | apply IH; assumption].
Qed.

(** C6 (as the code has it). After [init], the alignment is the maximum of
    the caller's alignment and the device's [nonCoherentAtomSize], hence
    positive and at least [nonCoherentAtomSize]. As long as every request,
    rounded up, and every backing the driver provides stay within what the
    32-bit offsets of the class hold, along any run of [allocate] calls
    every offset returned is a multiple of the alignment, and a call that
    does not rotate returns an offset at least the previous offset plus the
    previous request rounded up; with a driver that never fails every call
    returns. *)
Theorem allocate_offsets_aligned_in_uint32 (usage minSize alignment : Z)
  (renderer : RendererVk.t) (sizes : list Z) :
  0 < alignment ->
  0 <= RendererVk.nonCoherentAtomSize renderer < 2 ^ 64 ->
  (forall h,
      Machine.to_size_t (Device.memoryRequirement (RendererVk.mDevice renderer) h) <= 2 ^ 32) ->
  let self := DynamicBuffer.init alignment renderer (DynamicBuffer.DynamicBuffer usage minSize) in
  let A := DynamicBuffer.mAlignment self in
  Forall (fun s => Machine.roundUp s A < 2 ^ 32) sizes ->
  let outs := fst (DynamicBuffer.allocateAll sizes (self, renderer)) in
  A = Z.max alignment (RendererVk.nonCoherentAtomSize renderer)
  /\ 0 < A
  /\ RendererVk.nonCoherentAtomSize renderer <= A
  /\ length outs = length sizes
  /\ (forall i out, outs !! i = Some (Ok out) -> (A | DynamicBuffer.offsetOut out))
  /\ (forall i s a b,
        sizes !! i = Some s ->
        outs !! i = Some (Ok a) ->
        outs !! S i = Some (Ok b) ->
        DynamicBuffer.newBufferAllocatedOut b = Some false ->
        DynamicBuffer.offsetOut a + Machine.roundUp s A <= DynamicBuffer.offsetOut b)
  /\ (Trace.neverFails (RendererVk.mDevice renderer) ->
      Forall (fun r => exists out, r = Ok out) outs).
Proof.
  intros Halign Hatom Hdriver self A Hsizes outs.
  assert (HA : A = Z.max alignment (RendererVk.nonCoherentAtomSize renderer)).
  { subst A self. unfold DynamicBuffer.init. cbn.
    rewrite to_size_t_small by lia. reflexivity. }
  assert (Hpos : 0 < A) by lia.
  assert (Hb : Invariant.bounded A (self, renderer)).
  { unfold Invariant.bounded. cbn [fst snd]. repeat split; try assumption.
    - cbn. apply Z.divide_0_r.
    - cbn. lia.
    - cbn. lia. }
  destruct (allocateAll_offsets A sizes Hpos Hsizes (self, renderer) Hb)
    as (Hlen & Hdiv & _ & Hbump).
  repeat split; try assumption; try lia.
  intros Hok. apply (allocateAll_success A sizes Hpos Hsizes (self, renderer) Hb Hok).
Qed.

(** C6, witness: scenario S1, requests of 300 and 500 bytes with alignment
    256 on a backing of 1 MiB. *)
Lemma allocate_offsets_aligned_in_uint32_witness :
  let state := Scenario.dynamicBuffer 1048576 256 1048576 in
  let outs := fst (DynamicBuffer.allocateAll [300; 500] state) in
  (0 < 256
   /\ 0 <= RendererVk.nonCoherentAtomSize (snd state) < 2 ^ 64
   /\ (forall h,
          Machine.to_size_t (Device.memoryRequirement (RendererVk.mDevice (snd state)) h)
          <= 2 ^ 32)
   /\ Forall (fun s => Machine.roundUp s (DynamicBuffer.mAlignment (fst state)) < 2 ^ 32)
        [300; 500])
  /\ (forall i out, outs !! i = Some (Ok out) -> (256 | DynamicBuffer.offsetOut out))
  /\ (forall i s a b,
        [300; 500] !! i = Some s ->
        outs !! i = Some (Ok a) ->
        outs !! S i = Some (Ok b) ->
        DynamicBuffer.newBufferAllocatedOut b = Some false ->
        DynamicBuffer.offsetOut a + Machine.roundUp s 256 <= DynamicBuffer.offsetOut b).
Proof.
  cbv zeta.
  assert (H1 : 0 < 256) by lia.
  assert (H2 : 0 <= RendererVk.nonCoherentAtomSize (Scenario.renderer 1048576) < 2 ^ 64)
    by (vm_compute; split; discriminate || reflexivity).
  assert (H3 : forall h,
             Machine.to_size_t
               (Device.memoryRequirement (RendererVk.mDevice (Scenario.renderer 1048576)) h)
             <= 2 ^ 32) by (intros h; vm_compute; discriminate).
  assert (H4 : Forall
                 (fun s =>
                    Machine.roundUp s
                      (DynamicBuffer.mAlignment
                         (DynamicBuffer.init 256 (Scenario.renderer 1048576)
                            (DynamicBuffer.DynamicBuffer
                               LineLoopHelper.kLineLoopDynamicBufferUsage 1048576))) < 2 ^ 32)
                 [300; 500]) by (repeat constructor).
  split; [repeat split; try assumption; apply H2 |].
  destruct (allocate_offsets_aligned_in_uint32 LineLoopHelper.kLineLoopDynamicBufferUsage
              1048576 256 (Scenario.renderer 1048576) [300; 500] H1 H2 H3 H4)
    as (_ & _ & _ & _ & Hdiv & Hbump & _).
  split; [exact Hdiv | exact Hbump].
Defined.

(** C6, counterexample: a request of 4 GiB on a device that backs it with
    8 GiB. The call returns offset 0 and [mNextAllocationOffset], advanced
    by the request cut to 32 bits, is 0 again; the next request, of 256
    bytes, is served without a rotation at offset 0, below
    [0 + roundUp(4 GiB, 256)]: the two regions overlap. *)
Lemma allocate_offsets_wrap_at_4GiB :
  let outs := fst (DynamicBuffer.allocateAll [4294967296; 256]
                     (Scenario.dynamicBuffer 1048576 256 8589934592)) in
  outs
  = [Ok {| DynamicBuffer.ptrOut := Some {| Device.region := 2; Device.byteOffset := 0 |};
           DynamicBuffer.handleOut := Some 1;
           DynamicBuffer.offsetOut := 0;
           DynamicBuffer.newBufferAllocatedOut := Some true |};
     Ok {| DynamicBuffer.ptrOut := Some {| Device.region := 2; Device.byteOffset := 0 |};
           DynamicBuffer.handleOut := Some 1;
           DynamicBuffer.offsetOut := 0;
           DynamicBuffer.newBufferAllocatedOut := Some false |}]
  /\ 0 < 0 + Machine.roundUp 4294967296 256.
Proof.
  cbv zeta. split; vm_compute; reflexivity.
Qed.

(** ** DynamicDescriptorPool *)

Section DescriptorPoolFacts.

Variables kUniforms kTexture : nat.

Abbreviation addPoolSize := (DynamicDescriptorPool.addPoolSize kUniforms kTexture).
Abbreviation allocateNewPool := (DynamicDescriptorPool.allocateNewPool kUniforms kTexture).
Abbreviation allocateSets := (DynamicDescriptorPool.allocateSets kUniforms kTexture).
Abbreviation allocateSetsAll := (DynamicDescriptorPool.allocateSetsAll kUniforms kTexture).
Abbreviation bucketSum := (Capacity.bucketSum kUniforms kTexture).
Abbreviation capacity := (Capacity.ofSlot kUniforms kTexture).

Lemma addPoolSize_length (free : list Z) (poolSize : Vk.VkDescriptorPoolSize) :
  length (addPoolSize free poolSize) = length free.
Proof. unfold DynamicDescriptorPool.addPoolSize. apply length_insert. Qed.

Lemma addPoolSizes_length (poolSizes : list Vk.VkDescriptorPoolSize) (free : list Z) :
  length (fold_left addPoolSize poolSizes free) = length free.
Proof.
  revert free. induction poolSizes as [| poolSize rest IH]; intros free; cbn [fold_left].
  - reflexivity.
  - rewrite IH. apply addPoolSize_length.
Qed.

Lemma addPoolSizes_lookup (poolSizes : list Vk.VkDescriptorPoolSize) :
  forall (free : list Z) (slot : nat) (f : Z),
    free !! slot = Some f ->
    0 <= f < 2 ^ 32 ->
    fold_left addPoolSize poolSizes free !! slot
    = Some (Machine.to_uint32 (f + bucketSum slot poolSizes)).
Proof.
  induction poolSizes as [| poolSize rest IH]; intros free slot f Hf Hrange;
    cbn [fold_left Capacity.bucketSum].
  - rewrite Z.add_0_r, to_uint32_small by assumption. exact Hf.
  - unfold DynamicDescriptorPool.addPoolSize at 2.
    destruct (bool_decide_reflect
                (DynamicDescriptorPool.GetDescriptorSetIndexfromType kUniforms kTexture
                   (Vk.type poolSize) = slot)) as [Heq | Hne].
    + rewrite Heq, Hf. cbn [default].
      rewrite (IH _ slot (Machine.to_uint32 (f + Vk.descriptorCount poolSize))).
      * f_equal. unfold Machine.to_uint32. rewrite Zplus_mod_idemp_l. f_equal. lia.
      * apply list_lookup_insert_eq. eapply lookup_lt_Some. exact Hf.
      * apply to_uint32_range.
    + rewrite (IH _ slot f).
      * reflexivity.
      * rewrite list_lookup_insert_ne by exact Hne. exact Hf.
      * assumption.
Qed.

(** What [allocateNewPool] leaves behind, whatever the driver answers. *)
Lemma allocateNewPool_resets (self : DynamicDescriptorPool.t) (d : Device.t) :
  let res := allocateNewPool (self, d) in
  let self' := fst (snd res) in
  DynamicDescriptorPool.mCurrentSetsCount self' = 0
  /\ DynamicDescriptorPool.mMaxSetsPerPool self' = DynamicDescriptorPool.mMaxSetsPerPool self
  /\ DynamicDescriptorPool.mPoolSizes self' = DynamicDescriptorPool.mPoolSizes self
  /\ DynamicDescriptorPool.mFreeDescriptorSets self'
     = fold_left addPoolSize (DynamicDescriptorPool.mPoolSizes self)
         (replicate (length (DynamicDescriptorPool.mFreeDescriptorSets self)) 0)
  /\ fst res = (if decide (Device.nextResult d = Vk.VK_SUCCESS)
                then Ok tt else Err (Device.nextResult d))
  /\ DynamicDescriptorPool.mCurrentDescriptorPool self'
     = (if decide (Device.nextResult d = Vk.VK_SUCCESS)
        then Device.nextHandle d else DynamicDescriptorPool.mCurrentDescriptorPool self)
  /\ Device.calls (snd (snd res))
     = Device.calls d
       ++ [Device.CreateDescriptorPool
             {| Vk.dpci_flags := 0;
                Vk.dpci_maxSets := DynamicDescriptorPool.mMaxSetsPerPool self;
                Vk.dpci_poolSizeCount :=
                  Machine.to_uint32
                    (Z.of_nat (length (DynamicDescriptorPool.mPoolSizes self)));
                Vk.dpci_pPoolSizes := DynamicDescriptorPool.mPoolSizes self |}
             (Device.nextResult d)
             (if decide (Device.nextResult d = Vk.VK_SUCCESS)
              then Device.nextHandle d else Vk.VK_NULL_HANDLE)]
  /\ Device.pendingResults (snd (snd res)) = tail (Device.pendingResults d)
  /\ Device.nextHandle (snd (snd res))
     = (if decide (Device.nextResult d = Vk.VK_SUCCESS)
        then Device.nextHandle d + 1 else Device.nextHandle d).
Proof.
  cbv zeta.
  unfold DynamicDescriptorPool.allocateNewPool, DynamicDescriptorPool.this,
    DynamicDescriptorPool.assign, DynamicDescriptorPool.mCurrentDescriptorPool_init,
    Device.create, bind, modify.
  cbn [fst snd].
  destruct (Device.nextResult d) eqn:Hr; cbn; rewrite ?Hr; repeat split; reflexivity.
Qed.

(** One call of [allocateSets], whatever the driver answers: whether the
    current pool is handed to the deferred-release queue, the counters the
    call starts from after its [if] ([mid], [midCount]), and what it leaves
    behind. *)
Lemma allocateSets_cases (layout count : Z) (slot : nat)
  (self : DynamicDescriptorPool.t) (renderer : RendererVk.t) :
  (slot < length (DynamicDescriptorPool.mFreeDescriptorSets self))%nat ->
  let res := allocateSets layout count slot (self, renderer) in
  let self' := fst (snd res) in
  let rotates := DynamicDescriptorPool.needsNewPool count slot self in
  let mid :=
    if rotates
    then fold_left addPoolSize (DynamicDescriptorPool.mPoolSizes self)
           (replicate (length (DynamicDescriptorPool.mFreeDescriptorSets self)) 0)
    else DynamicDescriptorPool.mFreeDescriptorSets self in
  let midCount := if rotates then 0 else DynamicDescriptorPool.mCurrentSetsCount self in
  RendererVk.mGarbage (snd (snd res))
  = RendererVk.mGarbage renderer
    ++ (if rotates
        then [(RendererVk.mCurrentQueueSerial renderer,
               {| RendererVk.kind := RendererVk.DescriptorPoolObject;
                  RendererVk.handle := DynamicDescriptorPool.mCurrentDescriptorPool self |})]
        else [])
  /\ RendererVk.mCurrentQueueSerial (snd (snd res)) = RendererVk.mCurrentQueueSerial renderer
  /\ DynamicDescriptorPool.mMaxSetsPerPool self' = DynamicDescriptorPool.mMaxSetsPerPool self
  /\ DynamicDescriptorPool.mPoolSizes self' = DynamicDescriptorPool.mPoolSizes self
  /\ ((fst res = Ok tt
       /\ DynamicDescriptorPool.mFreeDescriptorSets self'
          = <[slot := Machine.to_uint32 (default 0 (mid !! slot) - count)]> mid
       /\ DynamicDescriptorPool.mCurrentSetsCount self' = Machine.to_uint32 (midCount + 1)
       /\ DynamicDescriptorPool.mCurrentDescriptorPool self'
          = (if rotates then Device.nextHandle (RendererVk.mDevice renderer)
             else DynamicDescriptorPool.mCurrentDescriptorPool self))
      \/ ((exists e, fst res = Err e)
          /\ DynamicDescriptorPool.mFreeDescriptorSets self' = mid
          /\ DynamicDescriptorPool.mCurrentSetsCount self' = midCount)).
Proof.
  intros Hslot. cbv zeta.
  unfold DynamicDescriptorPool.allocateSets.
  unfold DynamicDescriptorPool.this, bind. cbn [fst snd].
  rewrite !bool_decide_eq_true_2 by exact Hslot. cbn [negb].
  destruct (DynamicDescriptorPool.needsNewPool count slot self);
    unfold DynamicDescriptorPool.releaseCurrentPool, DynamicDescriptorPool.onDevice,
      DynamicDescriptorPool.allocateNewPool, DynamicDescriptorPool.this,
      DynamicDescriptorPool.assign, DynamicDescriptorPool.mCurrentDescriptorPool_init,
      DynamicDescriptorPool.mCurrentDescriptorPool_allocateDescriptorSets,
      Device.ANGLE_VK_TRY, Device.call, Device.create, zoom, bind, modify, ret;
    cbn [fst snd RendererVk.mDevice RendererVk.releaseObject RendererVk.withDevice];
    repeat (match goal with
            | |- context [match Device.nextResult ?d with _ => _ end] =>
                destruct (Device.nextResult d) eqn:?
            end;
            cbn [fst snd RendererVk.mDevice RendererVk.releaseObject RendererVk.withDevice]);
    (split; [cbn; rewrite ?app_nil_r; reflexivity |]);
    (split; [reflexivity |]); (split; [reflexivity |]); (split; [reflexivity |]);
    solve [ left; repeat split; reflexivity
          | right; split; [eexists; reflexivity | split; reflexivity] ].
Qed.

Lemma fresh_pool_lookup (P : list Vk.VkDescriptorPoolSize) (L slot : nat) :
  (slot < L)%nat ->
  fold_left addPoolSize P (replicate L 0) !! slot = Some (capacity slot P).
Proof.
  intros Hslot. rewrite (addPoolSizes_lookup P (replicate L 0) slot 0).
  - reflexivity.
  - apply lookup_replicate_2. exact Hslot.
  - lia.
Qed.

Lemma fresh_pool_range (P : list Vk.VkDescriptorPoolSize) (L : nat) :
  Forall (fun f => 0 <= f < 2 ^ 32) (fold_left addPoolSize P (replicate L 0)).
Proof.
  apply Forall_lookup_2. intros i x Hi.
  assert (Hlt : (i < L)%nat).
  { apply lookup_lt_Some in Hi. rewrite addPoolSizes_length, length_replicate in Hi. exact Hi. }
  rewrite (fresh_pool_lookup P L i Hlt) in Hi. injection Hi as <-. apply to_uint32_range.
Qed.

Lemma needsNewPool_false (count : Z) (slot : nat) (self : DynamicDescriptorPool.t) :
  DynamicDescriptorPool.needsNewPool count slot self = false ->
  count <= default 0 (DynamicDescriptorPool.mFreeDescriptorSets self !! slot)
  /\ DynamicDescriptorPool.mCurrentSetsCount self < DynamicDescriptorPool.mMaxSetsPerPool self.
Proof.
  unfold DynamicDescriptorPool.needsNewPool. intros H.
  apply orb_false_elim in H as [H1 H2].
  apply Z.ltb_ge in H1. apply Z.leb_gt in H2. auto.
Qed.

(** One call under the invariant, with a count the fresh pool can serve. *)
Lemma allocateSets_step (M : Z) (P : list Vk.VkDescriptorPoolSize) (L : nat)
  (layout count : Z) (slot : nat) (self : DynamicDescriptorPool.t) (renderer : RendererVk.t) :
  1 <= M < 2 ^ 32 ->
  Invariant.accounted M P L self ->
  (slot < L)%nat ->
  0 <= count <= capacity slot P ->
  let res := allocateSets layout count slot (self, renderer) in
  let before :=
    if DynamicDescriptorPool.needsNewPool count slot self
    then capacity slot P
    else default 0 (DynamicDescriptorPool.mFreeDescriptorSets self !! slot) in
  let countBefore :=
    if DynamicDescriptorPool.needsNewPool count slot self
    then 0 else DynamicDescriptorPool.mCurrentSetsCount self in
  Invariant.accounted M P L (fst (snd res))
  /\ (fst res = Ok tt ->
      DynamicDescriptorPool.mFreeDescriptorSets (fst (snd res)) !! slot = Some (before - count)
      /\ 0 <= before - count
      /\ DynamicDescriptorPool.mCurrentSetsCount (fst (snd res)) = countBefore + 1).
Proof.
  intros HM (Hmax & Hsizes & Hlen & Hcur & Hfree) Hslot Hcount res before countBefore.
  assert (Hslot' : (slot < length (DynamicDescriptorPool.mFreeDescriptorSets self))%nat)
    by (rewrite Hlen; exact Hslot).
  destruct (allocateSets_cases layout count slot self renderer Hslot')
    as (_ & _ & Hmax' & Hsizes' & Hcases).
  fold res in Hmax', Hsizes', Hcases.
  pose proof (capacity_range := to_uint32_range (bucketSum slot P)).
  fold (capacity slot P) in capacity_range.
  assert (Hmid : let mid :=
                   if DynamicDescriptorPool.needsNewPool count slot self
                   then fold_left addPoolSize (DynamicDescriptorPool.mPoolSizes self)
                          (replicate
                             (length (DynamicDescriptorPool.mFreeDescriptorSets self)) 0)
                   else DynamicDescriptorPool.mFreeDescriptorSets self in
                 length mid = L
                 /\ Forall (fun f => 0 <= f < 2 ^ 32) mid
                 /\ mid !! slot = Some before
                 /\ 0 <= before - count < 2 ^ 32).
  { cbv zeta. subst before.
    destruct (DynamicDescriptorPool.needsNewPool count slot self) eqn:Hrot.
    - rewrite Hsizes, Hlen. repeat split.
      + rewrite addPoolSizes_length. apply length_replicate.
      + apply fresh_pool_range.
      + apply fresh_pool_lookup. exact Hslot.
      + lia.
      + lia.
    - apply needsNewPool_false in Hrot as [Hge _].
      destruct (lookup_lt_is_Some_2 _ _ Hslot') as [f Hf].
      rewrite Hf in Hge |- *. cbn [from_option id] in Hge |- *.
      pose proof (Forall_lookup_1 _ _ _ _ Hfree Hf) as Hrange. cbv beta in Hrange.
      repeat split; auto; lia. }
  cbv zeta in Hmid, Hcases. destruct Hmid as (HmidLen & HmidRange & HmidSlot & Hdiff).
  destruct Hcases as [(Hok & Hfree' & Hcount' & _) | ((e & Herr) & Hfree' & Hcount')].
  - rewrite HmidSlot in Hfree'. cbn [from_option id] in Hfree'.
    rewrite to_uint32_small in Hfree' by exact Hdiff.
    split.
    + unfold Invariant.accounted. rewrite Hmax', Hsizes', Hfree', Hcount', length_insert.
      repeat split; auto.
      * apply to_uint32_range.
      * destruct (DynamicDescriptorPool.needsNewPool count slot self) eqn:Hrot.
        -- rewrite to_uint32_small; lia.
        -- apply needsNewPool_false in Hrot as [_ Hlt].
           rewrite to_uint32_small; lia.
      * apply Forall_insert; [exact HmidRange | exact Hdiff].
    + intros _. rewrite Hfree'. split; [| split; [lia |]].
      * apply list_lookup_insert_eq. rewrite HmidLen. exact Hslot.
      * rewrite Hcount'. subst countBefore.
        destruct (DynamicDescriptorPool.needsNewPool count slot self) eqn:Hrot.
        -- reflexivity.
        -- apply needsNewPool_false in Hrot as [_ Hlt].
           rewrite to_uint32_small; lia.
  - split.
    + unfold Invariant.accounted. rewrite Hmax', Hsizes', Hfree', Hcount'.
      repeat split; auto.
      * destruct (DynamicDescriptorPool.needsNewPool count slot self); lia.
      * destruct (DynamicDescriptorPool.needsNewPool count slot self); lia.
    + rewrite Herr. discriminate.
Qed.

Lemma allocateSets_success (layout count : Z) (slot : nat)
  (self : DynamicDescriptorPool.t) (renderer : RendererVk.t) :
  (slot < length (DynamicDescriptorPool.mFreeDescriptorSets self))%nat ->
  Trace.neverFails (RendererVk.mDevice renderer) ->
  let res := allocateSets layout count slot (self, renderer) in
  fst res = Ok tt /\ Trace.neverFails (RendererVk.mDevice (snd (snd res))).
Proof.
  intros Hslot Hok. cbv zeta.
  unfold DynamicDescriptorPool.allocateSets.
  unfold DynamicDescriptorPool.this, bind. cbn [fst snd].
  rewrite !bool_decide_eq_true_2 by exact Hslot. cbn [negb].
  destruct (DynamicDescriptorPool.needsNewPool count slot self);
    unfold DynamicDescriptorPool.releaseCurrentPool, DynamicDescriptorPool.onDevice,
      DynamicDescriptorPool.allocateNewPool, DynamicDescriptorPool.this,
      DynamicDescriptorPool.assign, DynamicDescriptorPool.mCurrentDescriptorPool_init,
      DynamicDescriptorPool.mCurrentDescriptorPool_allocateDescriptorSets,
      Device.ANGLE_VK_TRY, Device.call, Device.create, zoom, bind, modify, ret;
    cbn [fst snd RendererVk.mDevice RendererVk.releaseObject RendererVk.withDevice];
    repeat (match goal with
            | |- context [match Device.nextResult ?d with _ => _ end] =>
                rewrite (neverFails_nextResult d) by auto 10 with device
            end;
            cbn [fst snd RendererVk.mDevice RendererVk.releaseObject RendererVk.withDevice]);
    (split; [reflexivity | auto 10 with device]).
Qed.

Lemma allocateSetsAll_accounted (M : Z) (P : list Vk.VkDescriptorPoolSize) (L : nat)
  (layout : Z) (requests : list (nat * Z)) :
  1 <= M < 2 ^ 32 ->
  Forall (fun request =>
            (fst request < L)%nat /\ 0 <= snd request <= capacity (fst request) P) requests ->
  forall state,
    Invariant.accounted M P L (fst state) ->
    let outs := allocateSetsAll layout requests state in
    let states := state :: map snd outs in
    length outs = length requests
    /\ Forall (fun o => Invariant.accounted M P L (fst (snd o))) outs
    /\ (forall i slot count pre post,
          requests !! i = Some (slot, count) ->
          states !! i = Some pre ->
          outs !! i = Some (Ok tt, post) ->
          let before :=
            if DynamicDescriptorPool.needsNewPool count slot (fst pre)
            then capacity slot P
            else default 0 (DynamicDescriptorPool.mFreeDescriptorSets (fst pre) !! slot) in
          let countBefore :=
            if DynamicDescriptorPool.needsNewPool count slot (fst pre)
            then 0 else DynamicDescriptorPool.mCurrentSetsCount (fst pre) in
          DynamicDescriptorPool.mFreeDescriptorSets (fst post) !! slot = Some (before - count)
          /\ 0 <= before - count
          /\ DynamicDescriptorPool.mCurrentSetsCount (fst post) = countBefore + 1)
    /\ (Trace.neverFails (RendererVk.mDevice (snd state)) ->
        Forall (fun o => fst o = Ok tt) outs).
Proof.
  intros HM Hreq. induction Hreq as [| [slot count] rest [Hslot Hcount] Hrest IH];
    intros state Hinv; cbn [fst snd] in *.
  - cbn. split; [reflexivity |]. split; [constructor |].
    split; [| intros _; constructor].
    intros i slot count pre post Hi. discriminate.
  - destruct state as [self renderer]. cbn [fst snd] in Hinv.
    destruct (allocateSets_step M P L layout count slot self renderer HM Hinv Hslot Hcount)
      as (Hinv1 & Hexact).
    assert (Hsucc : Trace.neverFails (RendererVk.mDevice renderer) ->
                    fst (allocateSets layout count slot (self, renderer)) = Ok tt
                    /\ Trace.neverFails
                         (RendererVk.mDevice
                            (snd (snd (allocateSets layout count slot (self, renderer)))))).
    { intros Hok. apply allocateSets_success; [| exact Hok].
      destruct Hinv as (_ & _ & Hlen0 & _). rewrite Hlen0. exact Hslot. }
    cbn [DynamicDescriptorPool.allocateSetsAll].
    set (res := allocateSets layout count slot (self, renderer)) in *. clearbody res.
    destruct (IH (snd res) Hinv1) as (Hlen & Hall & Hsteps & Htotal).
    cbv zeta. cbn [map]. split; [cbn [length]; f_equal; exact Hlen |].
    split; [constructor; assumption |]. split.
    + intros [| i] slot0 count0 pre post Hr Hpre Hpost; cbn in Hr, Hpre, Hpost.
      * injection Hr as <- <-. injection Hpre as <-. injection Hpost as Hpost.
        rewrite Hpost in Hexact. cbn [fst snd] in Hexact |- *. apply Hexact. reflexivity.
      * apply (Hsteps i slot0 count0 pre post Hr Hpre Hpost).
    + intros Hok. cbn [fst snd] in Hok.
      destruct (Hsucc Hok) as (Hres & Hok1).
      constructor; [exact Hres | apply Htotal; exact Hok1].
Qed.

(** C3 (as the code has it). One call of [allocateSets] hands the current
    pool to the deferred-release queue and goes through [allocateNewPool]
    exactly when [freePerIndex[slot] < count] or the set count has reached
    [maxSetsPerPool]. [allocateNewPool] zeros [currentSetsCount] and sets
    every slot of [freePerIndex] to the sum of the [descriptorCount] of the
    entries of [poolSizes] that map to it, as a 32-bit counter holds it. Along
    any run of [allocateSets] calls in which every count is at most what a
    fresh pool holds for its slot, and with a ceiling of at least one set,
    [currentSetsCount] never exceeds [maxSetsPerPool] and every decrement is
    exact (it never goes below zero); every call that succeeds leaves
    [currentSetsCount] one above what it was, or at one when the call
    rotated, so a pool serves at most [maxSetsPerPool] calls; with a driver
    that never fails every call returns. *)
Theorem allocateSets_accounting (layout : Z) (self : DynamicDescriptorPool.t)
  (renderer : RendererVk.t) (requests : list (nat * Z)) :
  let M := DynamicDescriptorPool.mMaxSetsPerPool self in
  let P := DynamicDescriptorPool.mPoolSizes self in
  let L := length (DynamicDescriptorPool.mFreeDescriptorSets self) in
  1 <= M < 2 ^ 32 ->
  0 <= DynamicDescriptorPool.mCurrentSetsCount self <= M ->
  Forall (fun f => 0 <= f < 2 ^ 32) (DynamicDescriptorPool.mFreeDescriptorSets self) ->
  Forall (fun request =>
            (fst request < L)%nat /\ 0 <= snd request <= capacity (fst request) P) requests ->
  (forall count slot pool r,
      (slot < length (DynamicDescriptorPool.mFreeDescriptorSets pool))%nat ->
      let res := allocateSets layout count slot (pool, r) in
      let rotates := DynamicDescriptorPool.needsNewPool count slot pool in
      (rotates = true <->
       default 0 (DynamicDescriptorPool.mFreeDescriptorSets pool !! slot) < count
       \/ DynamicDescriptorPool.mMaxSetsPerPool pool
          <= DynamicDescriptorPool.mCurrentSetsCount pool)
      /\ RendererVk.mGarbage (snd (snd res))
         = RendererVk.mGarbage r
           ++ (if rotates
               then [(RendererVk.mCurrentQueueSerial r,
                      {| RendererVk.kind := RendererVk.DescriptorPoolObject;
                         RendererVk.handle :=
                           DynamicDescriptorPool.mCurrentDescriptorPool pool |})]
               else [])
      /\ (fst res = Ok tt ->
          DynamicDescriptorPool.mCurrentDescriptorPool (fst (snd res))
          = (if rotates then Device.nextHandle (RendererVk.mDevice r)
             else DynamicDescriptorPool.mCurrentDescriptorPool pool)
          /\ DynamicDescriptorPool.mCurrentSetsCount (fst (snd res))
             = Machine.to_uint32
                 ((if rotates then 0 else DynamicDescriptorPool.mCurrentSetsCount pool) + 1)))
  /\ (forall pool d,
        let res := allocateNewPool (pool, d) in
        DynamicDescriptorPool.mCurrentSetsCount (fst (snd res)) = 0
        /\ forall slot,
             (slot < length (DynamicDescriptorPool.mFreeDescriptorSets pool))%nat ->
             DynamicDescriptorPool.mFreeDescriptorSets (fst (snd res)) !! slot
             = Some (Machine.to_uint32
                       (bucketSum slot (DynamicDescriptorPool.mPoolSizes pool))))
  /\ (let outs := allocateSetsAll layout requests (self, renderer) in
      let states := (self, renderer) :: map snd outs in
      length outs = length requests
      /\ Forall (fun o => 0 <= DynamicDescriptorPool.mCurrentSetsCount (fst (snd o)) <= M) outs
      /\ (forall i slot count pre post,
            requests !! i = Some (slot, count) ->
            states !! i = Some pre ->
            outs !! i = Some (Ok tt, post) ->
            let before :=
              if DynamicDescriptorPool.needsNewPool count slot (fst pre)
              then capacity slot P
              else default 0 (DynamicDescriptorPool.mFreeDescriptorSets (fst pre) !! slot) in
            let countBefore :=
              if DynamicDescriptorPool.needsNewPool count slot (fst pre)
              then 0 else DynamicDescriptorPool.mCurrentSetsCount (fst pre) in
            DynamicDescriptorPool.mFreeDescriptorSets (fst post) !! slot
            = Some (before - count)
            /\ 0 <= before - count
            /\ DynamicDescriptorPool.mCurrentSetsCount (fst post) = countBefore + 1)
      /\ (Trace.neverFails (RendererVk.mDevice renderer) ->
          Forall (fun o => fst o = Ok tt) outs)).
Proof.
  intros M P L HM Hcur Hfree Hreq. split; [| split].
  - intros count slot pool r Hslot res rotates.
    destruct (allocateSets_cases layout count slot pool r Hslot)
      as (Hg & _ & _ & _ & Hcases).
    fold res rotates in Hg, Hcases. split; [| split].
    + subst rotates. unfold DynamicDescriptorPool.needsNewPool.
      rewrite orb_true_iff, Z.ltb_lt, Z.leb_le. reflexivity.
    + exact Hg.
    + intros Hok. destruct Hcases as [(_ & _ & Hcount & Hpool) | ((e & Herr) & _)].
      * split; [exact Hpool | exact Hcount].
      * rewrite Herr in Hok. discriminate.
  - intros pool d res.
    destruct (allocateNewPool_resets pool d) as (Hcount & _ & _ & Hf & _).
    fold res in Hcount, Hf. split; [exact Hcount |].
    intros slot Hslot. rewrite Hf. apply fresh_pool_lookup. exact Hslot.
  - assert (Hinv : Invariant.accounted M P L self) by (unfold Invariant.accounted; auto).
    destruct (allocateSetsAll_accounted M P L layout requests HM Hreq (self, renderer) Hinv)
      as (Hlen & Hall & Hsteps & Htotal).
    cbv zeta. split; [exact Hlen |]. split; [| split; [exact Hsteps | exact Htotal]].
    eapply Forall_impl; [exact Hall |].
    intros o (_ & _ & _ & Hc & _). exact Hc.
Qed.

End DescriptorPoolFacts.

(** C3, witness: scenarios S3 and S4. Three requests of one uniform set
    with at most two sets per pool, then two requests of five: every
    decrement is exact, and the third call, which finds the set count at the
    ceiling of two, rotates and leaves it at one. *)
Lemma allocateSets_accounting_witness :
  let requests := [(0%nat, 1); (0%nat, 1); (0%nat, 1); (0%nat, 5); (0%nat, 5)] in
  let self := fst Scenario.descriptorPool in
  let outs := DynamicDescriptorPool.allocateSetsAll 0%nat 1%nat 77 requests
                Scenario.descriptorPool in
  let states := Scenario.descriptorPool :: map snd outs in
  (1 <= DynamicDescriptorPool.mMaxSetsPerPool self < 2 ^ 32
   /\ 0 <= DynamicDescriptorPool.mCurrentSetsCount self
        <= DynamicDescriptorPool.mMaxSetsPerPool self
   /\ Forall (fun f => 0 <= f < 2 ^ 32) (DynamicDescriptorPool.mFreeDescriptorSets self)
   /\ Forall (fun request =>
                (fst request < length (DynamicDescriptorPool.mFreeDescriptorSets self))%nat
                /\ 0 <= snd request
                   <= Capacity.ofSlot 0%nat 1%nat (fst request)
                        (DynamicDescriptorPool.mPoolSizes self)) requests)
  /\ Forall (fun o => 0 <= DynamicDescriptorPool.mCurrentSetsCount (fst (snd o))
                      <= DynamicDescriptorPool.mMaxSetsPerPool self) outs
  /\ Forall (fun o => fst o = Ok tt) outs
  /\ exists pre post,
       states !! 2%nat = Some pre
       /\ outs !! 2%nat = Some (Ok tt, post)
       /\ DynamicDescriptorPool.mCurrentSetsCount (fst pre) = 2
       /\ DynamicDescriptorPool.needsNewPool 1 0%nat (fst pre) = true
       /\ DynamicDescriptorPool.mCurrentSetsCount (fst post) = 1.
Proof.
  cbv zeta.
  assert (H1 : 1 <= DynamicDescriptorPool.mMaxSetsPerPool (fst Scenario.descriptorPool)
               < 2 ^ 32) by (vm_compute; split; discriminate || reflexivity).
  assert (H2 : 0 <= DynamicDescriptorPool.mCurrentSetsCount (fst Scenario.descriptorPool)
               <= DynamicDescriptorPool.mMaxSetsPerPool (fst Scenario.descriptorPool))
    by (vm_compute; split; discriminate).
  assert (H3 : Forall (fun f => 0 <= f < 2 ^ 32)
                 (DynamicDescriptorPool.mFreeDescriptorSets (fst Scenario.descriptorPool))).
  { replace (DynamicDescriptorPool.mFreeDescriptorSets (fst Scenario.descriptorPool))
      with [8; 8; 0] by (vm_compute; reflexivity).
    repeat (constructor; [lia |]). constructor. }
  assert (H4 : Forall
                 (fun request =>
                    (fst request
                     < length (DynamicDescriptorPool.mFreeDescriptorSets
                                 (fst Scenario.descriptorPool)))%nat
                    /\ 0 <= snd request
                       <= Capacity.ofSlot 0%nat 1%nat (fst request)
                            (DynamicDescriptorPool.mPoolSizes (fst Scenario.descriptorPool)))
                 [(0%nat, 1); (0%nat, 1); (0%nat, 1); (0%nat, 5); (0%nat, 5)])
    by (repeat constructor; vm_compute; lia || discriminate).
  split; [auto |].
  destruct (allocateSets_accounting 0%nat 1%nat 77 (fst Scenario.descriptorPool)
              (snd Scenario.descriptorPool)
              [(0%nat, 1); (0%nat, 1); (0%nat, 1); (0%nat, 5); (0%nat, 5)] H1 H2 H3 H4)
    as (_ & _ & _ & Hcount & Hsteps & Htotal).
  split; [exact Hcount |]. split; [apply Htotal; constructor |].
  assert (Hthird :
            exists pre post,
              (Scenario.descriptorPool
               :: map snd
                    (DynamicDescriptorPool.allocateSetsAll 0%nat 1%nat 77
                       [(0%nat, 1); (0%nat, 1); (0%nat, 1); (0%nat, 5); (0%nat, 5)]
                       Scenario.descriptorPool)) !! 2%nat = Some pre
              /\ DynamicDescriptorPool.allocateSetsAll 0%nat 1%nat 77
                   [(0%nat, 1); (0%nat, 1); (0%nat, 1); (0%nat, 5); (0%nat, 5)]
                   Scenario.descriptorPool !! 2%nat = Some (Ok tt, post)
              /\ DynamicDescriptorPool.mCurrentSetsCount (fst pre) = 2
              /\ DynamicDescriptorPool.needsNewPool 1 0%nat (fst pre) = true).
  { eexists _, _. repeat split; vm_compute; reflexivity. }
  destruct Hthird as (pre & post & Hpre & Hpost & Hbefore & Hrotates).
  exists pre, post. split; [exact Hpre |]. split; [exact Hpost |].
  split; [exact Hbefore |]. split; [exact Hrotates |].
  destruct (Hsteps 2%nat 0%nat 1 pre post eq_refl) as (_ & _ & Hafter).
  - exact Hpre.
  - exact Hpost.
  - rewrite Hafter, Hrotates. reflexivity.
Defined.

(** C3, counterexample: a fresh pool holds eight uniform descriptors and
    nine are asked for. The call rotates (the pool goes to the queue), the
    new pool holds eight again, and the decrement of nine wraps the 32-bit
    counter around to 4294967295: [8 - 9] went below zero. *)
Lemma allocateSets_underflow :
  let res := DynamicDescriptorPool.allocateSets 0%nat 1%nat 77 9 0%nat
               Scenario.descriptorPool in
  DynamicDescriptorPool.mFreeDescriptorSets (fst Scenario.descriptorPool) = [8; 8; 0]
  /\ Capacity.ofSlot 0%nat 1%nat 0%nat Scenario.poolSizes = 8
  /\ fst res = Ok tt
  /\ RendererVk.mGarbage (snd (snd res))
     = [(7, {| RendererVk.kind := RendererVk.DescriptorPoolObject; RendererVk.handle := 1 |})]
  /\ DynamicDescriptorPool.mFreeDescriptorSets (fst (snd res)) = [4294967295; 8; 0]
  /\ 8 - 9 < 0.
Proof.
  cbv zeta. repeat split; vm_compute; reflexivity.
Qed.

(** ** ImageHelper *)

(** C2. [changeLayoutWithStages] with new layout [L] leaves [currentLayout]
    equal to [L] and records exactly one image-memory barrier. Its source
    mask is the table value of the old layout, OR-ed with host-write when the
    old layout is preinitialized and with host-write and transfer-write when
    [L] is shader-read-only-optimal; its destination mask is the table value
    of [L], OR-ed with shader-read when [L] is shader-read-only-optimal and
    with depth-stencil-attachment-write when [L] is
    depth-stencil-attachment-optimal. The table is that of
    [GetBasicLayoutAccessFlags]; from preinitialized to
    shader-read-only-optimal the masks are host-write with transfer-write,
    and shader-read. *)
Theorem changeLayoutWithStages_barrier (aspectMask : Z) (L : Vk.VkImageLayout)
  (srcStageMask dstStageMask : Z) (self : ImageHelper.t) (commandBuffer : CommandBuffer.t) :
  let old := ImageHelper.mCurrentLayout self in
  let res :=
    ImageHelper.changeLayoutWithStages aspectMask L srcStageMask dstStageMask
      (self, commandBuffer) in
  ImageHelper.mCurrentLayout (fst res) = L
  /\ (exists barrier,
        snd res
        = commandBuffer
          ++ [CommandBuffer.singleImageBarrier srcStageMask dstStageMask 0 barrier]
        /\ Vk.oldLayout barrier = old
        /\ Vk.newLayout barrier = L
        /\ Vk.srcAccessMask barrier
           = Z.lor
               (Z.lor (ImageHelper.GetBasicLayoutAccessFlags old)
                  (if decide (old = Vk.VK_IMAGE_LAYOUT_PREINITIALIZED)
                   then Vk.VK_ACCESS_HOST_WRITE_BIT else 0))
               (if decide (L = Vk.VK_IMAGE_LAYOUT_SHADER_READ_ONLY_OPTIMAL)
                then Z.lor Vk.VK_ACCESS_HOST_WRITE_BIT Vk.VK_ACCESS_TRANSFER_WRITE_BIT
                else 0)
        /\ Vk.dstAccessMask barrier
           = Z.lor
               (Z.lor (ImageHelper.GetBasicLayoutAccessFlags L)
                  (if decide (L = Vk.VK_IMAGE_LAYOUT_SHADER_READ_ONLY_OPTIMAL)
                   then Vk.VK_ACCESS_SHADER_READ_BIT else 0))
               (if decide (L = Vk.VK_IMAGE_LAYOUT_DEPTH_STENCIL_ATTACHMENT_OPTIMAL)
                then Vk.VK_ACCESS_DEPTH_STENCIL_ATTACHMENT_WRITE_BIT else 0)
        /\ (old = Vk.VK_IMAGE_LAYOUT_PREINITIALIZED ->
            L = Vk.VK_IMAGE_LAYOUT_SHADER_READ_ONLY_OPTIMAL ->
            Vk.srcAccessMask barrier
            = Z.lor Vk.VK_ACCESS_HOST_WRITE_BIT Vk.VK_ACCESS_TRANSFER_WRITE_BIT
            /\ Vk.dstAccessMask barrier = Vk.VK_ACCESS_SHADER_READ_BIT))
  /\ ImageHelper.GetBasicLayoutAccessFlags Vk.VK_IMAGE_LAYOUT_COLOR_ATTACHMENT_OPTIMAL
     = Vk.VK_ACCESS_COLOR_ATTACHMENT_WRITE_BIT
  /\ ImageHelper.GetBasicLayoutAccessFlags Vk.VK_IMAGE_LAYOUT_DEPTH_STENCIL_ATTACHMENT_OPTIMAL
     = Vk.VK_ACCESS_DEPTH_STENCIL_ATTACHMENT_WRITE_BIT
  /\ ImageHelper.GetBasicLayoutAccessFlags Vk.VK_IMAGE_LAYOUT_TRANSFER_DST_OPTIMAL
     = Vk.VK_ACCESS_TRANSFER_WRITE_BIT
  /\ ImageHelper.GetBasicLayoutAccessFlags Vk.VK_IMAGE_LAYOUT_TRANSFER_SRC_OPTIMAL
     = Vk.VK_ACCESS_TRANSFER_READ_BIT
  /\ ImageHelper.GetBasicLayoutAccessFlags Vk.VK_IMAGE_LAYOUT_PRESENT_SRC_KHR
     = Vk.VK_ACCESS_MEMORY_READ_BIT
  /\ ImageHelper.GetBasicLayoutAccessFlags Vk.VK_IMAGE_LAYOUT_UNDEFINED = 0
  /\ ImageHelper.GetBasicLayoutAccessFlags Vk.VK_IMAGE_LAYOUT_GENERAL = 0
  /\ ImageHelper.GetBasicLayoutAccessFlags Vk.VK_IMAGE_LAYOUT_PREINITIALIZED = 0.
Proof.
  intros old res. subst old res.
  unfold ImageHelper.changeLayoutWithStages. cbn [fst snd].
  split; [reflexivity |].
  split; [| repeat split; reflexivity].
  eexists. split; [reflexivity |].
  cbn [Vk.oldLayout Vk.newLayout Vk.srcAccessMask Vk.dstAccessMask].
  split; [reflexivity |]. split; [reflexivity |].
  destruct (ImageHelper.mCurrentLayout self), L;
    (split; [reflexivity |]); (split; [reflexivity |]);
    intros Hold Hnew; try discriminate; split; reflexivity.
Qed.

Lemma changeLayoutWithStages_appends (aspectMask : Z) (L : Vk.VkImageLayout)
  (srcStageMask dstStageMask : Z) (self : ImageHelper.t) (commandBuffer : CommandBuffer.t) :
  ImageHelper.changeLayoutWithStages aspectMask L srcStageMask dstStageMask
    (self, commandBuffer)
  = (ImageHelper.set_mCurrentLayout L self,
     commandBuffer
     ++ snd (ImageHelper.changeLayoutWithStages aspectMask L srcStageMask dstStageMask
               (self, []))).
Proof. reflexivity. Qed.

Lemma set_mCurrentLayout_same (self : ImageHelper.t) :
  ImageHelper.set_mCurrentLayout (ImageHelper.mCurrentLayout self) self = self.
Proof. destruct self. reflexivity. Qed.

Lemma Copy_needs_transition (target : Vk.VkImageLayout) (self : ImageHelper.t) :
  target <> Vk.VK_IMAGE_LAYOUT_GENERAL ->
  let final :=
    if decide (ImageHelper.mCurrentLayout self = Vk.VK_IMAGE_LAYOUT_GENERAL)
    then Vk.VK_IMAGE_LAYOUT_GENERAL else target in
  (negb (bool_decide (ImageHelper.getCurrentLayout self = target))
   && negb (bool_decide (ImageHelper.getCurrentLayout self = Vk.VK_IMAGE_LAYOUT_GENERAL))
   = false
   /\ ImageHelper.mCurrentLayout self = final)
  \/ (negb (bool_decide (ImageHelper.getCurrentLayout self = target))
      && negb (bool_decide (ImageHelper.getCurrentLayout self = Vk.VK_IMAGE_LAYOUT_GENERAL))
      = true
      /\ ImageHelper.mCurrentLayout self <> final
      /\ final = target).
Proof.
  intros Htarget. cbv zeta. unfold ImageHelper.getCurrentLayout.
  destruct (decide (ImageHelper.mCurrentLayout self = Vk.VK_IMAGE_LAYOUT_GENERAL)) as [Hg | Hg].
  - left. rewrite (bool_decide_eq_true_2 _ Hg). rewrite andb_false_r. auto.
  - destruct (decide (ImageHelper.mCurrentLayout self = target)) as [Ht | Ht].
    + left. rewrite (bool_decide_eq_true_2 _ Ht). auto.
    + right. rewrite (bool_decide_eq_false_2 _ Ht), (bool_decide_eq_false_2 _ Hg). auto.
Qed.

(** C8. [Copy] on two different images leaves the source in
    transfer-src-optimal and the destination in transfer-dst-optimal, each
    unless it is in the general layout, which it keeps. For an image that is
    not yet in its layout exactly one image-memory barrier is recorded, the
    source first: from the layout the image is in to transfer-src-optimal
    (destination access transfer-read) or to transfer-dst-optimal
    (destination access transfer-write), on the image itself, colour aspect,
    all mip levels and the layers of the image, between the stages
    all-commands and transfer, the source access being the table value of the
    old layout, with host-write when that is preinitialized. Then exactly one
    image-copy command with one region is recorded, at mip level 0, base
    array layer 0 and layer count 1 on both sides. No other image changes. *)
Theorem Copy_transitions_then_one_region (srcImage dstImage : Z)
  (srcOffset dstOffset : Gl.Offset) (copySize : Gl.Extents) (aspectMask : Z)
  (images : gmap Z ImageHelper.t) (commandBuffer : CommandBuffer.t)
  (src dst : ImageHelper.t) :
  images !! srcImage = Some src ->
  images !! dstImage = Some dst ->
  srcImage <> dstImage ->
  let srcLayout :=
    if decide (ImageHelper.mCurrentLayout src = Vk.VK_IMAGE_LAYOUT_GENERAL)
    then Vk.VK_IMAGE_LAYOUT_GENERAL else Vk.VK_IMAGE_LAYOUT_TRANSFER_SRC_OPTIMAL in
  let dstLayout :=
    if decide (ImageHelper.mCurrentLayout dst = Vk.VK_IMAGE_LAYOUT_GENERAL)
    then Vk.VK_IMAGE_LAYOUT_GENERAL else Vk.VK_IMAGE_LAYOUT_TRANSFER_DST_OPTIMAL in
  let srcBarrier :=
    {| Vk.srcAccessMask :=
         if decide (ImageHelper.mCurrentLayout src = Vk.VK_IMAGE_LAYOUT_PREINITIALIZED)
         then Z.lor (ImageHelper.GetBasicLayoutAccessFlags (ImageHelper.mCurrentLayout src))
                Vk.VK_ACCESS_HOST_WRITE_BIT
         else ImageHelper.GetBasicLayoutAccessFlags (ImageHelper.mCurrentLayout src);
       Vk.dstAccessMask := Vk.VK_ACCESS_TRANSFER_READ_BIT;
       Vk.oldLayout := ImageHelper.mCurrentLayout src;
       Vk.newLayout := Vk.VK_IMAGE_LAYOUT_TRANSFER_SRC_OPTIMAL;
       Vk.srcQueueFamilyIndex := Vk.VK_QUEUE_FAMILY_IGNORED;
       Vk.dstQueueFamilyIndex := Vk.VK_QUEUE_FAMILY_IGNORED;
       Vk.image := ImageHelper.mImage src;
       Vk.subresourceRange :=
         {| Vk.isr_aspectMask := Vk.VK_IMAGE_ASPECT_COLOR_BIT;
            Vk.isr_baseMipLevel := 0;
            Vk.isr_levelCount := Vk.VK_REMAINING_MIP_LEVELS;
            Vk.isr_baseArrayLayer := 0;
            Vk.isr_layerCount := ImageHelper.mLayerCount src |} |} in
  let dstBarrier :=
    {| Vk.srcAccessMask :=
         if decide (ImageHelper.mCurrentLayout dst = Vk.VK_IMAGE_LAYOUT_PREINITIALIZED)
         then Z.lor (ImageHelper.GetBasicLayoutAccessFlags (ImageHelper.mCurrentLayout dst))
                Vk.VK_ACCESS_HOST_WRITE_BIT
         else ImageHelper.GetBasicLayoutAccessFlags (ImageHelper.mCurrentLayout dst);
       Vk.dstAccessMask := Vk.VK_ACCESS_TRANSFER_WRITE_BIT;
       Vk.oldLayout := ImageHelper.mCurrentLayout dst;
       Vk.newLayout := Vk.VK_IMAGE_LAYOUT_TRANSFER_DST_OPTIMAL;
       Vk.srcQueueFamilyIndex := Vk.VK_QUEUE_FAMILY_IGNORED;
       Vk.dstQueueFamilyIndex := Vk.VK_QUEUE_FAMILY_IGNORED;
       Vk.image := ImageHelper.mImage dst;
       Vk.subresourceRange :=
         {| Vk.isr_aspectMask := Vk.VK_IMAGE_ASPECT_COLOR_BIT;
            Vk.isr_baseMipLevel := 0;
            Vk.isr_levelCount := Vk.VK_REMAINING_MIP_LEVELS;
            Vk.isr_baseArrayLayer := 0;
            Vk.isr_layerCount := ImageHelper.mLayerCount dst |} |} in
  let srcTransition :=
    if decide (ImageHelper.mCurrentLayout src = srcLayout) then []
    else [CommandBuffer.singleImageBarrier Vk.VK_PIPELINE_STAGE_ALL_COMMANDS_BIT
            Vk.VK_PIPELINE_STAGE_TRANSFER_BIT 0 srcBarrier] in
  let dstTransition :=
    if decide (ImageHelper.mCurrentLayout dst = dstLayout) then []
    else [CommandBuffer.singleImageBarrier Vk.VK_PIPELINE_STAGE_ALL_COMMANDS_BIT
            Vk.VK_PIPELINE_STAGE_TRANSFER_BIT 0 dstBarrier] in
  let subresource :=
    {| Vk.isl_aspectMask := aspectMask; Vk.isl_mipLevel := 0;
       Vk.isl_baseArrayLayer := 0; Vk.isl_layerCount := 1 |} in
  exists images' region,
    ImageHelper.Copy srcImage dstImage srcOffset dstOffset copySize aspectMask
      (images, commandBuffer)
    = (Ok tt,
       (images',
        commandBuffer ++ srcTransition ++ dstTransition
        ++ [CommandBuffer.copyImage (ImageHelper.mImage src) srcLayout
              (ImageHelper.mImage dst) dstLayout 1 [region]]))
    /\ Vk.srcSubresource region = subresource
    /\ Vk.dstSubresource region = subresource
    /\ images' !! srcImage = Some (ImageHelper.set_mCurrentLayout srcLayout src)
    /\ images' !! dstImage = Some (ImageHelper.set_mCurrentLayout dstLayout dst)
    /\ (forall p, p <> srcImage -> p <> dstImage -> images' !! p = images !! p).
Proof.
  intros Hsrc Hdst Hne srcLayout dstLayout srcBarrier dstBarrier srcTransition dstTransition
    subresource.
  pose proof (Copy_needs_transition Vk.VK_IMAGE_LAYOUT_TRANSFER_SRC_OPTIMAL src
                ltac:(discriminate)) as Hs.
  pose proof (Copy_needs_transition Vk.VK_IMAGE_LAYOUT_TRANSFER_DST_OPTIMAL dst
                ltac:(discriminate)) as Hd.
  cbv zeta in Hs, Hd. fold srcLayout in Hs. fold dstLayout in Hd.
  unfold ImageHelper.Copy, ImageHelper.deref, ImageHelper.through, bind, ret, modify.
  cbn [fst snd]. rewrite Hsrc.
  destruct Hs as [(Hsb & Hsl) | (Hsb & Hsl & Hst)];
    destruct Hd as [(Hdb & Hdl) | (Hdb & Hdl & Hdt)];
    rewrite Hsb;
    repeat (first [ rewrite Hsrc | rewrite Hdst | rewrite Hdb
                  | rewrite lookup_insert_eq
                  | rewrite lookup_insert_ne by congruence
                  | progress cbn [fst snd] ]);
    unfold ImageHelper.getImage, ImageHelper.getCurrentLayout;
    subst srcTransition dstTransition srcBarrier dstBarrier;
    unfold ImageHelper.changeLayoutWithStages, CommandBuffer.record;
    cbn [fst snd app ImageHelper.mCurrentLayout ImageHelper.mImage
           ImageHelper.set_mCurrentLayout];
    rewrite <- ?app_assoc; cbn [app];
    eexists _, _.
  - (* neither image needs a transition *)
    rewrite (decide_True _ _ Hsl), (decide_True _ _ Hdl). cbn [app].
    rewrite <- Hsl, <- Hdl, !set_mCurrentLayout_same.
    repeat split; auto.
  - (* only the destination is moved *)
    rewrite (decide_True _ _ Hsl), (decide_False _ _ Hdl). cbn [app].
    rewrite <- Hsl, Hdt, set_mCurrentLayout_same.
    split; [reflexivity |]. split; [reflexivity |]. split; [reflexivity |].
    rewrite lookup_insert_ne by congruence. rewrite lookup_insert_eq.
    split; [exact Hsrc |]. split; [reflexivity |].
    intros p _ Hp. rewrite lookup_insert_ne by congruence. reflexivity.
  - (* only the source is moved *)
    rewrite (decide_False _ _ Hsl), (decide_True _ _ Hdl). cbn [app].
    rewrite <- Hdl, Hst, set_mCurrentLayout_same.
    split; [reflexivity |]. split; [reflexivity |]. split; [reflexivity |].
    rewrite lookup_insert_eq. rewrite lookup_insert_ne by congruence.
    split; [reflexivity |]. split; [exact Hdst |].
    intros p Hp _. rewrite lookup_insert_ne by congruence. reflexivity.
  - (* both are moved, the source first *)
    rewrite (decide_False _ _ Hsl), (decide_False _ _ Hdl).
    rewrite Hst, Hdt.
    split; [reflexivity |].
    split; [reflexivity |]. split; [reflexivity |].
    rewrite lookup_insert_ne by congruence. rewrite !lookup_insert_eq.
    split; [reflexivity |]. split; [reflexivity |].
    intros p Hp1 Hp2. rewrite !lookup_insert_ne by congruence. reflexivity.
Qed.

(** C8, witness: a copy from an image in the undefined layout to an image in
    the general layout. One barrier moves the source from undefined to
    transfer-src-optimal; the destination stays in the general layout and
    gets no barrier; the copy names those two layouts. *)
Lemma Copy_transitions_then_one_region_witness :
  (Scenario.images !! 100 = Some (Scenario.image 10 Vk.VK_IMAGE_LAYOUT_UNDEFINED)
   /\ Scenario.images !! 200 = Some (Scenario.image 20 Vk.VK_IMAGE_LAYOUT_GENERAL)
   /\ 100 <> 200)
  /\ exists (images' : gmap Z ImageHelper.t) (region : Vk.VkImageCopy),
       fst (ImageHelper.Copy 100 200 Scenario.origin Scenario.origin Scenario.extents
              Vk.VK_IMAGE_ASPECT_COLOR_BIT (Scenario.images, [])) = Ok tt
       /\ snd (snd (ImageHelper.Copy 100 200 Scenario.origin Scenario.origin Scenario.extents
                      Vk.VK_IMAGE_ASPECT_COLOR_BIT (Scenario.images, [])))
          = [CommandBuffer.singleImageBarrier Vk.VK_PIPELINE_STAGE_ALL_COMMANDS_BIT
               Vk.VK_PIPELINE_STAGE_TRANSFER_BIT 0
               {| Vk.srcAccessMask := 0;
                  Vk.dstAccessMask := Vk.VK_ACCESS_TRANSFER_READ_BIT;
                  Vk.oldLayout := Vk.VK_IMAGE_LAYOUT_UNDEFINED;
                  Vk.newLayout := Vk.VK_IMAGE_LAYOUT_TRANSFER_SRC_OPTIMAL;
                  Vk.srcQueueFamilyIndex := Vk.VK_QUEUE_FAMILY_IGNORED;
                  Vk.dstQueueFamilyIndex := Vk.VK_QUEUE_FAMILY_IGNORED;
                  Vk.image := 10;
                  Vk.subresourceRange :=
                    {| Vk.isr_aspectMask := Vk.VK_IMAGE_ASPECT_COLOR_BIT;
                       Vk.isr_baseMipLevel := 0;
                       Vk.isr_levelCount := Vk.VK_REMAINING_MIP_LEVELS;
                       Vk.isr_baseArrayLayer := 0;
                       Vk.isr_layerCount := 1 |} |};
             CommandBuffer.copyImage 10 Vk.VK_IMAGE_LAYOUT_TRANSFER_SRC_OPTIMAL
               20 Vk.VK_IMAGE_LAYOUT_GENERAL 1 [region]]
       /\ Vk.isl_mipLevel (Vk.srcSubresource region) = 0
       /\ images' !! 100 = Some (Scenario.image 10 Vk.VK_IMAGE_LAYOUT_TRANSFER_SRC_OPTIMAL)
       /\ images' !! 200 = Some (Scenario.image 20 Vk.VK_IMAGE_LAYOUT_GENERAL).
Proof.
  assert (H1 : Scenario.images !! 100
               = Some (Scenario.image 10 Vk.VK_IMAGE_LAYOUT_UNDEFINED))
    by (vm_compute; reflexivity).
  assert (H2 : Scenario.images !! 200 = Some (Scenario.image 20 Vk.VK_IMAGE_LAYOUT_GENERAL))
    by (vm_compute; reflexivity).
  assert (H3 : 100 <> 200) by discriminate.
  split; [auto |].
  destruct (Copy_transitions_then_one_region 100 200 Scenario.origin Scenario.origin
              Scenario.extents Vk.VK_IMAGE_ASPECT_COLOR_BIT Scenario.images []
              (Scenario.image 10 Vk.VK_IMAGE_LAYOUT_UNDEFINED)
              (Scenario.image 20 Vk.VK_IMAGE_LAYOUT_GENERAL) H1 H2 H3)
    as (images' & region & Hrun & Hsub & _ & Hsrc & Hdst & _).
  exists images', region.
  split; [exact (f_equal fst Hrun) |].
  split; [etransitivity; [exact (f_equal (fun r => snd (snd r)) Hrun) | reflexivity] |].
  split; [rewrite Hsub; reflexivity |].
  split; [exact Hsrc | exact Hdst].
Defined.

(** ** The retained buffers across [allocate] *)

Lemma queueKept_refl s : Invariant.queueKept s s.
Proof. unfold Invariant.queueKept. auto. Qed.

Lemma queueKept_trans s1 s2 s3 :
  Invariant.queueKept s1 s2 -> Invariant.queueKept s2 s3 -> Invariant.queueKept s1 s3.
Proof.
  unfold Invariant.queueKept. intros (Hg & Hs & Hr) (Hg' & Hs' & Hr').
  rewrite Hg', Hs', Hr'. auto.
Qed.

Lemma backingKept_refl s : Invariant.backingKept s s.
Proof. unfold Invariant.backingKept. auto using queueKept_refl. Qed.

Lemma backingKept_trans s1 s2 s3 :
  Invariant.backingKept s1 s2 -> Invariant.backingKept s2 s3 -> Invariant.backingKept s1 s3.
Proof.
  unfold Invariant.backingKept. intros (Hq & Hb & Hm) (Hq' & Hb' & Hm').
  rewrite Hb', Hm'. eauto using queueKept_trans.
Qed.

Lemma onDevice_backingKept {A : Type} (m : Action (DynamicBuffer.t * Device.t) A) :
  (forall self d,
      DynamicBuffer.mRetainedBuffers (fst (snd (m (self, d))))
      = DynamicBuffer.mRetainedBuffers self
      /\ DynamicBuffer.mBuffer (fst (snd (m (self, d)))) = DynamicBuffer.mBuffer self
      /\ DynamicBuffer.mMemory (fst (snd (m (self, d)))) = DynamicBuffer.mMemory self) ->
  keeps Invariant.backingKept (DynamicBuffer.onDevice m).
Proof.
  intros Hm [self r]. rewrite onDevice_run.
  destruct (Hm self (RendererVk.mDevice r)) as (Hr & Hb & Hmem).
  unfold Invariant.backingKept, Invariant.queueKept. cbn. auto.
Qed.

Lemma onDevice_queueKept {A : Type} (m : Action (DynamicBuffer.t * Device.t) A) :
  (forall self d,
      DynamicBuffer.mRetainedBuffers (fst (snd (m (self, d))))
      = DynamicBuffer.mRetainedBuffers self) ->
  keeps Invariant.queueKept (DynamicBuffer.onDevice m).
Proof.
  intros Hm [self r]. rewrite onDevice_run.
  unfold Invariant.queueKept. cbn. auto.
Qed.

Lemma flush_fields (self : DynamicBuffer.t) (d : Device.t) :
  DynamicBuffer.mRetainedBuffers (fst (snd (DynamicBuffer.flush (self, d))))
  = DynamicBuffer.mRetainedBuffers self
  /\ DynamicBuffer.mBuffer (fst (snd (DynamicBuffer.flush (self, d)))) = DynamicBuffer.mBuffer self
  /\ DynamicBuffer.mMemory (fst (snd (DynamicBuffer.flush (self, d)))) = DynamicBuffer.mMemory self.
Proof.
  destruct (Z.lt_ge_cases (DynamicBuffer.mLastFlushOrInvalidateOffset self)
              (DynamicBuffer.mNextAllocationOffset self)) as [Hlt | Hge].
  - rewrite (flush_range _ _ Hlt). cbv zeta. destruct (Device.nextResult d); cbn; auto.
  - rewrite (flush_empty_range _ _ Hge). cbn. auto.
Qed.

(** Whatever a rotation comes to, it leaves the queue alone and the retained
    buffers as they were or with the superseded pair at their end. *)
Lemma rotate_retained (need : Z) (self : DynamicBuffer.t) (renderer : RendererVk.t) :
  let s' := snd (DynamicBuffer.rotate need (self, renderer)) in
  RendererVk.mGarbage (snd s') = RendererVk.mGarbage renderer
  /\ RendererVk.mCurrentQueueSerial (snd s') = RendererVk.mCurrentQueueSerial renderer
  /\ (DynamicBuffer.mRetainedBuffers (fst s') = DynamicBuffer.mRetainedBuffers self
      \/ DynamicBuffer.mRetainedBuffers (fst s')
         = DynamicBuffer.mRetainedBuffers self
           ++ [{| DynamicBuffer.buffer := DynamicBuffer.mBuffer self;
                  DynamicBuffer.memory := DynamicBuffer.mMemory self |}]).
Proof.
  cbv zeta. set (s' := snd (DynamicBuffer.rotate need (self, renderer))).
  assert (Heq : s' = snd (DynamicBuffer.rotate need (self, renderer))) by reflexivity.
  clearbody s'. unfold DynamicBuffer.rotate in Heq.
  unfold DynamicBuffer.this at 1 in Heq. unfold bind at 1 in Heq. cbn [fst snd] in Heq.
  match type of Heq with
  | context [bind ?pre ?k (self, renderer)] =>
      assert (Hpre : keeps Invariant.backingKept pre);
      [| set (PRE := pre) in *; set (K := k) in * ]
  end.
  { apply keeps_if; [| apply keeps_ret, backingKept_refl].
    repeat (apply keeps_bind; [apply backingKept_trans | | intros ?]).
    - apply onDevice_backingKept. intros self0 d. apply flush_fields.
    - apply onDevice_backingKept. intros self0 d. cbn. auto.
    - intros [self0 r0]. unfold Invariant.backingKept, Invariant.queueKept. cbn. auto. }
  specialize (Hpre (self, renderer)).
  unfold bind at 1 in Heq. destruct (PRE (self, renderer)) as [[[] | e |] [self1 r1]];
    cbn [fst snd] in Hpre, Heq;
    destruct Hpre as ((Hg & Hs & Hr) & Hb & Hm); cbn [fst snd] in Hg, Hs, Hr, Hb, Hm;
    try (subst s'; cbn [fst snd]; rewrite Hg, Hs, Hr; auto).
  subst K. cbv beta in Heq. unfold bind at 1 in Heq.
  unfold DynamicBuffer.assign at 1, modify at 1 in Heq. cbn [fst snd] in Heq.
  match type of Heq with
  | context [bind ?m ?k (?s1, r1)] =>
      assert (Hrest : keeps Invariant.queueKept (bind m k));
      [| specialize (Hrest (s1, r1)); rewrite <- Heq in Hrest;
         destruct Hrest as (Hg' & Hs' & Hr') ]
  end.
  { repeat (apply keeps_bind; [apply queueKept_trans | | intros ?]).
    - apply onDevice_queueKept. intros self0 d.
      unfold DynamicBuffer.mBuffer_init, Device.create. cbn [fst snd].
      destruct (Device.nextResult d); reflexivity.
    - intros [self0 r0]. unfold DynamicBuffer.AllocateBufferMemory. rewrite onDevice_run.
      cbn [fst snd]. unfold Device.create.
      destruct (Device.nextResult (RendererVk.mDevice r0));
        unfold Invariant.queueKept; cbn; auto.
    - intros s. apply queueKept_refl.
    - apply onDevice_queueKept. intros self0 d.
      unfold DynamicBuffer.mMemory_map, Device.call. cbn [fst snd].
      destruct (Device.nextResult d); reflexivity.
    - intros [self0 r0]. unfold Invariant.queueKept. cbn. auto.
    - intros [self0 r0]. unfold Invariant.queueKept. cbn. auto. }
  cbn [fst snd] in Hg', Hs', Hr'. rewrite Hg', Hs', Hr'. cbn. rewrite Hg, Hs, Hr, Hb, Hm. auto.
Qed.

(** Whatever [allocate] comes to, it leaves the queue alone and the retained
    buffers as they were or with the superseded pair at their end. *)
Lemma allocate_retained (sizeInBytes : Z) (handleRequested flagRequested : bool)
  (self : DynamicBuffer.t) (renderer : RendererVk.t) :
  let s' := snd (DynamicBuffer.allocate sizeInBytes handleRequested flagRequested
                   (self, renderer)) in
  RendererVk.mGarbage (snd s') = RendererVk.mGarbage renderer
  /\ RendererVk.mCurrentQueueSerial (snd s') = RendererVk.mCurrentQueueSerial renderer
  /\ (DynamicBuffer.mRetainedBuffers (fst s') = DynamicBuffer.mRetainedBuffers self
      \/ DynamicBuffer.mRetainedBuffers (fst s')
         = DynamicBuffer.mRetainedBuffers self
           ++ [{| DynamicBuffer.buffer := DynamicBuffer.mBuffer self;
                  DynamicBuffer.memory := DynamicBuffer.mMemory self |}]).
Proof.
  cbv zeta. destruct (Z.eq_dec (DynamicBuffer.mAlignment self) 0) as [Hzero | Hvalid].
  - unfold DynamicBuffer.allocate, DynamicBuffer.this, bind. cbn [fst snd].
    rewrite Hzero. cbn. auto.
  - destruct (DynamicBuffer.needsNewBuffer
                (Machine.roundUp sizeInBytes (DynamicBuffer.mAlignment self)) self) eqn:Hrot.
    + destruct (DynamicBuffer.allocate sizeInBytes handleRequested flagRequested
                  (self, renderer)) as [[out | e |] [self' renderer']] eqn:Hrun.
      * destruct (allocate_rotate_Ok _ _ _ _ _ _ _ _ Hvalid Hrot Hrun)
          as (_ & -> & Hg & Hs & _).
        cbn [fst snd]. rewrite Hg, Hs. cbn. auto.
      * pose proof (allocate_rotate_run sizeInBytes handleRequested flagRequested
                      self renderer Hvalid Hrot) as Hfail.
        pose proof (rotate_retained
                      (Machine.roundUp sizeInBytes (DynamicBuffer.mAlignment self))
                      self renderer) as Hkept.
        destruct (DynamicBuffer.rotate _ (self, renderer)) as [[[] | e' |] s1].
        -- destruct Hfail as (out & Hout). rewrite Hrun in Hout. discriminate.
        -- rewrite Hrun in Hfail. injection Hfail as _ <-. exact Hkept.
        -- rewrite Hrun in Hfail. discriminate.
      * pose proof (allocate_rotate_run sizeInBytes handleRequested flagRequested
                      self renderer Hvalid Hrot) as Hfail.
        pose proof (rotate_retained
                      (Machine.roundUp sizeInBytes (DynamicBuffer.mAlignment self))
                      self renderer) as Hkept.
        destruct (DynamicBuffer.rotate _ (self, renderer)) as [[[] | e' |] s1].
        -- destruct Hfail as (out & Hout). rewrite Hrun in Hout. discriminate.
        -- rewrite Hrun in Hfail. discriminate.
        -- rewrite Hrun in Hfail. injection Hfail as <-. exact Hkept.
    + rewrite (allocate_reuse _ _ _ _ _ Hvalid Hrot). cbn. auto.
Qed.

(** ** The retained buffers across the entry points of [LineLoopHelper] *)

Lemma onIndexBuffer_run {X A : Type} (m : Action (DynamicBuffer.t * X) A)
  (self : LineLoopHelper.t) (x : X) :
  LineLoopHelper.onIndexBuffer m (self, x)
  = (fst (m (LineLoopHelper.mDynamicIndexBuffer self, x)),
     (LineLoopHelper.set_mDynamicIndexBuffer
        (fst (snd (m (LineLoopHelper.mDynamicIndexBuffer self, x)))) self,
      snd (snd (m (LineLoopHelper.mDynamicIndexBuffer self, x))))).
Proof.
  unfold LineLoopHelper.onIndexBuffer, zoom. cbn [fst snd].
  destruct (m (LineLoopHelper.mDynamicIndexBuffer self, x)) as [r [self' x']]. reflexivity.
Qed.

Lemma lineLoop_onDevice_run {A : Type} (m : Action (LineLoopHelper.t * Device.t) A)
  (self : LineLoopHelper.t) (renderer : RendererVk.t) :
  LineLoopHelper.onDevice m (self, renderer)
  = (fst (m (self, RendererVk.mDevice renderer)),
     (fst (snd (m (self, RendererVk.mDevice renderer))),
      RendererVk.withDevice (snd (snd (m (self, RendererVk.mDevice renderer)))) renderer)).
Proof.
  unfold LineLoopHelper.onDevice, zoom. cbn [fst snd].
  destruct (m (self, RendererVk.mDevice renderer)) as [r [self' d']]. reflexivity.
Qed.

Lemma indexQueueKept_refl s : Invariant.indexQueueKept s s.
Proof. apply queueKept_refl. Qed.

Lemma indexQueueKept_trans s1 s2 s3 :
  Invariant.indexQueueKept s1 s2 -> Invariant.indexQueueKept s2 s3 ->
  Invariant.indexQueueKept s1 s3.
Proof. apply queueKept_trans. Qed.

Lemma store_indexQueueKept (w : Device.HostWrite) :
  keeps Invariant.indexQueueKept (LineLoopHelper.store w).
Proof.
  intros [self r]. unfold Invariant.indexQueueKept, Invariant.queueKept. cbn. auto.
Qed.

Lemma lineLoop_flush_indexQueueKept :
  keeps Invariant.indexQueueKept
    (LineLoopHelper.onDevice (LineLoopHelper.onIndexBuffer DynamicBuffer.flush)).
Proof.
  intros [self r]. rewrite lineLoop_onDevice_run, onIndexBuffer_run. cbn [fst snd].
  destruct (flush_fields (LineLoopHelper.mDynamicIndexBuffer self) (RendererVk.mDevice r))
    as (Hr & _).
  unfold Invariant.indexQueueKept, Invariant.queueKept. cbn. auto.
Qed.

#[local] Hint Resolve indexQueueKept_refl store_indexQueueKept
  lineLoop_flush_indexQueueKept : core.

(** What follows [allocate] in [getIndexBufferForDrawArrays]. *)
Lemma drawArrays_writes_indexQueueKept (lo hi : Z) (out : DynamicBuffer.AllocateOut)
  (result : LineLoopHelper.IndexBufferOut) :
  keeps Invariant.indexQueueKept
    (match DynamicBuffer.ptrOut out with
     | None => undefined
     | Some indices =>
         do indices1 <-
           forRange lo hi
             (fun vertexIndex p =>
                ANGLE_TRY LineLoopHelper.store (Device.WriteU32 p vertexIndex);
                ret (LineLoopHelper.advance p 4))
             indices;
         ANGLE_TRY LineLoopHelper.store (Device.WriteU32 indices1 lo);
         ANGLE_TRY LineLoopHelper.onDevice (LineLoopHelper.onIndexBuffer DynamicBuffer.flush);
         ret result
     end).
Proof.
  destruct (DynamicBuffer.ptrOut out) as [indices |]; [| apply keeps_undefined; auto].
  apply keeps_bind; [exact indexQueueKept_trans | |].
  - unfold forRange.
    apply (keeps_forEach Invariant.indexQueueKept);
      [exact indexQueueKept_refl | exact indexQueueKept_trans |].
    intros i p. apply keeps_bind; [exact indexQueueKept_trans | auto |].
    intros _. apply keeps_ret; auto.
  - intros indices1.
    repeat (apply keeps_bind; [exact indexQueueKept_trans | auto | intros _]).
    apply keeps_ret; auto.
Qed.

(** What follows [allocate] in [getIndexBufferForClientElementArray]. *)
Lemma clientElementArray_writes_indexQueueKept (drawCallParams : Gl.DrawCallParams)
  (unitSize : Z) (out : DynamicBuffer.AllocateOut) (result : LineLoopHelper.IndexBufferOut) :
  keeps Invariant.indexQueueKept
    (match DynamicBuffer.ptrOut out with
     | None => undefined
     | Some indices =>
         ANGLE_TRY (if decide (Gl.type drawCallParams = Gl.GL_UNSIGNED_BYTE)
                    then
                      let indicesDst := indices in
                      let srcPtr := Gl.indices drawCallParams in
                      ANGLE_TRY forRange 0 (Gl.indexCount drawCallParams)
                        (fun i _ =>
                           match srcPtr !! Z.to_nat i with
                           | Some b =>
                               LineLoopHelper.store
                                 (Device.WriteU16 (LineLoopHelper.advance indicesDst (2 * i)) b)
                           | None => undefined
                           end)
                        tt;
                      match srcPtr !! 0%nat with
                      | Some b =>
                          LineLoopHelper.store
                            (Device.WriteU16
                               (LineLoopHelper.advance indicesDst
                                  (2 * Gl.indexCount drawCallParams)) b)
                      | None => undefined
                      end
                    else
                      match LineLoopHelper.clientBytes (Gl.indices drawCallParams)
                              (unitSize * Gl.indexCount drawCallParams),
                            LineLoopHelper.clientBytes (Gl.indices drawCallParams) unitSize with
                      | Some body, Some head =>
                          ANGLE_TRY LineLoopHelper.store (Device.WriteBytes indices body);
                          LineLoopHelper.store
                            (Device.WriteBytes
                               (LineLoopHelper.advance indices
                                  (unitSize * Gl.indexCount drawCallParams)) head)
                      | _, _ => undefined
                      end);
         ANGLE_TRY LineLoopHelper.onDevice (LineLoopHelper.onIndexBuffer DynamicBuffer.flush);
         ret result
     end).
Proof.
  destruct (DynamicBuffer.ptrOut out) as [indices |]; [| apply keeps_undefined; auto].
  apply keeps_bind; [exact indexQueueKept_trans | |].
  - destruct (decide (Gl.type drawCallParams = Gl.GL_UNSIGNED_BYTE)) as [Hbyte | Hwide].
    + cbv zeta. apply keeps_bind; [exact indexQueueKept_trans | |].
      * unfold forRange.
        apply (keeps_forEach Invariant.indexQueueKept);
          [exact indexQueueKept_refl | exact indexQueueKept_trans |].
        intros i []. destruct (Gl.indices drawCallParams !! Z.to_nat i);
          [auto | apply keeps_undefined; auto].
      * intros _. destruct (Gl.indices drawCallParams !! 0%nat);
          [auto | apply keeps_undefined; auto].
    + destruct (LineLoopHelper.clientBytes _ _) as [body |]; [| apply keeps_undefined; auto].
      destruct (LineLoopHelper.clientBytes _ _) as [head |]; [| apply keeps_undefined; auto].
      apply keeps_bind; [exact indexQueueKept_trans | auto | intros _; auto].
  - intros _.
    repeat (apply keeps_bind; [exact indexQueueKept_trans | auto | intros _]).
    apply keeps_ret; auto.
Qed.

(** What follows [allocate] in [getIndexBufferForElementArrayBuffer]. *)
Lemma elementArrayBuffer_copy_indexQueueKept (elementArrayBufferVk : BufferVk.t)
  (copies : list Vk.VkBufferCopy) (out : DynamicBuffer.AllocateOut) (offset : Z) :
  keeps Invariant.indexQueueKept
    (do self <- (fun s : LineLoopHelper.t * RendererVk.t => (Ok (fst s), s));
     let elementArrayBufferVk1 :=
       BufferVk.addReadDependency (LineLoopHelper.mCurrentWritingNode self)
         elementArrayBufferVk in
     ANGLE_TRY modify (fun s : LineLoopHelper.t * RendererVk.t =>
                 (LineLoopHelper.set_mCommands
                    (CommandBuffer.record
                       (CommandBuffer.copyBuffer (BufferVk.mBuffer elementArrayBufferVk1)
                          (default Vk.VK_NULL_HANDLE (DynamicBuffer.handleOut out)) 2 copies)
                       (LineLoopHelper.mCommands (fst s))) (fst s), snd s));
     ANGLE_TRY LineLoopHelper.onDevice (LineLoopHelper.onIndexBuffer DynamicBuffer.flush);
     ret ({| LineLoopHelper.bufferHandleOut := DynamicBuffer.handleOut out;
             LineLoopHelper.offsetOut := offset |},
          elementArrayBufferVk1)).
Proof.
  apply keeps_bind; [exact indexQueueKept_trans | intros s; apply indexQueueKept_refl |].
  intros self. cbv zeta.
  apply keeps_bind; [exact indexQueueKept_trans | | intros _].
  - intros [self0 r0]. unfold Invariant.indexQueueKept, Invariant.queueKept. cbn. auto.
  - apply keeps_bind; [exact indexQueueKept_trans | auto | intros _].
    apply keeps_ret; auto.
Qed.

Lemma modify_bind {S B : Type} (f : S -> S) (k : unit -> Action S B) (s : S) :
  bind (modify f) k s = k tt (f s).
Proof. reflexivity. Qed.

(** [allocate] on the index buffer, then steps that leave the retained
    buffers and the queue alone. *)
Lemma allocate_then_kept {B : Type} (allocateBytes : Z)
  (k : DynamicBuffer.AllocateOut -> Action (LineLoopHelper.t * RendererVk.t) B)
  (helper : LineLoopHelper.t) (renderer : RendererVk.t) :
  (forall out, keeps Invariant.indexQueueKept (k out)) ->
  let indexBuffer := LineLoopHelper.mDynamicIndexBuffer helper in
  let s' := snd (bind (LineLoopHelper.onIndexBuffer
                         (DynamicBuffer.allocate allocateBytes true false)) k
                   (helper, renderer)) in
  let retained' := DynamicBuffer.mRetainedBuffers (LineLoopHelper.mDynamicIndexBuffer (fst s')) in
  RendererVk.mGarbage (snd s') = RendererVk.mGarbage renderer
  /\ (retained' = DynamicBuffer.mRetainedBuffers indexBuffer
      \/ retained' = DynamicBuffer.mRetainedBuffers indexBuffer
                     ++ [{| DynamicBuffer.buffer := DynamicBuffer.mBuffer indexBuffer;
                            DynamicBuffer.memory := DynamicBuffer.mMemory indexBuffer |}]).
Proof.
  intros Hk. cbv zeta. unfold bind. rewrite onIndexBuffer_run.
  pose proof (allocate_retained allocateBytes true false
                (LineLoopHelper.mDynamicIndexBuffer helper) renderer) as (Hg & _ & Hr).
  destruct (DynamicBuffer.allocate allocateBytes true false
              (LineLoopHelper.mDynamicIndexBuffer helper, renderer))
    as [[out | e |] [self1 r1]]; cbn [fst snd] in Hg, Hr |- *; try (split; assumption).
  destruct (Hk out (LineLoopHelper.set_mDynamicIndexBuffer self1 helper, r1))
    as (Hg' & _ & Hr').
  cbn [fst snd LineLoopHelper.mDynamicIndexBuffer LineLoopHelper.set_mDynamicIndexBuffer]
    in Hg', Hr'.
  rewrite Hg', Hr'. split; assumption.
Qed.

(** [getIndexBufferForDrawArrays] releases before it allocates: whatever
    the call comes to, the queue has grown by the entries of every pair that
    was retained, and what is retained afterwards is at most the pair the
    call itself superseded. *)
Lemma drawArrays_releases_retained (helper : LineLoopHelper.t) (renderer : RendererVk.t)
  (drawCallParams : Gl.DrawCallParams) :
  let indexBuffer := LineLoopHelper.mDynamicIndexBuffer helper in
  let s' := snd (LineLoopHelper.getIndexBufferForDrawArrays drawCallParams (helper, renderer)) in
  let retained' := DynamicBuffer.mRetainedBuffers (LineLoopHelper.mDynamicIndexBuffer (fst s')) in
  RendererVk.mGarbage (snd s')
  = RendererVk.mGarbage renderer
    ++ Released.entries (RendererVk.mCurrentQueueSerial renderer)
         (DynamicBuffer.mRetainedBuffers indexBuffer)
  /\ (retained' = []
      \/ retained' = [{| DynamicBuffer.buffer := DynamicBuffer.mBuffer indexBuffer;
                         DynamicBuffer.memory := DynamicBuffer.mMemory indexBuffer |}]).
Proof.
  cbv zeta.
  pose proof (releaseRetainedBuffers_queue (LineLoopHelper.mDynamicIndexBuffer helper)
                renderer) as (Hnone & Hqueue).
  unfold LineLoopHelper.getIndexBufferForDrawArrays. cbv zeta. rewrite modify_bind.
  cbn [fst snd].
  match goal with
  | |- context [bind (LineLoopHelper.onIndexBuffer (DynamicBuffer.allocate ?b _ _)) ?k
                  (?h, ?r)] =>
      pose proof (allocate_then_kept b k h r) as Hkept
  end.
  cbv zeta in Hkept.
  cbn [fst snd LineLoopHelper.mDynamicIndexBuffer LineLoopHelper.set_mDynamicIndexBuffer]
    in Hkept.
  rewrite Hnone, Hqueue in Hkept. apply Hkept.
  intros out. apply drawArrays_writes_indexQueueKept.
Qed.

(** C10. [getIndexBufferForDrawArrays] and
    [getIndexBufferForElementArrayBuffer] hand the retained buffers of the
    dynamic index buffer to the deferred-release queue before they allocate:
    whatever the call comes to, the queue has grown by the entries of every
    pair that was retained, and what is retained afterwards is at most the
    pair the call itself superseded (for the element array buffer, with an
    index count whose successor is an [int]: the sum is taken before the
    release). [getIndexBufferForClientElementArray] does not: whatever the
    call comes to, the queue is as it was, and the retained buffers are
    still there, unchanged, followed by the pair the call superseded if it
    rotated. *)
Theorem lineLoop_retained_buffers_release (helper : LineLoopHelper.t)
  (renderer : RendererVk.t) (drawCallParams : Gl.DrawCallParams)
  (elementArrayBufferVk : BufferVk.t) (indexType : Vk.VkIndexType)
  (indexCount elementArrayOffset : Z) :
  let indexBuffer := LineLoopHelper.mDynamicIndexBuffer helper in
  let retained := DynamicBuffer.mRetainedBuffers indexBuffer in
  let superseded := {| DynamicBuffer.buffer := DynamicBuffer.mBuffer indexBuffer;
                       DynamicBuffer.memory := DynamicBuffer.mMemory indexBuffer |} in
  let queued := RendererVk.mGarbage renderer
                ++ Released.entries (RendererVk.mCurrentQueueSerial renderer) retained in
  let retainedIn (s : LineLoopHelper.t * RendererVk.t) :=
    DynamicBuffer.mRetainedBuffers (LineLoopHelper.mDynamicIndexBuffer (fst s)) in
  let afterDrawArrays :=
    snd (LineLoopHelper.getIndexBufferForDrawArrays drawCallParams (helper, renderer)) in
  let afterElementArrayBuffer :=
    snd (LineLoopHelper.getIndexBufferForElementArrayBuffer elementArrayBufferVk indexType
           indexCount elementArrayOffset (helper, renderer)) in
  let afterClientElementArray :=
    snd (LineLoopHelper.getIndexBufferForClientElementArray drawCallParams
           (helper, renderer)) in
  (RendererVk.mGarbage (snd afterDrawArrays) = queued
   /\ (retainedIn afterDrawArrays = [] \/ retainedIn afterDrawArrays = [superseded]))
  /\ (- 2 ^ 31 <= indexCount + 1 < 2 ^ 31 ->
      RendererVk.mGarbage (snd afterElementArrayBuffer) = queued
      /\ (retainedIn afterElementArrayBuffer = []
          \/ retainedIn afterElementArrayBuffer = [superseded]))
  /\ (RendererVk.mGarbage (snd afterClientElementArray) = RendererVk.mGarbage renderer
      /\ (retainedIn afterClientElementArray = retained
          \/ retainedIn afterClientElementArray = retained ++ [superseded])).
Proof.
  cbv zeta.
  pose proof (releaseRetainedBuffers_queue (LineLoopHelper.mDynamicIndexBuffer helper)
                renderer) as (Hnone & Hqueue).
  split; [| split].
  - apply drawArrays_releases_retained.
  - intros Hint.
    unfold LineLoopHelper.getIndexBufferForElementArrayBuffer. cbv zeta.
    rewrite (add_int_small _ _ Hint). rewrite modify_bind.
    cbn [fst snd].
    match goal with
    | |- context [bind (LineLoopHelper.onIndexBuffer (DynamicBuffer.allocate ?b _ _)) ?k
                    (?h, ?r)] =>
        pose proof (allocate_then_kept b k h r) as Hkept
    end.
    cbv zeta in Hkept.
    cbn [fst snd LineLoopHelper.mDynamicIndexBuffer LineLoopHelper.set_mDynamicIndexBuffer]
      in Hkept.
    rewrite Hnone, Hqueue in Hkept. apply Hkept.
    intros out. apply elementArrayBuffer_copy_indexQueueKept.
  - unfold LineLoopHelper.getIndexBufferForClientElementArray. cbv zeta.
    destruct (Machine.add_int (Gl.indexCount drawCallParams) 1) as [indexCountPlusOne |].
    + apply allocate_then_kept.
      intros out. apply clientElementArray_writes_indexQueueKept.
    + cbn. auto.
Qed.

(** C10, witness: scenario S7, then three 16-bit indices of the element
    array buffer 50. The client-element-array call rotates and leaves the
    pair it superseded among the retained buffers, the queue empty; the
    element-array-buffer call after it hands that pair to the queue, and a
    second client-element-array call would have left it retained. *)
Lemma lineLoop_retained_buffers_release_witness :
  let start := snd (LineLoopHelper.getIndexBufferForClientElementArray
                      (Scenario.clientBytesParams [2; 5; 9])
                      (Scenario.lineLoopHelper 1048576)) in
  let retainedIn (s : LineLoopHelper.t * RendererVk.t) :=
    DynamicBuffer.mRetainedBuffers (LineLoopHelper.mDynamicIndexBuffer (fst s)) in
  let afterElementArrayBuffer :=
    snd (LineLoopHelper.getIndexBufferForElementArrayBuffer
           {| BufferVk.mBuffer := 50; BufferVk.mCurrentReadingNodes := [] |}
           Vk.VK_INDEX_TYPE_UINT16 3 6 start) in
  let afterClientElementArray :=
    snd (LineLoopHelper.getIndexBufferForClientElementArray
           (Scenario.clientBytesParams [2; 5; 9]) start) in
  - 2 ^ 31 <= 3 + 1 < 2 ^ 31
  /\ retainedIn start
     = [{| DynamicBuffer.buffer := Vk.VK_NULL_HANDLE;
           DynamicBuffer.memory := Vk.VK_NULL_HANDLE |}]
  /\ RendererVk.mGarbage (snd start) = []
  /\ RendererVk.mGarbage (snd afterElementArrayBuffer) = Released.entries 7 (retainedIn start)
  /\ RendererVk.mGarbage (snd afterClientElementArray) = [].
Proof.
  cbv zeta.
  set (start := snd (LineLoopHelper.getIndexBufferForClientElementArray
                       (Scenario.clientBytesParams [2; 5; 9])
                       (Scenario.lineLoopHelper 1048576))).
  set (helper := fst start).
  set (renderer := snd start).
  assert (Hint : - 2 ^ 31 <= 3 + 1 < 2 ^ 31) by lia.
  assert (Hretained : DynamicBuffer.mRetainedBuffers (LineLoopHelper.mDynamicIndexBuffer helper)
                      = [{| DynamicBuffer.buffer := Vk.VK_NULL_HANDLE;
                            DynamicBuffer.memory := Vk.VK_NULL_HANDLE |}])
    by (vm_compute; reflexivity).
  assert (Hempty : RendererVk.mGarbage renderer = []) by (vm_compute; reflexivity).
  assert (Hserial : RendererVk.mCurrentQueueSerial renderer = 7) by (vm_compute; reflexivity).
  split; [exact Hint |]. split; [exact Hretained |]. split; [exact Hempty |].
  destruct (lineLoop_retained_buffers_release helper renderer
              (Scenario.clientBytesParams [2; 5; 9])
              {| BufferVk.mBuffer := 50; BufferVk.mCurrentReadingNodes := [] |}
              Vk.VK_INDEX_TYPE_UINT16 3 6) as (_ & Hbuffer & Hclient & _).
  destruct (Hbuffer Hint) as (Hqueue & _).
  rewrite (surjective_pairing start). fold helper renderer.
  rewrite Hqueue, Hclient, Hempty, Hserial, Hretained. split; reflexivity.
Defined.

(** ** LineLoopHelper: what is written *)

Lemma advance_advance (p : Device.HostPointer) (a b : Z) :
  LineLoopHelper.advance (LineLoopHelper.advance p a) b = LineLoopHelper.advance p (a + b).
Proof. unfold LineLoopHelper.advance. cbn. f_equal. lia. Qed.

Lemma storesFrom_app (mk : Device.HostPointer -> Z -> Device.HostWrite) (stride : Z)
  (p : Device.HostPointer) (l1 l2 : list Z) :
  forall k,
    Expected.storesFrom mk stride p k (l1 ++ l2)
    = Expected.storesFrom mk stride p k l1
      ++ Expected.storesFrom mk stride p (k + Z.of_nat (length l1)) l2.
Proof.
  induction l1 as [| v rest IH]; intros k; cbn [app Expected.storesFrom length].
  - replace (k + Z.of_nat 0) with k by lia. reflexivity.
  - rewrite IH. replace (k + 1 + Z.of_nat (length rest)) with (k + Z.of_nat (S (length rest)))
      by lia. reflexivity.
Qed.

Lemma writtenAll_app (ws1 ws2 : list Device.HostWrite) (renderer : RendererVk.t) :
  Expected.writtenAll (ws1 ++ ws2) renderer
  = Expected.writtenAll ws2 (Expected.writtenAll ws1 renderer).
Proof. unfold Expected.writtenAll. apply fold_left_app. Qed.

(** Stores through host pointers touch nothing but the memory written. *)
Lemma writtenAll_fields (ws : list Device.HostWrite) :
  forall renderer,
    let renderer' := Expected.writtenAll ws renderer in
    Device.hostWrites (RendererVk.mDevice renderer')
    = Device.hostWrites (RendererVk.mDevice renderer) ++ ws
    /\ Device.calls (RendererVk.mDevice renderer') = Device.calls (RendererVk.mDevice renderer)
    /\ Device.pendingResults (RendererVk.mDevice renderer')
       = Device.pendingResults (RendererVk.mDevice renderer)
    /\ RendererVk.mGarbage renderer' = RendererVk.mGarbage renderer.
Proof.
  induction ws as [| w rest IH]; intros renderer; cbv zeta.
  - cbn. rewrite app_nil_r. auto.
  - change (Expected.writtenAll (w :: rest) renderer)
      with (Expected.writtenAll rest
              (RendererVk.withDevice (Device.written w (RendererVk.mDevice renderer)) renderer)).
    destruct (IH (RendererVk.withDevice (Device.written w (RendererVk.mDevice renderer))
                    renderer)) as (Hw & Hc & Hp & Hg).
    rewrite Hw, Hc, Hp, Hg. cbn. rewrite <- app_assoc. auto.
Qed.

Lemma store_run (w : Device.HostWrite) (helper : LineLoopHelper.t) (renderer : RendererVk.t) :
  LineLoopHelper.store w (helper, renderer) = (Ok tt, (helper, Expected.writtenAll [w] renderer)).
Proof. reflexivity. Qed.

(** The loop of [getIndexBufferForDrawArrays] stores the vertex indices it
    goes through in consecutive 32-bit units and leaves the pointer after
    the last of them. *)
Lemma drawArrays_loop (p : Device.HostPointer) (helper : LineLoopHelper.t) (l : list Z) :
  forall (k : Z) (renderer : RendererVk.t),
    forEach l
      (fun vertexIndex q =>
         ANGLE_TRY LineLoopHelper.store (Device.WriteU32 q vertexIndex);
         ret (LineLoopHelper.advance q 4))
      (LineLoopHelper.advance p (4 * k)) (helper, renderer)
    = (Ok (LineLoopHelper.advance p (4 * (k + Z.of_nat (length l)))),
       (helper,
        Expected.writtenAll (Expected.storesFrom Device.WriteU32 4 p k l) renderer)).
Proof.
  induction l as [| v rest IH]; intros k renderer.
  - cbn [forEach Expected.storesFrom length]. replace (k + Z.of_nat 0) with k by lia.
    reflexivity.
  - cbn [forEach Expected.storesFrom length].
    unfold bind at 1. unfold bind at 1. rewrite store_run. unfold ret at 1.
    rewrite advance_advance. replace (4 * k + 4) with (4 * (k + 1)) by lia.
    rewrite IH. replace (k + 1 + Z.of_nat (length rest)) with (k + Z.of_nat (S (length rest)))
      by lia. reflexivity.
Qed.

(** [flush] of the index buffer when the driver answers with success. *)
Lemma lineLoop_flush_run (helper : LineLoopHelper.t) (renderer : RendererVk.t) :
  Device.nextResult (RendererVk.mDevice renderer) = Vk.VK_SUCCESS ->
  exists helper' renderer',
    LineLoopHelper.onDevice (LineLoopHelper.onIndexBuffer DynamicBuffer.flush)
      (helper, renderer) = (Ok tt, (helper', renderer'))
    /\ Device.hostWrites (RendererVk.mDevice renderer')
       = Device.hostWrites (RendererVk.mDevice renderer)
    /\ Device.calls (RendererVk.mDevice renderer')
       = Device.calls (RendererVk.mDevice renderer)
         ++ Expected.flushCalls (LineLoopHelper.mDynamicIndexBuffer helper)
    /\ DynamicBuffer.mNextAllocationOffset (LineLoopHelper.mDynamicIndexBuffer helper')
       <= DynamicBuffer.mLastFlushOrInvalidateOffset (LineLoopHelper.mDynamicIndexBuffer helper').
Proof.
  intros Hok. rewrite lineLoop_onDevice_run, onIndexBuffer_run. cbn [fst snd].
  unfold Expected.flushCalls.
  destruct (Z.ltb_spec
              (DynamicBuffer.mLastFlushOrInvalidateOffset
                 (LineLoopHelper.mDynamicIndexBuffer helper))
              (DynamicBuffer.mNextAllocationOffset
                 (LineLoopHelper.mDynamicIndexBuffer helper))) as [Hlt | Hge].
  - rewrite (flush_range _ _ Hlt). cbv zeta. rewrite Hok. cbn [fst snd].
    eexists _, _. split; [reflexivity |]. cbn. rewrite Hok. repeat split. lia.
  - rewrite (flush_empty_range _ _ Hge). cbn [fst snd].
    eexists _, _. split; [reflexivity |]. cbn. rewrite app_nil_r. auto.
Qed.

Lemma advance_zero (p : Device.HostPointer) : LineLoopHelper.advance p 0 = p.
Proof. destruct p as [region byteOffset]. unfold LineLoopHelper.advance. cbn. f_equal. lia. Qed.

Lemma lineLoop_length (first count : Z) :
  0 <= count -> Z.of_nat (length (Expected.lineLoop first count)) = count + 1.
Proof.
  intros H. unfold Expected.lineLoop.
  rewrite length_app, length_map, length_seq. cbn [length]. lia.
Qed.

(** C5 (as the code has it). For a first vertex and a count that are not
    negative, with [first + count] and [count + 1] below [2 ^ 32]:
    [getIndexBufferForDrawArrays] releases the retained buffers and asks the
    dynamic index buffer for [(count + 1) * 4] bytes; when that allocation
    succeeds and the driver accepts the flush, the call succeeds, returns the
    handle and the offset of the allocation, has stored the [count + 1]
    32-bit indices [first, first + 1, ..., first + count - 1, first] in
    consecutive units from the pointer of the allocation, and has flushed
    the index buffer. Every pair that was retained before the call is in the
    deferred-release queue after it, under the current serial, and what is
    retained then is at most the pair the allocation superseded. [Draw] then
    records [drawIndexed(count + 1, 1, 0, 0, 0)]. *)
Theorem getIndexBufferForDrawArrays_line_loop (helper : LineLoopHelper.t)
  (renderer : RendererVk.t) (drawCallParams : Gl.DrawCallParams)
  (alloc : DynamicBuffer.AllocateOut) (self1 : DynamicBuffer.t) (renderer1 : RendererVk.t)
  (p : Device.HostPointer) :
  let first := Gl.firstVertex drawCallParams in
  let count := Gl.vertexCount drawCallParams in
  0 <= first -> 0 <= count -> first + count < 2 ^ 32 -> count + 1 < 2 ^ 32 ->
  DynamicBuffer.allocate (4 * (count + 1)) true false
    (DynamicBuffer.releaseRetainedBuffers (LineLoopHelper.mDynamicIndexBuffer helper, renderer))
  = (Ok alloc, (self1, renderer1)) ->
  DynamicBuffer.ptrOut alloc = Some p ->
  Device.nextResult (RendererVk.mDevice renderer1) = Vk.VK_SUCCESS ->
  exists helper' renderer',
    LineLoopHelper.getIndexBufferForDrawArrays drawCallParams (helper, renderer)
    = (Ok {| LineLoopHelper.bufferHandleOut := DynamicBuffer.handleOut alloc;
             LineLoopHelper.offsetOut := DynamicBuffer.offsetOut alloc |},
       (helper', renderer'))
    /\ Device.hostWrites (RendererVk.mDevice renderer')
       = Device.hostWrites (RendererVk.mDevice renderer1)
         ++ Expected.stores Device.WriteU32 4 p (Expected.lineLoop first count)
    /\ Z.of_nat (length (Expected.lineLoop first count)) = count + 1
    /\ Device.calls (RendererVk.mDevice renderer')
       = Device.calls (RendererVk.mDevice renderer1) ++ Expected.flushCalls self1
    /\ DynamicBuffer.mNextAllocationOffset (LineLoopHelper.mDynamicIndexBuffer helper')
       <= DynamicBuffer.mLastFlushOrInvalidateOffset (LineLoopHelper.mDynamicIndexBuffer helper')
    /\ RendererVk.mGarbage renderer'
       = RendererVk.mGarbage renderer
         ++ Released.entries (RendererVk.mCurrentQueueSerial renderer)
              (DynamicBuffer.mRetainedBuffers (LineLoopHelper.mDynamicIndexBuffer helper))
    /\ (let retained' :=
          DynamicBuffer.mRetainedBuffers (LineLoopHelper.mDynamicIndexBuffer helper') in
        let indexBuffer := LineLoopHelper.mDynamicIndexBuffer helper in
        retained' = []
        \/ retained' = [{| DynamicBuffer.buffer := DynamicBuffer.mBuffer indexBuffer;
                           DynamicBuffer.memory := DynamicBuffer.mMemory indexBuffer |}])
    /\ forall commandBuffer,
         LineLoopHelper.Draw count commandBuffer
         = commandBuffer ++ [CommandBuffer.drawIndexed (count + 1) 1 0 0 0].
Proof.
  intros first count Hfirst Hcount Hsum Hdraw Halloc Hptr Hok.
  set (body := fun (vertexIndex : Z) (q : Device.HostPointer) =>
                 ANGLE_TRY LineLoopHelper.store (Device.WriteU32 q vertexIndex);
                 ret (LineLoopHelper.advance q 4)
               : Action (LineLoopHelper.t * RendererVk.t) Device.HostPointer).
  set (l := map (fun k => first + Z.of_nat k) (seq 0 (Z.to_nat count))).
  set (helper1 :=
         LineLoopHelper.set_mDynamicIndexBuffer self1
           (LineLoopHelper.set_mDynamicIndexBuffer
              (fst (DynamicBuffer.releaseRetainedBuffers
                      (LineLoopHelper.mDynamicIndexBuffer helper, renderer))) helper)).
  set (last := Device.WriteU32 (LineLoopHelper.advance p (4 * (0 + Z.of_nat (length l)))) first).
  set (renderer2 :=
         Expected.writtenAll (Expected.storesFrom Device.WriteU32 4 p 0 l ++ [last]) renderer1).
  destruct (writtenAll_fields (Expected.storesFrom Device.WriteU32 4 p 0 l ++ [last]) renderer1)
    as (Hw & Hc & Hp & _). fold renderer2 in Hw, Hc, Hp.
  destruct (lineLoop_flush_run helper1 renderer2) as (helper' & renderer' & Hflush & Hw' & Hc' & Hf).
  { unfold Device.nextResult in *. rewrite Hp. exact Hok. }
  exists helper', renderer'.
  assert (Hrun : LineLoopHelper.getIndexBufferForDrawArrays drawCallParams (helper, renderer)
                 = (Ok {| LineLoopHelper.bufferHandleOut := DynamicBuffer.handleOut alloc;
                          LineLoopHelper.offsetOut := DynamicBuffer.offsetOut alloc |},
                    (helper', renderer'))); [| split; [exact Hrun |]].
  2: pose proof (drawArrays_releases_retained helper renderer drawCallParams) as Hreleased;
     cbv zeta in Hreleased; rewrite Hrun in Hreleased; cbn [fst snd] in Hreleased;
     destruct Hreleased as (Hqueue & Hretained);
     split; [| split; [| split; [| split; [| split; [exact Hqueue | split;
       [exact Hretained |]]]]]].
  - unfold LineLoopHelper.getIndexBufferForDrawArrays. cbv zeta.
    fold first. fold count.
    rewrite (to_size_t_small (count + 1)) by lia.
    rewrite (to_size_t_small (4 * (count + 1))) by lia.
    rewrite modify_bind. cbn [fst snd].
    erewrite bind_Ok;
      [| rewrite onIndexBuffer_run;
         cbn [fst snd LineLoopHelper.mDynamicIndexBuffer LineLoopHelper.set_mDynamicIndexBuffer];
         rewrite <- surjective_pairing, Halloc; reflexivity].
    cbn [fst snd]. fold helper1. rewrite Hptr.
    unfold Gl.getClampedVertexCount_uint32.
    change (Gl.mVertexCount drawCallParams) with count.
    replace (Machine.UINT32_MAX <? count) with false
      by (symmetry; apply Z.ltb_ge; unfold Machine.UINT32_MAX; lia).
    cbv iota. rewrite (to_uint32_small first) by lia.
    rewrite (to_uint32_small (count + first)) by lia.
    unfold forRange, rangeZ. replace (count + first - first) with count by lia. fold l.
    fold body.
    pose proof (drawArrays_loop p helper1 l 0 renderer1) as Hloop. fold body in Hloop.
    replace (4 * 0) with 0 in Hloop by lia. rewrite advance_zero in Hloop.
    erewrite bind_Ok; [| exact Hloop].
    erewrite bind_Ok; [| apply store_run].
    fold last. rewrite <- writtenAll_app. fold renderer2.
    erewrite bind_Ok; [| exact Hflush]. reflexivity.
  - rewrite Hw', Hw. f_equal. unfold Expected.stores, Expected.lineLoop. fold l.
    rewrite storesFrom_app. reflexivity.
  - apply lineLoop_length. exact Hcount.
  - rewrite Hc', Hc. reflexivity.
  - exact Hf.
  - intros commandBuffer. unfold LineLoopHelper.Draw, CommandBuffer.record.
    rewrite (to_uint32_small (count + 1)) by lia. reflexivity.
Qed.

(** C5, witness: scenario S6 after scenario S7. The client-element-array
    call of S7 left one pair among the retained buffers and the next offset
    at 64. The draw-arrays call hands that pair to the queue, is served at
    offset 64 of the buffer in use and stores [10, 11, 12, 13, 10] there. *)
Lemma getIndexBufferForDrawArrays_line_loop_witness :
  let start := snd (LineLoopHelper.getIndexBufferForClientElementArray
                      (Scenario.clientBytesParams [2; 5; 9])
                      (Scenario.lineLoopHelper 1048576)) in
  let retained := DynamicBuffer.mRetainedBuffers
                    (LineLoopHelper.mDynamicIndexBuffer (fst start)) in
  let run := LineLoopHelper.getIndexBufferForDrawArrays (Scenario.drawArraysParams 10 4)
               start in
  retained
  = [{| DynamicBuffer.buffer := Vk.VK_NULL_HANDLE; DynamicBuffer.memory := Vk.VK_NULL_HANDLE |}]
  /\ RendererVk.mGarbage (snd start) = []
  /\ fst run = Ok {| LineLoopHelper.bufferHandleOut := Some 1; LineLoopHelper.offsetOut := 64 |}
  /\ Device.hostWrites (RendererVk.mDevice (snd (snd run)))
     = Device.hostWrites (RendererVk.mDevice (snd start))
       ++ Expected.stores Device.WriteU32 4 {| Device.region := 2; Device.byteOffset := 64 |}
            [10; 11; 12; 13; 10]
  /\ RendererVk.mGarbage (snd (snd run)) = Released.entries 7 retained
  /\ DynamicBuffer.mRetainedBuffers (LineLoopHelper.mDynamicIndexBuffer (fst (snd run))) = []
  /\ LineLoopHelper.Draw 4 [] = [CommandBuffer.drawIndexed 5 1 0 0 0].
Proof.
  cbv zeta.
  set (start := snd (LineLoopHelper.getIndexBufferForClientElementArray
                       (Scenario.clientBytesParams [2; 5; 9])
                       (Scenario.lineLoopHelper 1048576))).
  set (helper := fst start).
  set (renderer := snd start).
  set (res := DynamicBuffer.allocate 20 true false
                (DynamicBuffer.releaseRetainedBuffers
                   (LineLoopHelper.mDynamicIndexBuffer helper, renderer))).
  assert (Hretained : DynamicBuffer.mRetainedBuffers (LineLoopHelper.mDynamicIndexBuffer helper)
                      = [{| DynamicBuffer.buffer := Vk.VK_NULL_HANDLE;
                            DynamicBuffer.memory := Vk.VK_NULL_HANDLE |}])
    by (vm_compute; reflexivity).
  assert (Hempty : RendererVk.mGarbage renderer = []) by (vm_compute; reflexivity).
  assert (Hserial : RendererVk.mCurrentQueueSerial renderer = 7) by (vm_compute; reflexivity).
  split; [exact Hretained |]. split; [exact Hempty |].
  destruct (getIndexBufferForDrawArrays_line_loop helper renderer
              (Scenario.drawArraysParams 10 4)
              {| DynamicBuffer.ptrOut := Some {| Device.region := 2; Device.byteOffset := 64 |};
                 DynamicBuffer.handleOut := Some 1;
                 DynamicBuffer.offsetOut := 64;
                 DynamicBuffer.newBufferAllocatedOut := None |}
              (fst (snd res)) (snd (snd res))
              {| Device.region := 2; Device.byteOffset := 64 |})
    as (helper' & renderer' & Hrun & Hw & _ & _ & _ & Hq & Hr & Hd).
  - cbn. lia.
  - cbn. lia.
  - cbn. lia.
  - cbn. lia.
  - vm_compute. reflexivity.
  - reflexivity.
  - vm_compute. reflexivity.
  - rewrite (surjective_pairing start). fold helper renderer.
    rewrite Hrun. cbn [fst snd]. split; [reflexivity |]. split; [| split; [| split]].
    + assert (Hsame : Device.hostWrites (RendererVk.mDevice (snd (snd res)))
                      = Device.hostWrites (RendererVk.mDevice renderer))
        by (vm_compute; reflexivity).
      rewrite Hw, Hsame. reflexivity.
    + rewrite Hq, Hempty, Hserial, Hretained. reflexivity.
    + cbv zeta in Hr. destruct Hr as [Hr | Hr]; [exact Hr |].
      exfalso.
      assert (Hlen : DynamicBuffer.mRetainedBuffers
                       (LineLoopHelper.mDynamicIndexBuffer
                          (fst (snd (LineLoopHelper.getIndexBufferForDrawArrays
                                       (Scenario.drawArraysParams 10 4) (helper, renderer)))))
                     = []) by (vm_compute; reflexivity).
      rewrite Hrun in Hlen. cbn [fst snd] in Hlen. rewrite Hlen in Hr. discriminate.
    + apply (Hd []).
Defined.

(** With a first vertex of [-1] and a count of [1] the sum
    [clampedVertexCount + unsignedFirstVertex] wraps to [0]: the loop stores
    nothing and the call stores the one index [4294967295], where
    [count + 1] is [2]. The same with the first vertex [2147483647] and the
    count [2147483649]. *)
Lemma getIndexBufferForDrawArrays_sum_wraps :
  let negative := LineLoopHelper.getIndexBufferForDrawArrays (Scenario.drawArraysParams (-1) 1)
                    (Scenario.lineLoopHelper 1048576) in
  let large := LineLoopHelper.getIndexBufferForDrawArrays
                 (Scenario.drawArraysParams 2147483647 2147483649)
                 (Scenario.lineLoopHelper 17179869184) in
  (fst negative
   = Ok {| LineLoopHelper.bufferHandleOut := Some 1; LineLoopHelper.offsetOut := 0 |}
   /\ Device.hostWrites (RendererVk.mDevice (snd (snd negative)))
      = [Device.WriteU32 {| Device.region := 2; Device.byteOffset := 0 |} 4294967295])
  /\ (fst large
      = Ok {| LineLoopHelper.bufferHandleOut := Some 1; LineLoopHelper.offsetOut := 0 |}
      /\ Device.hostWrites (RendererVk.mDevice (snd (snd large)))
         = [Device.WriteU32 {| Device.region := 2; Device.byteOffset := 0 |} 2147483647]).
Proof. vm_compute. repeat split. Qed.

(** The loop of [getIndexBufferForClientElementArray] over unsigned bytes
    stores each byte it goes through in the 16-bit unit of the same index. *)
Lemma clientElementArray_loop (src : list Z) (p : Device.HostPointer)
  (helper : LineLoopHelper.t) (m : nat) :
  forall (a : nat) (renderer : RendererVk.t),
    (a + m <= length src)%nat ->
    forEach (map (fun k => 0 + Z.of_nat k) (seq a m))
      (fun i _ =>
         match src !! Z.to_nat i with
         | Some b =>
             LineLoopHelper.store (Device.WriteU16 (LineLoopHelper.advance p (2 * i)) b)
         | None => undefined
         end)
      tt (helper, renderer)
    = (Ok tt,
       (helper,
        Expected.writtenAll
          (Expected.storesFrom Device.WriteU16 2 p (Z.of_nat a) (take m (drop a src)))
          renderer)).
Proof.
  induction m as [| m IH]; intros a renderer Hlen.
  - reflexivity.
  - cbn [seq map forEach].
    replace (0 + Z.of_nat a) with (Z.of_nat a) by lia. rewrite Nat2Z.id.
    destruct (lookup_lt_is_Some_2 src a ltac:(lia)) as [b Hb].
    rewrite (drop_S _ _ _ Hb). rewrite Hb. cbn [take Expected.storesFrom].
    unfold bind at 1. rewrite store_run.
    rewrite IH by lia.
    replace (Z.of_nat a + 1) with (Z.of_nat (S a)) by lia. reflexivity.
Qed.

(** With an index count of [INT_MAX] the sum [indexCount + 1] is not an
    [int]: the two entry points that take an index count are undefined
    there, before they touch anything. *)
Lemma indexCount_successor_overflows (drawCallParams : Gl.DrawCallParams)
  (elementArrayBufferVk : BufferVk.t) (indexType : Vk.VkIndexType) (elementArrayOffset : Z)
  (s : LineLoopHelper.t * RendererVk.t) :
  (Gl.indexCount drawCallParams = Machine.INT_MAX ->
   LineLoopHelper.getIndexBufferForClientElementArray drawCallParams s = (Undefined, s))
  /\ LineLoopHelper.getIndexBufferForElementArrayBuffer elementArrayBufferVk indexType
       Machine.INT_MAX elementArrayOffset s = (Undefined, s).
Proof.
  split.
  - intros Hmax. unfold LineLoopHelper.getIndexBufferForClientElementArray. cbv zeta.
    rewrite Hmax. reflexivity.
  - reflexivity.
Qed.

(** C9. [getIndexBufferForClientElementArray] on [n] unsigned-byte source
    indices ([n] at least one with [n + 1] an [int], the source readable
    over [n] bytes): the call asks the dynamic index buffer for
    [(n + 1) * 2] bytes; when that allocation succeeds and the driver
    accepts the flush, the call succeeds
    and has stored [n + 1] 16-bit values in consecutive units from the
    pointer of the allocation: each source byte in order, then the first
    source byte again. *)
Theorem getIndexBufferForClientElementArray_unsigned_byte (helper : LineLoopHelper.t)
  (renderer : RendererVk.t) (drawCallParams : Gl.DrawCallParams)
  (alloc : DynamicBuffer.AllocateOut) (self1 : DynamicBuffer.t) (renderer1 : RendererVk.t)
  (p : Device.HostPointer) :
  let n := Gl.indexCount drawCallParams in
  let src := take (Z.to_nat n) (Gl.indices drawCallParams) in
  Gl.type drawCallParams = Gl.GL_UNSIGNED_BYTE ->
  1 <= n <= Z.of_nat (length (Gl.indices drawCallParams)) ->
  n + 1 < 2 ^ 31 ->
  DynamicBuffer.allocate (2 * (n + 1)) true false
    (LineLoopHelper.mDynamicIndexBuffer helper, renderer)
  = (Ok alloc, (self1, renderer1)) ->
  DynamicBuffer.ptrOut alloc = Some p ->
  Device.nextResult (RendererVk.mDevice renderer1) = Vk.VK_SUCCESS ->
  exists helper' renderer',
    LineLoopHelper.getIndexBufferForClientElementArray drawCallParams (helper, renderer)
    = (Ok {| LineLoopHelper.bufferHandleOut := DynamicBuffer.handleOut alloc;
             LineLoopHelper.offsetOut := DynamicBuffer.offsetOut alloc |},
       (helper', renderer'))
    /\ Device.hostWrites (RendererVk.mDevice renderer')
       = Device.hostWrites (RendererVk.mDevice renderer1)
         ++ Expected.stores Device.WriteU16 2 p (Expected.closed src)
    /\ Z.of_nat (length (Expected.closed src)) = n + 1
    /\ Device.calls (RendererVk.mDevice renderer')
       = Device.calls (RendererVk.mDevice renderer1) ++ Expected.flushCalls self1
    /\ DynamicBuffer.mNextAllocationOffset (LineLoopHelper.mDynamicIndexBuffer helper')
       <= DynamicBuffer.mLastFlushOrInvalidateOffset (LineLoopHelper.mDynamicIndexBuffer helper').
Proof.
  intros n src Htype Hn Hint Halloc Hptr Hok.
  set (helper1 := LineLoopHelper.set_mDynamicIndexBuffer self1 helper).
  assert (Hlen : length src = Z.to_nat n) by (unfold src; rewrite length_take; lia).
  destruct (lookup_lt_is_Some_2 (Gl.indices drawCallParams) 0 ltac:(lia)) as [b0 Hb0].
  assert (Hhead : take 1 src = [b0]).
  { unfold src. destruct (Gl.indices drawCallParams) as [| b rest]; [discriminate |].
    injection Hb0 as ->. destruct (Z.to_nat n) as [| k] eqn:Hk; [lia |]. reflexivity. }
  set (last := Device.WriteU16 (LineLoopHelper.advance p (2 * n)) b0).
  set (renderer2 :=
         Expected.writtenAll (Expected.storesFrom Device.WriteU16 2 p 0 src ++ [last])
           renderer1).
  destruct (writtenAll_fields (Expected.storesFrom Device.WriteU16 2 p 0 src ++ [last])
              renderer1) as (Hw & Hc & Hp & _).
  fold renderer2 in Hw, Hc, Hp.
  destruct (lineLoop_flush_run helper1 renderer2)
    as (helper' & renderer' & Hflush & Hw' & Hc' & Hf).
  { unfold Device.nextResult in *. rewrite Hp. exact Hok. }
  exists helper', renderer'.
  split; [| split; [| split; [| split]]].
  - unfold LineLoopHelper.getIndexBufferForClientElementArray. cbv zeta.
    rewrite Htype. cbn [Gl.GetIndexType LineLoopHelper.unitSizeOf].
    fold n. rewrite (add_int_small n 1) by lia.
    rewrite (to_size_t_small (n + 1)) by lia.
    rewrite (to_size_t_small (2 * (n + 1))) by lia.
    erewrite bind_Ok; [| rewrite onIndexBuffer_run, Halloc; reflexivity].
    cbn [fst snd]. fold helper1. rewrite Hptr.
    destruct (decide (Gl.GL_UNSIGNED_BYTE = Gl.GL_UNSIGNED_BYTE)) as [_ | Hne];
      [| congruence].
    pose proof (clientElementArray_loop (Gl.indices drawCallParams) p helper1 (Z.to_nat n)
                  0%nat renderer1 ltac:(lia)) as Hloop.
    rewrite drop_0 in Hloop. fold src in Hloop. change (Z.of_nat 0) with 0 in Hloop.
    unfold forRange, rangeZ. replace (n - 0) with n by lia.
    erewrite bind_Ok; [| erewrite bind_Ok; [| exact Hloop]; rewrite Hb0; apply store_run].
    fold last. rewrite <- writtenAll_app. fold renderer2.
    erewrite bind_Ok; [| exact Hflush]. reflexivity.
  - rewrite Hw', Hw. f_equal. unfold Expected.stores, Expected.closed.
    rewrite storesFrom_app, Hhead, Hlen. cbn [Expected.storesFrom]. unfold last.
    replace (0 + Z.of_nat (Z.to_nat n)) with n by lia. reflexivity.
  - unfold Expected.closed. rewrite length_app, Hhead, Hlen. cbn [length]. lia.
  - rewrite Hc', Hc. reflexivity.
  - exact Hf.
Qed.

Lemma getIndexBufferForClientElementArray_unsigned_byte_witness :
  let run := LineLoopHelper.getIndexBufferForClientElementArray
               (Scenario.clientBytesParams [2; 5; 9]) (Scenario.lineLoopHelper 1048576) in
  fst run = Ok {| LineLoopHelper.bufferHandleOut := Some 1; LineLoopHelper.offsetOut := 0 |}
  /\ Device.hostWrites (RendererVk.mDevice (snd (snd run)))
     = [Device.WriteU16 {| Device.region := 2; Device.byteOffset := 0 |} 2;
        Device.WriteU16 {| Device.region := 2; Device.byteOffset := 2 |} 5;
        Device.WriteU16 {| Device.region := 2; Device.byteOffset := 4 |} 9;
        Device.WriteU16 {| Device.region := 2; Device.byteOffset := 6 |} 2].
Proof.
  cbv zeta.
  set (helper := fst (Scenario.lineLoopHelper 1048576)).
  set (renderer := snd (Scenario.lineLoopHelper 1048576)).
  set (res := DynamicBuffer.allocate 8 true false
                (LineLoopHelper.mDynamicIndexBuffer helper, renderer)).
  destruct (getIndexBufferForClientElementArray_unsigned_byte helper renderer
              (Scenario.clientBytesParams [2; 5; 9])
              {| DynamicBuffer.ptrOut := Some {| Device.region := 2; Device.byteOffset := 0 |};
                 DynamicBuffer.handleOut := Some 1;
                 DynamicBuffer.offsetOut := 0;
                 DynamicBuffer.newBufferAllocatedOut := None |}
              (fst (snd res)) (snd (snd res))
              {| Device.region := 2; Device.byteOffset := 0 |})
    as (helper' & renderer' & Hrun & Hw & _).
  - reflexivity.
  - cbn. lia.
  - cbn. lia.
  - vm_compute. reflexivity.
  - reflexivity.
  - vm_compute. reflexivity.
  - change (Scenario.lineLoopHelper 1048576) with (helper, renderer).
    rewrite Hrun. cbn [fst snd]. split; [reflexivity |].
    rewrite Hw. vm_compute. reflexivity.
Defined.

(** Scenario S7 continued. The first client-element-array call rotates: the
    pair it supersedes stays in [mRetainedBuffers] and the queue stays empty.
    A draw-arrays call after it hands that pair to the queue. *)
Example clientElementArray_then_drawArrays :
  let s1 := snd (LineLoopHelper.getIndexBufferForClientElementArray
                   (Scenario.clientBytesParams [2; 5; 9]) (Scenario.lineLoopHelper 1048576)) in
  let s2 := snd (LineLoopHelper.getIndexBufferForDrawArrays (Scenario.drawArraysParams 10 4)
                   s1) in
  DynamicBuffer.mRetainedBuffers (LineLoopHelper.mDynamicIndexBuffer (fst s1))
  = [{| DynamicBuffer.buffer := Vk.VK_NULL_HANDLE; DynamicBuffer.memory := Vk.VK_NULL_HANDLE |}]
  /\ RendererVk.mGarbage (snd s1) = []
  /\ DynamicBuffer.mRetainedBuffers (LineLoopHelper.mDynamicIndexBuffer (fst s2)) = []
  /\ RendererVk.mGarbage (snd s2)
     = Released.entries 7
         [{| DynamicBuffer.buffer := Vk.VK_NULL_HANDLE;
             DynamicBuffer.memory := Vk.VK_NULL_HANDLE |}].
Proof. vm_compute. repeat split. Qed.

(** * Further properties of the helpers *)

(** ** DynamicBuffer: flush and invalidate *)

Lemma invalidate_empty_range (self : DynamicBuffer.t) (device : Device.t) :
  DynamicBuffer.mNextAllocationOffset self <= DynamicBuffer.mLastFlushOrInvalidateOffset self ->
  DynamicBuffer.invalidate (self, device) = (Ok tt, (self, device)).
Proof.
  intros H. unfold DynamicBuffer.invalidate, DynamicBuffer.this, bind. simpl.
  destruct (Z.ltb_spec (DynamicBuffer.mLastFlushOrInvalidateOffset self)
              (DynamicBuffer.mNextAllocationOffset self)); [lia | reflexivity].
Qed.

Lemma invalidate_range (self : DynamicBuffer.t) (device : Device.t) :
  DynamicBuffer.mLastFlushOrInvalidateOffset self < DynamicBuffer.mNextAllocationOffset self ->
  DynamicBuffer.invalidate (self, device) =
    let range :=
      {| Vk.mmr_memory := DynamicBuffer.mMemory self;
         Vk.mmr_offset := DynamicBuffer.mLastFlushOrInvalidateOffset self;
         Vk.mmr_size := DynamicBuffer.mNextAllocationOffset self
                        - DynamicBuffer.mLastFlushOrInvalidateOffset self |} in
    let device' := Device.answered (Device.InvalidateMappedMemoryRanges [range]) device in
    match Device.nextResult device with
    | Vk.VK_SUCCESS =>
        (Ok tt,
         (DynamicBuffer.set_mLastFlushOrInvalidateOffset
            (DynamicBuffer.mNextAllocationOffset self) self, device'))
    | e => (Err e, (self, device'))
    end.
Proof.
  intros H. unfold DynamicBuffer.invalidate, DynamicBuffer.this, bind. simpl.
  destruct (Z.ltb_spec (DynamicBuffer.mLastFlushOrInvalidateOffset self)
              (DynamicBuffer.mNextAllocationOffset self)); [| lia].
  unfold Device.ANGLE_VK_TRY, Device.vkInvalidateMappedMemoryRanges, Device.call.
  destruct (Device.nextResult device); reflexivity.
Qed.

Lemma invalidate_Ok_flushed (self self' : DynamicBuffer.t) (device device' : Device.t) :
  DynamicBuffer.invalidate (self, device) = (Ok tt, (self', device')) ->
  DynamicBuffer.mNextAllocationOffset self'
    <= DynamicBuffer.mLastFlushOrInvalidateOffset self'.
Proof.
  intros H.
  destruct (Z.lt_ge_cases (DynamicBuffer.mLastFlushOrInvalidateOffset self)
              (DynamicBuffer.mNextAllocationOffset self)) as [Hlt | Hge].
  - rewrite (invalidate_range _ _ Hlt) in H. cbv zeta in H.
    destruct (Device.nextResult device); try discriminate.
    injection H as <- <-. simpl. lia.
  - rewrite (invalidate_empty_range _ _ Hge) in H. injection H as <- <-. exact Hge.
Qed.

(** X1. [flush] and [invalidate] share the one watermark
    [mLastFlushOrInvalidateOffset]: once either of them has succeeded, both
    are no-ops (no driver call, no change) until the next allocation. In
    particular a range that has been flushed is never invalidated afterwards,
    and a range that has been invalidated is never flushed. *)
Theorem flush_invalidate_share_watermark (self self' : DynamicBuffer.t)
  (device device' : Device.t) :
  DynamicBuffer.flush (self, device) = (Ok tt, (self', device'))
  \/ DynamicBuffer.invalidate (self, device) = (Ok tt, (self', device')) ->
  DynamicBuffer.flush (self', device') = (Ok tt, (self', device'))
  /\ DynamicBuffer.invalidate (self', device') = (Ok tt, (self', device')).
Proof.
  intros H.
  assert (Hdone : DynamicBuffer.mNextAllocationOffset self'
                  <= DynamicBuffer.mLastFlushOrInvalidateOffset self').
  { destruct H as [H | H]; [eapply flush_Ok_flushed | eapply invalidate_Ok_flushed]; exact H. }
  split; [apply flush_empty_range | apply invalidate_empty_range]; exact Hdone.
Qed.

(** X1, witness: scenario S2. After a request of 1 KiB the flush covers
    1024 bytes; the invalidate that follows asks the driver for nothing. *)
Lemma flush_invalidate_share_watermark_witness :
  let s1 := snd (DynamicBuffer.allocate 1024 true true
                   (Scenario.dynamicBuffer 1048576 256 1048576)) in
  let flushed := DynamicBuffer.flush (fst s1, RendererVk.mDevice (snd s1)) in
  fst flushed = Ok tt
  /\ length (Device.calls (snd (snd flushed)))
     = S (length (Device.calls (RendererVk.mDevice (snd s1))))
  /\ DynamicBuffer.invalidate (snd flushed) = (Ok tt, snd flushed).
Proof.
  cbv zeta.
  set (s1 := snd (DynamicBuffer.allocate 1024 true true
                    (Scenario.dynamicBuffer 1048576 256 1048576))).
  set (flushed := DynamicBuffer.flush (fst s1, RendererVk.mDevice (snd s1))).
  assert (Hrun : flushed = (Ok tt, (fst (snd flushed), snd (snd flushed))))
    by (vm_compute; reflexivity).
  destruct (flush_invalidate_share_watermark (fst s1) (fst (snd flushed))
              (RendererVk.mDevice (snd s1)) (snd (snd flushed)) (or_introl Hrun))
    as [_ Hinv].
  split; [vm_compute; reflexivity |]. split; [vm_compute; reflexivity |].
  rewrite (surjective_pairing (snd flushed)). exact Hinv.
Defined.

(** ** DynamicBuffer: release and destroy *)

(** X2. [release] hands every retained pair, then the pair in use, to the
    deferred-release queue under the renderer's current serial, buffer before
    memory, and asks nothing of the driver. Afterwards the buffer is not
    [valid], holds no handle and retains nothing; its size, its mapping and
    its next offset are left as they were. *)
Theorem release_defers_everything (self : DynamicBuffer.t) (renderer : RendererVk.t) :
  let s' := DynamicBuffer.release (self, renderer) in
  RendererVk.mGarbage (snd s')
  = RendererVk.mGarbage renderer
    ++ Released.entries (RendererVk.mCurrentQueueSerial renderer)
         (DynamicBuffer.mRetainedBuffers self
          ++ [{| DynamicBuffer.buffer := DynamicBuffer.mBuffer self;
                 DynamicBuffer.memory := DynamicBuffer.mMemory self |}])
  /\ RendererVk.mDevice (snd s') = RendererVk.mDevice renderer
  /\ DynamicBuffer.valid (fst s') = false
  /\ DynamicBuffer.mRetainedBuffers (fst s') = []
  /\ DynamicBuffer.mBuffer (fst s') = Vk.VK_NULL_HANDLE
  /\ DynamicBuffer.mMemory (fst s') = Vk.VK_NULL_HANDLE
  /\ DynamicBuffer.mSize (fst s') = DynamicBuffer.mSize self
  /\ DynamicBuffer.mMappedMemory (fst s') = DynamicBuffer.mMappedMemory self
  /\ DynamicBuffer.mNextAllocationOffset (fst s') = DynamicBuffer.mNextAllocationOffset self.
Proof.
  cbv zeta. unfold DynamicBuffer.release, DynamicBuffer.releaseRetainedBuffers. cbv zeta.
  cbn [fst snd].
  destruct (releaseOne_fold (DynamicBuffer.mRetainedBuffers self) renderer)
    as (Hg & Hs & Hd & _).
  split; [| repeat split; try reflexivity; cbn; exact Hd].
  unfold RendererVk.getCurrentQueueSerial. cbn. rewrite Hg, Hs.
  unfold Released.entries. rewrite flat_map_app. cbn. rewrite <- !app_assoc. reflexivity.
Qed.

Lemma destroyOne_fold (l : list DynamicBuffer.BufferAndMemory) :
  forall d : Device.t,
    let d' := fold_left DynamicBuffer.destroyOne l d in
    Device.calls d' = Device.calls d ++ Destroyed.calls l
    /\ Device.hostWrites d' = Device.hostWrites d
    /\ Device.pendingResults d' = Device.pendingResults d
    /\ Device.nextHandle d' = Device.nextHandle d.
Proof.
  induction l as [| toFree rest IH]; intros d; cbn [fold_left].
  - cbn. rewrite app_nil_r. auto.
  - destruct (IH (DynamicBuffer.destroyOne d toFree)) as (Hc & Hw & Hp & Hh).
    cbv zeta. rewrite Hc, Hw, Hp, Hh.
    unfold Destroyed.calls. cbn [flat_map].
    unfold DynamicBuffer.destroyOne, DynamicBuffer.Buffer_destroy,
      DynamicBuffer.DeviceMemory_destroy.
    destruct (DynamicBuffer.buffer toFree =? Vk.VK_NULL_HANDLE);
      destruct (DynamicBuffer.memory toFree =? Vk.VK_NULL_HANDLE);
      cbn; rewrite <- ?app_assoc; auto.
Qed.

(** X3. [destroy] has the driver destroy at once every retained pair, then
    the pair in use, buffer before memory, passing over the wrappers that
    hold no handle. Afterwards the buffer is not [valid], holds no handle and
    retains nothing. A second [destroy] changes nothing and asks nothing more
    of the driver, and so does a [destroy] after a [release]; the same holds
    for the [destroy] of a line-loop helper. *)
Theorem destroy_immediate_and_idempotent (self : DynamicBuffer.t) (d : Device.t) :
  let s' := DynamicBuffer.destroy (self, d) in
  Device.calls (snd s')
  = Device.calls d
    ++ Destroyed.calls
         (DynamicBuffer.mRetainedBuffers self
          ++ [{| DynamicBuffer.buffer := DynamicBuffer.mBuffer self;
                 DynamicBuffer.memory := DynamicBuffer.mMemory self |}])
  /\ DynamicBuffer.valid (fst s') = false
  /\ DynamicBuffer.mRetainedBuffers (fst s') = []
  /\ DynamicBuffer.mBuffer (fst s') = Vk.VK_NULL_HANDLE
  /\ DynamicBuffer.mMemory (fst s') = Vk.VK_NULL_HANDLE
  /\ DynamicBuffer.destroy s' = s'
  /\ (forall renderer,
        let released := DynamicBuffer.release (self, renderer) in
        DynamicBuffer.destroy (fst released, d) = (fst released, d))
  /\ (forall helper,
        LineLoopHelper.destroy (LineLoopHelper.destroy (helper, d))
        = LineLoopHelper.destroy (helper, d)).
Proof.
  assert (Hidem : forall (self0 : DynamicBuffer.t) (d0 : Device.t),
             DynamicBuffer.destroy (DynamicBuffer.destroy (self0, d0))
             = DynamicBuffer.destroy (self0, d0)).
  { intros self0 d0. unfold DynamicBuffer.destroy. cbv zeta. cbn [fst snd].
    unfold DynamicBuffer.Buffer_destroy, DynamicBuffer.DeviceMemory_destroy.
    cbn [DynamicBuffer.mBuffer DynamicBuffer.mMemory DynamicBuffer.mRetainedBuffers
           DynamicBuffer.set_mAlignment DynamicBuffer.set_mRetainedBuffers
           DynamicBuffer.set_mBuffer DynamicBuffer.set_mMemory].
    destruct (DynamicBuffer.mBuffer self0 =? Vk.VK_NULL_HANDLE) eqn:Hb;
      destruct (DynamicBuffer.mMemory self0 =? Vk.VK_NULL_HANDLE) eqn:Hm;
      cbn [fst snd fold_left DynamicBuffer.mBuffer DynamicBuffer.mMemory
             DynamicBuffer.mRetainedBuffers DynamicBuffer.set_mAlignment
             DynamicBuffer.set_mRetainedBuffers DynamicBuffer.set_mBuffer
             DynamicBuffer.set_mMemory];
      rewrite ?Hb, ?Hm; cbn; reflexivity. }
  cbv zeta. split; [| split; [| split; [| split; [| split; [| split; [| split]]]]]].
  - unfold DynamicBuffer.destroy. cbv zeta. cbn [fst snd].
    destruct (destroyOne_fold (DynamicBuffer.mRetainedBuffers self) d) as (Hc & _).
    unfold Destroyed.calls. rewrite flat_map_app. fold (Destroyed.calls
      (DynamicBuffer.mRetainedBuffers self)).
    unfold DynamicBuffer.Buffer_destroy, DynamicBuffer.DeviceMemory_destroy.
    cbn [DynamicBuffer.mBuffer DynamicBuffer.mMemory DynamicBuffer.set_mAlignment
           DynamicBuffer.set_mRetainedBuffers flat_map DynamicBuffer.buffer
           DynamicBuffer.memory].
    destruct (DynamicBuffer.mBuffer self =? Vk.VK_NULL_HANDLE);
      destruct (DynamicBuffer.mMemory self =? Vk.VK_NULL_HANDLE);
      cbn; rewrite Hc, ?app_nil_r, <- ?app_assoc; reflexivity.
  - reflexivity.
  - reflexivity.
  - unfold DynamicBuffer.destroy, DynamicBuffer.Buffer_destroy. cbv zeta. cbn [fst snd].
    cbn [DynamicBuffer.mBuffer DynamicBuffer.set_mAlignment DynamicBuffer.set_mRetainedBuffers].
    destruct (Z.eqb_spec (DynamicBuffer.mBuffer self) Vk.VK_NULL_HANDLE) as [-> |];
      reflexivity.
  - unfold DynamicBuffer.destroy, DynamicBuffer.DeviceMemory_destroy. cbv zeta. cbn [fst snd].
    cbn [DynamicBuffer.mMemory DynamicBuffer.set_mAlignment DynamicBuffer.set_mRetainedBuffers].
    destruct (Z.eqb_spec (DynamicBuffer.mMemory self) Vk.VK_NULL_HANDLE) as [-> |];
      reflexivity.
  - apply Hidem.
  - intros renderer. reflexivity.
  - intros helper. unfold LineLoopHelper.destroy. cbv zeta. cbn [fst snd].
    cbn [LineLoopHelper.mDynamicIndexBuffer LineLoopHelper.set_mDynamicIndexBuffer].
    rewrite <- surjective_pairing, Hidem. reflexivity.
Qed.

(** ** DynamicBuffer: requests that fit, requests that cannot be served *)

(** X4. [setMinimumSizeForTesting] forces a new buffer at the next request,
    whatever its size: on a buffer that is [valid], the request that follows
    rotates, creates a buffer of [max(roundUp(size, alignment), minSize)]
    bytes with the new floor and, when the driver does not fail, is served at
    offset 0 of the buffer just created. *)
Theorem setMinimumSizeForTesting_forces_rotation (minSize sizeInBytes : Z)
  (self : DynamicBuffer.t) (renderer : RendererVk.t) :
  0 < DynamicBuffer.mAlignment self ->
  0 <= DynamicBuffer.mNextAllocationOffset self ->
  Trace.neverFails (RendererVk.mDevice renderer) ->
  let self0 := DynamicBuffer.setMinimumSizeForTesting minSize self in
  let need := Machine.roundUp sizeInBytes (DynamicBuffer.mAlignment self) in
  let d := RendererVk.mDevice renderer in
  let h := Device.nextHandle d in
  DynamicBuffer.needsNewBuffer need self0 = true
  /\ exists out self' renderer',
       DynamicBuffer.allocate sizeInBytes true true (self0, renderer)
       = (Ok out, (self', renderer'))
       /\ DynamicBuffer.offsetOut out = 0
       /\ DynamicBuffer.handleOut out = Some h
       /\ DynamicBuffer.newBufferAllocatedOut out = Some true
       /\ DynamicBuffer.mBuffer self' = h
       /\ In (Device.CreateBuffer
                {| Vk.bci_flags := 0;
                   Vk.bci_size := Z.max need minSize;
                   Vk.bci_usage := DynamicBuffer.mUsage self;
                   Vk.bci_sharingMode := Vk.VK_SHARING_MODE_EXCLUSIVE;
                   Vk.bci_queueFamilyIndexCount := 0 |} Vk.VK_SUCCESS h)
            (Device.calls (RendererVk.mDevice renderer')).
Proof.
  intros Hvalid Hnext Hok self0 need d h.
  assert (Hvalid0 : DynamicBuffer.mAlignment self0 <> 0) by (cbn; lia).
  assert (Hrot : DynamicBuffer.needsNewBuffer
                   (Machine.roundUp sizeInBytes (DynamicBuffer.mAlignment self0)) self0
                 = true).
  { apply needsNewBuffer_true. right. cbn.
    pose proof (roundUp_range sizeInBytes (DynamicBuffer.mAlignment self) Hvalid). lia. }
  split; [exact Hrot |].
  destruct (allocate_rotate_success sizeInBytes true true self0 renderer Hvalid0 Hok)
    as (out & [self' renderer'] & Hrun & _).
  destruct (allocate_rotate_Ok _ _ _ _ _ _ _ _ Hvalid0 Hrot Hrun)
    as (-> & -> & _ & _ & _ & Hcalls & _).
  eexists _, _, renderer'. split; [exact Hrun |].
  repeat split.
  rewrite Hcalls. apply in_or_app. right. unfold Trace.rotationCalls.
  apply in_or_app. right. left. reflexivity.
Qed.

(** X4, witness: scenario S1 after its first two requests. The floor is
    set to 2 MiB; a request of 4 bytes, which would fit, gets a new buffer
    of 2 MiB. *)
Lemma setMinimumSizeForTesting_forces_rotation_witness :
  let s2 := snd (DynamicBuffer.allocateAll [300; 500]
                   (Scenario.dynamicBuffer 1048576 256 1048576)) in
  DynamicBuffer.needsNewBuffer 256 (fst s2) = false
  /\ DynamicBuffer.needsNewBuffer 256 (DynamicBuffer.setMinimumSizeForTesting 2097152 (fst s2))
     = true.
Proof.
  cbv zeta.
  set (s2 := snd (DynamicBuffer.allocateAll [300; 500]
                    (Scenario.dynamicBuffer 1048576 256 1048576))).
  split; [vm_compute; reflexivity |].
  refine (proj1 (setMinimumSizeForTesting_forces_rotation 2097152 4 (fst s2) (snd s2) _ _ _)).
  - vm_compute. reflexivity.
  - vm_compute. discriminate.
  - vm_compute. constructor.
Defined.

(** X5. A request that fits in the backing in use is served without any
    driver call and without touching the renderer: the offset handed out is
    the next offset, the region [offset, offset + size) lies inside the
    backing, the handle is the one in use, the new-buffer flag is false and
    the pointer is the mapping advanced by the offset. Nothing but the next
    offset changes, which moves on by the size rounded up. *)
Theorem allocate_fitting_request (sizeInBytes : Z) (self : DynamicBuffer.t)
  (renderer : RendererVk.t) :
  let A := DynamicBuffer.mAlignment self in
  let need := Machine.roundUp sizeInBytes A in
  0 < A -> 0 <= sizeInBytes -> sizeInBytes + A - 1 < 2 ^ 64 ->
  0 <= DynamicBuffer.mNextAllocationOffset self ->
  DynamicBuffer.mNextAllocationOffset self + need < DynamicBuffer.mSize self ->
  DynamicBuffer.mSize self <= 2 ^ 32 ->
  exists out,
    DynamicBuffer.allocate sizeInBytes true true (self, renderer)
    = (Ok out,
       (DynamicBuffer.set_mNextAllocationOffset
          (DynamicBuffer.mNextAllocationOffset self + need) self, renderer))
    /\ DynamicBuffer.offsetOut out = DynamicBuffer.mNextAllocationOffset self
    /\ DynamicBuffer.offsetOut out + sizeInBytes < DynamicBuffer.mSize self
    /\ DynamicBuffer.handleOut out = Some (DynamicBuffer.mBuffer self)
    /\ DynamicBuffer.newBufferAllocatedOut out = Some false
    /\ DynamicBuffer.ptrOut out
       = DynamicBuffer.pointerAdd (DynamicBuffer.mMappedMemory self)
           (DynamicBuffer.mNextAllocationOffset self).
Proof.
  intros A need HA Hsize Hno Hnext Hfit Hback.
  pose proof (roundUp_least sizeInBytes A HA Hsize Hno) as Hround. fold need in Hround.
  assert (Hvalid : DynamicBuffer.mAlignment self <> 0) by (fold A; lia).
  assert (Hreuse : DynamicBuffer.needsNewBuffer
                     (Machine.roundUp sizeInBytes (DynamicBuffer.mAlignment self)) self
                   = false).
  { apply needsNewBuffer_false. fold A. fold need. unfold Machine.SIZE_MAX. lia. }
  rewrite (allocate_reuse _ true true _ _ Hvalid Hreuse). fold A. fold need.
  rewrite (to_uint32_small need) by lia.
  rewrite (to_uint32_small (DynamicBuffer.mNextAllocationOffset self + need)) by lia.
  eexists. split; [reflexivity |]. cbn. repeat split. lia.
Qed.

(** X5, witness: scenario S1. The second request (500 bytes, served at
    offset 512 after the 300 bytes rounded up to the alignment of 256) fits
    in the buffer of 1 MiB. *)
Lemma allocate_fitting_request_witness :
  let s1 := snd (DynamicBuffer.allocate 300 true true
                   (Scenario.dynamicBuffer 1048576 256 1048576)) in
  exists out,
    fst (DynamicBuffer.allocate 500 true true s1) = Ok out
    /\ DynamicBuffer.offsetOut out = 512
    /\ DynamicBuffer.offsetOut out + 500 < 1048576
    /\ snd (snd (DynamicBuffer.allocate 500 true true s1)) = snd s1.
Proof.
  cbv zeta.
  set (s1 := snd (DynamicBuffer.allocate 300 true true
                    (Scenario.dynamicBuffer 1048576 256 1048576))).
  destruct (allocate_fitting_request 500 (fst s1) (snd s1)) as (out & Hrun & Ho & Hin & _).
  - vm_compute. reflexivity.
  - lia.
  - vm_compute. reflexivity.
  - vm_compute. discriminate.
  - vm_compute. reflexivity.
  - vm_compute. discriminate.
  - exists out. rewrite (surjective_pairing s1), Hrun. cbn [fst snd].
    split; [reflexivity |]. split; [rewrite Ho; vm_compute; reflexivity |].
    split; [| reflexivity].
    replace 1048576 with (DynamicBuffer.mSize (fst s1)) by (vm_compute; reflexivity).
    exact Hin.
Defined.

(** A rotation that fails has not reset the offsets. Either the flush of
    the backing in use failed and the buffer is as it was, or the backing in
    use has been unmapped and retained. *)
Lemma rotate_Err (need : Z) (e : Vk.VkResult) (self self1 : DynamicBuffer.t)
  (renderer renderer1 : RendererVk.t) :
  DynamicBuffer.rotate need (self, renderer) = (Err e, (self1, renderer1)) ->
  DynamicBuffer.mNextAllocationOffset self1 = DynamicBuffer.mNextAllocationOffset self
  /\ RendererVk.mGarbage renderer1 = RendererVk.mGarbage renderer
  /\ Device.hostWrites (RendererVk.mDevice renderer1)
     = Device.hostWrites (RendererVk.mDevice renderer)
  /\ ((self1 = self /\ DynamicBuffer.isMapped self = true)
      \/ (DynamicBuffer.mMappedMemory self1 = None
          /\ DynamicBuffer.mRetainedBuffers self1
             = DynamicBuffer.mRetainedBuffers self
               ++ [{| DynamicBuffer.buffer := DynamicBuffer.mBuffer self;
                      DynamicBuffer.memory := DynamicBuffer.mMemory self |}])).
Proof.
  unfold DynamicBuffer.rotate, DynamicBuffer.this, DynamicBuffer.assign,
    DynamicBuffer.AllocateBufferMemory, DynamicBuffer.onDevice, zoom, modify, bind, ret,
    DynamicBuffer.isMapped, DynamicBuffer.flush, DynamicBuffer.this, bind, ret,
    DynamicBuffer.mBuffer_init, DynamicBuffer.mMemory_map, DynamicBuffer.mMemory_unmap,
    DynamicBuffer.assign, modify,
    Device.ANGLE_VK_TRY, Device.vkFlushMappedMemoryRanges, Device.call, Device.create.
  cbn [fst snd].
  destruct (DynamicBuffer.mMappedMemory self) as [mapped |] eqn:Hmapped;
    cbn [fst snd];
    repeat match goal with
           | |- context [if ?a <? ?b then _ else _] =>
               destruct (a <? b); cbn [fst snd]
           | |- context [match Device.nextResult ?d with _ => _ end] =>
               destruct (Device.nextResult d) eqn:?; cbn [fst snd]
           end;
    intros H; try discriminate; injection H as <- <- <-; cbn;
    repeat split; auto.
Qed.

(** X6. A request that comes back with a driver error has handed out
    nothing: it was a request that needed a new buffer, the next offset is
    where it was, and neither the deferred-release queue nor the mapped
    memory has been touched. Either the flush of the backing in use failed
    and the buffer is as it was, or the backing in use has already been
    unmapped and put among the retained buffers, and the buffer is left
    without a mapping. *)
Theorem allocate_failure_hands_out_nothing (sizeInBytes : Z)
  (handleRequested flagRequested : bool) (e : Vk.VkResult)
  (self self' : DynamicBuffer.t) (renderer renderer' : RendererVk.t) :
  DynamicBuffer.allocate sizeInBytes handleRequested flagRequested (self, renderer)
  = (Err e, (self', renderer')) ->
  DynamicBuffer.needsNewBuffer
    (Machine.roundUp sizeInBytes (DynamicBuffer.mAlignment self)) self = true
  /\ DynamicBuffer.mNextAllocationOffset self' = DynamicBuffer.mNextAllocationOffset self
  /\ RendererVk.mGarbage renderer' = RendererVk.mGarbage renderer
  /\ Device.hostWrites (RendererVk.mDevice renderer')
     = Device.hostWrites (RendererVk.mDevice renderer)
  /\ ((self' = self /\ DynamicBuffer.isMapped self = true)
      \/ (DynamicBuffer.mMappedMemory self' = None
          /\ DynamicBuffer.mRetainedBuffers self'
             = DynamicBuffer.mRetainedBuffers self
               ++ [{| DynamicBuffer.buffer := DynamicBuffer.mBuffer self;
                      DynamicBuffer.memory := DynamicBuffer.mMemory self |}])).
Proof.
  intros Hrun.
  destruct (Z.eq_dec (DynamicBuffer.mAlignment self) 0) as [Hzero | Hvalid].
  { unfold DynamicBuffer.allocate, DynamicBuffer.this, bind in Hrun. cbn [fst snd] in Hrun.
    rewrite Hzero in Hrun. discriminate. }
  destruct (DynamicBuffer.needsNewBuffer
              (Machine.roundUp sizeInBytes (DynamicBuffer.mAlignment self)) self) eqn:Hrot.
  - split; [reflexivity |].
    pose proof (allocate_rotate_run sizeInBytes handleRequested flagRequested self renderer
                  Hvalid Hrot) as Hcase.
    destruct (DynamicBuffer.rotate _ (self, renderer)) as [[[] | e' |] [self1 r1]] eqn:Hr.
    + destruct Hcase as (out & Hout). rewrite Hrun in Hout. discriminate.
    + rewrite Hrun in Hcase. injection Hcase as -> -> ->.
      apply (rotate_Err _ _ _ _ _ _ Hr).
    + rewrite Hrun in Hcase. discriminate.
  - rewrite (allocate_reuse _ _ _ _ _ Hvalid Hrot) in Hrun. discriminate.
Qed.

(** X6, witness: scenario S1 with a driver that refuses the second buffer.
    The request of 1 MiB fails with the driver's error; the first buffer has
    been flushed, unmapped and retained, the next offset is still 512, and
    the buffer holds neither a mapping nor a handle: the request of 100
    bytes that follows fits the old size and is served with the null handle
    and no pointer, without any driver call. *)
Lemma allocate_failure_hands_out_nothing_witness :
  let r := Scenario.rendererAnswering
             [Vk.VK_SUCCESS; Vk.VK_SUCCESS; Vk.VK_SUCCESS; Vk.VK_SUCCESS;
              Vk.VK_ERROR_OUT_OF_DEVICE_MEMORY] 1048576 in
  let s0 := (DynamicBuffer.init 256 r
               (DynamicBuffer.DynamicBuffer LineLoopHelper.kLineLoopDynamicBufferUsage 1048576),
             r) in
  let s1 := snd (DynamicBuffer.allocate 300 true true s0) in
  let failed := DynamicBuffer.allocate 1048576 true true s1 in
  let after := DynamicBuffer.allocate 100 true true (snd failed) in
  fst failed = Err Vk.VK_ERROR_OUT_OF_DEVICE_MEMORY
  /\ DynamicBuffer.mNextAllocationOffset (fst (snd failed)) = 512
  /\ DynamicBuffer.mRetainedBuffers (fst (snd failed))
     = [{| DynamicBuffer.buffer := 0; DynamicBuffer.memory := 0 |};
        {| DynamicBuffer.buffer := 1; DynamicBuffer.memory := 2 |}]
  /\ fst after
     = Ok {| DynamicBuffer.ptrOut := None;
             DynamicBuffer.handleOut := Some Vk.VK_NULL_HANDLE;
             DynamicBuffer.offsetOut := 512;
             DynamicBuffer.newBufferAllocatedOut := Some false |}
  /\ snd (snd after) = snd (snd failed).
Proof.
  cbv zeta.
  set (r := Scenario.rendererAnswering _ _).
  set (s0 := (DynamicBuffer.init 256 r _, r)).
  set (s1 := snd (DynamicBuffer.allocate 300 true true s0)).
  set (failed := DynamicBuffer.allocate 1048576 true true s1).
  assert (Hrun : DynamicBuffer.allocate 1048576 true true (fst s1, snd s1)
                 = (Err Vk.VK_ERROR_OUT_OF_DEVICE_MEMORY,
                    (fst (snd failed), snd (snd failed))))
    by (vm_compute; reflexivity).
  destruct (allocate_failure_hands_out_nothing _ _ _ _ _ _ _ _ Hrun)
    as (_ & Hnext & _ & _ & _).
  split; [vm_compute; reflexivity |].
  split; [rewrite Hnext; vm_compute; reflexivity |].
  split; [vm_compute; reflexivity |].
  split; vm_compute; reflexivity.
Defined.

(** ** DynamicDescriptorPool: failures, the ceiling, the first pool *)

(** X7. A call of [allocateSets] that fails charges nothing. When the
    request needed no new pool, the counters of free descriptors and the
    sets count are as they were and the queue is untouched. When it needed
    one, the pool in use has gone to the queue and the counters are those of
    a fresh pool, whether the driver refused the pool or the sets. *)
Theorem allocateSets_failure_charges_nothing (kUniforms kTexture : nat)
  (layout count : Z) (slot : nat) (e : Vk.VkResult)
  (self : DynamicDescriptorPool.t) (renderer : RendererVk.t) :
  (slot < length (DynamicDescriptorPool.mFreeDescriptorSets self))%nat ->
  let res := DynamicDescriptorPool.allocateSets kUniforms kTexture layout count slot
               (self, renderer) in
  let self' := fst (snd res) in
  fst res = Err e ->
  if DynamicDescriptorPool.needsNewPool count slot self
  then RendererVk.mGarbage (snd (snd res))
       = RendererVk.mGarbage renderer
         ++ [(RendererVk.mCurrentQueueSerial renderer,
              {| RendererVk.kind := RendererVk.DescriptorPoolObject;
                 RendererVk.handle := DynamicDescriptorPool.mCurrentDescriptorPool self |})]
       /\ DynamicDescriptorPool.mCurrentSetsCount self' = 0
       /\ forall i,
            (i < length (DynamicDescriptorPool.mFreeDescriptorSets self))%nat ->
            DynamicDescriptorPool.mFreeDescriptorSets self' !! i
            = Some (Capacity.ofSlot kUniforms kTexture i
                      (DynamicDescriptorPool.mPoolSizes self))
  else RendererVk.mGarbage (snd (snd res)) = RendererVk.mGarbage renderer
       /\ DynamicDescriptorPool.mCurrentSetsCount self'
          = DynamicDescriptorPool.mCurrentSetsCount self
       /\ DynamicDescriptorPool.mFreeDescriptorSets self'
          = DynamicDescriptorPool.mFreeDescriptorSets self.
Proof.
  intros Hslot res self' Herr.
  destruct (allocateSets_cases kUniforms kTexture layout count slot self renderer Hslot)
    as (Hg & _ & _ & _ & Hcases).
  fold res in Hg, Hcases. fold self' in Hcases.
  destruct Hcases as [(Hok & _) | (_ & Hfree & Hcount)];
    [rewrite Hok in Herr; discriminate |].
  destruct (DynamicDescriptorPool.needsNewPool count slot self).
  - split; [exact Hg |]. split; [exact Hcount |].
    intros i Hi. rewrite Hfree. apply fresh_pool_lookup. exact Hi.
  - rewrite app_nil_r in Hg. auto.
Qed.

(** X7, witness: scenario S3 with a driver that refuses the sets. The
    request needs no new pool; the eight uniform descriptors are still
    free. *)
Lemma allocateSets_failure_charges_nothing_witness :
  let state := (fst Scenario.descriptorPool,
                Scenario.rendererAnswering [Vk.VK_ERROR_OUT_OF_POOL_MEMORY] 0) in
  let res := DynamicDescriptorPool.allocateSets 0%nat 1%nat 77 1 0%nat state in
  fst res = Err Vk.VK_ERROR_OUT_OF_POOL_MEMORY
  /\ DynamicDescriptorPool.mFreeDescriptorSets (fst (snd res)) = [8; 8; 0]
  /\ DynamicDescriptorPool.mCurrentSetsCount (fst (snd res)) = 0.
Proof.
  cbv zeta.
  set (state := (fst Scenario.descriptorPool, Scenario.rendererAnswering _ 0)).
  assert (Hslot : (0 < length (DynamicDescriptorPool.mFreeDescriptorSets
                                 (fst Scenario.descriptorPool)))%nat)
    by (vm_compute; lia).
  assert (Herr : fst (DynamicDescriptorPool.allocateSets 0%nat 1%nat 77 1 0%nat state)
                 = Err Vk.VK_ERROR_OUT_OF_POOL_MEMORY) by (vm_compute; reflexivity).
  pose proof (allocateSets_failure_charges_nothing 0%nat 1%nat 77 1 0%nat
                Vk.VK_ERROR_OUT_OF_POOL_MEMORY (fst Scenario.descriptorPool)
                (Scenario.rendererAnswering [Vk.VK_ERROR_OUT_OF_POOL_MEMORY] 0)
                Hslot Herr) as Hkept.
  replace (DynamicDescriptorPool.needsNewPool 1 0%nat (fst Scenario.descriptorPool))
    with false in Hkept by (vm_compute; reflexivity).
  destruct Hkept as (_ & Hcount & Hfree).
  split; [exact Herr |]. split.
  - change state with (fst Scenario.descriptorPool,
                       Scenario.rendererAnswering [Vk.VK_ERROR_OUT_OF_POOL_MEMORY] 0).
    rewrite Hfree. vm_compute. reflexivity.
  - change state with (fst Scenario.descriptorPool,
                       Scenario.rendererAnswering [Vk.VK_ERROR_OUT_OF_POOL_MEMORY] 0).
    rewrite Hcount. vm_compute. reflexivity.
Defined.

(** X8. With the ceiling set to zero by [setMaxSetsPerPoolForTesting],
    every call of [allocateSets] needs a new pool: the pool in use goes to
    the queue each time, and after a call that succeeds the sets count is 1,
    above the ceiling. *)
Theorem allocateSets_zero_ceiling (kUniforms kTexture : nat) (layout count : Z) (slot : nat)
  (self : DynamicDescriptorPool.t) (renderer : RendererVk.t) :
  (slot < length (DynamicDescriptorPool.mFreeDescriptorSets self))%nat ->
  0 <= DynamicDescriptorPool.mCurrentSetsCount self ->
  let self0 := DynamicDescriptorPool.setMaxSetsPerPoolForTesting 0 self in
  let res := DynamicDescriptorPool.allocateSets kUniforms kTexture layout count slot
               (self0, renderer) in
  DynamicDescriptorPool.needsNewPool count slot self0 = true
  /\ RendererVk.mGarbage (snd (snd res))
     = RendererVk.mGarbage renderer
       ++ [(RendererVk.mCurrentQueueSerial renderer,
            {| RendererVk.kind := RendererVk.DescriptorPoolObject;
               RendererVk.handle := DynamicDescriptorPool.mCurrentDescriptorPool self |})]
  /\ DynamicDescriptorPool.mMaxSetsPerPool (fst (snd res)) = 0
  /\ (fst res = Ok tt ->
      DynamicDescriptorPool.mCurrentSetsCount (fst (snd res)) = 1
      /\ DynamicDescriptorPool.needsNewPool count slot (fst (snd res)) = true).
Proof.
  intros Hslot Hcount self0 res.
  assert (Hrot : DynamicDescriptorPool.needsNewPool count slot self0 = true).
  { unfold DynamicDescriptorPool.needsNewPool. apply orb_true_iff. right.
    apply Z.leb_le. cbn. exact Hcount. }
  destruct (allocateSets_cases kUniforms kTexture layout count slot self0 renderer Hslot)
    as (Hg & _ & Hmax & _ & Hcases).
  fold res in Hg, Hmax, Hcases. rewrite Hrot in Hg, Hcases.
  split; [exact Hrot |]. split; [exact Hg |]. split; [exact Hmax |].
  intros Hok. destruct Hcases as [(_ & _ & Hc & _) | ((e & Herr) & _)].
  - assert (Hone : DynamicDescriptorPool.mCurrentSetsCount (fst (snd res)) = 1) by exact Hc.
    split; [exact Hone |].
    unfold DynamicDescriptorPool.needsNewPool.
    apply orb_true_iff. right. apply Z.leb_le. rewrite Hmax, Hone. cbn. lia.
  - rewrite Herr in Hok. discriminate.
Qed.

(** X8, witness: scenario S3 with the ceiling at zero. One set is asked
    for; the pool of [init] goes to the queue under serial 7 and the sets
    count ends at 1. *)
Lemma allocateSets_zero_ceiling_witness :
  let self0 := DynamicDescriptorPool.setMaxSetsPerPoolForTesting 0
                 (fst Scenario.descriptorPool) in
  let res := DynamicDescriptorPool.allocateSets 0%nat 1%nat 77 1 0%nat
               (self0, snd Scenario.descriptorPool) in
  fst res = Ok tt
  /\ DynamicDescriptorPool.mCurrentSetsCount (fst (snd res)) = 1
  /\ DynamicDescriptorPool.mMaxSetsPerPool (fst (snd res)) = 0.
Proof.
  cbv zeta.
  destruct (allocateSets_zero_ceiling 0%nat 1%nat 77 1 0%nat (fst Scenario.descriptorPool)
              (snd Scenario.descriptorPool)) as (_ & _ & Hmax & Hok).
  - vm_compute. lia.
  - vm_compute. discriminate.
  - assert (Hrun : fst (DynamicDescriptorPool.allocateSets 0%nat 1%nat 77 1 0%nat
                          (DynamicDescriptorPool.setMaxSetsPerPoolForTesting 0
                             (fst Scenario.descriptorPool),
                           snd Scenario.descriptorPool)) = Ok tt)
      by (vm_compute; reflexivity).
    split; [exact Hrun |]. split; [exact (proj1 (Hok Hrun)) | exact Hmax].
Defined.

(** X9. [init] on a pool just constructed asks the driver for one pool
    with the recipe. When the driver grants it, the pool holds the handle
    just created, no set is counted, every slot has the capacity of the
    recipe, and the first request that stays within that capacity is served
    from this pool: it needs no new one. When the driver refuses, [init]
    fails with the driver's error and the pool holds no handle. *)
Theorem init_serves_first_request (kUniforms kTexture : nat) (maxSets : Z) (slots : nat)
  (poolSizes : list Vk.VkDescriptorPoolSize) (d : Device.t) (count : Z) (slot : nat) :
  1 <= maxSets ->
  (slot < slots)%nat ->
  count <= Capacity.ofSlot kUniforms kTexture slot poolSizes ->
  let res := DynamicDescriptorPool.init kUniforms kTexture poolSizes
               (DynamicDescriptorPool.DynamicDescriptorPool maxSets slots, d) in
  let self' := fst (snd res) in
  (Device.nextResult d = Vk.VK_SUCCESS ->
   fst res = Ok tt
   /\ DynamicDescriptorPool.mCurrentDescriptorPool self' = Device.nextHandle d
   /\ DynamicDescriptorPool.mCurrentSetsCount self' = 0
   /\ (forall i, (i < slots)%nat ->
                 DynamicDescriptorPool.mFreeDescriptorSets self' !! i
                 = Some (Capacity.ofSlot kUniforms kTexture i poolSizes))
   /\ DynamicDescriptorPool.needsNewPool count slot self' = false)
  /\ (Device.nextResult d <> Vk.VK_SUCCESS ->
      fst res = Err (Device.nextResult d)
      /\ DynamicDescriptorPool.mCurrentDescriptorPool self' = Vk.VK_NULL_HANDLE).
Proof.
  intros Hmax Hslot Hcount res self'.
  set (fresh := DynamicDescriptorPool.set_mPoolSizes poolSizes
                  (DynamicDescriptorPool.DynamicDescriptorPool maxSets slots)).
  assert (Hinit : res = DynamicDescriptorPool.allocateNewPool kUniforms kTexture (fresh, d))
    by reflexivity.
  destruct (allocateNewPool_resets kUniforms kTexture fresh d)
    as (Hc & Hm & _ & Hfree & Hres & Hpool & _).
  rewrite <- Hinit in Hc, Hm, Hfree, Hres, Hpool. fold self' in Hc, Hm, Hfree, Hpool.
  assert (Hlookup : forall i, (i < slots)%nat ->
                      DynamicDescriptorPool.mFreeDescriptorSets self' !! i
                      = Some (Capacity.ofSlot kUniforms kTexture i poolSizes)).
  { intros i Hi. rewrite Hfree. cbn. rewrite length_replicate.
    apply fresh_pool_lookup. exact Hi. }
  split.
  - intros Hok. rewrite decide_True in Hres by exact Hok.
    rewrite decide_True in Hpool by exact Hok.
    split; [exact Hres |]. split; [exact Hpool |]. split; [exact Hc |].
    split; [exact Hlookup |].
    unfold DynamicDescriptorPool.needsNewPool. rewrite (Hlookup slot Hslot), Hc, Hm.
    cbn. apply orb_false_iff. split; [apply Z.ltb_ge; exact Hcount | apply Z.leb_gt; lia].
  - intros Hfail. rewrite decide_False in Hres by exact Hfail.
    rewrite decide_False in Hpool by exact Hfail.
    split; [exact Hres | exact Hpool].
Qed.

(** X9, witness: the pool of scenarios S3 and S4. *)
Lemma init_serves_first_request_witness :
  let res := DynamicDescriptorPool.init 0%nat 1%nat Scenario.poolSizes
               (DynamicDescriptorPool.DynamicDescriptorPool 2 3, Scenario.device 0) in
  fst res = Ok tt
  /\ DynamicDescriptorPool.mFreeDescriptorSets (fst (snd res)) !! 0%nat = Some 8
  /\ DynamicDescriptorPool.needsNewPool 5 0%nat (fst (snd res)) = false.
Proof.
  cbv zeta.
  destruct (init_serves_first_request 0%nat 1%nat 2 3 Scenario.poolSizes (Scenario.device 0)
              5 0%nat) as [Hok _].
  - lia.
  - lia.
  - vm_compute. discriminate.
  - destruct (Hok eq_refl) as (Hres & _ & _ & Hfree & Hfirst).
    split; [exact Hres |]. split; [| exact Hfirst].
    rewrite (Hfree 0%nat) by lia. vm_compute. reflexivity.
Defined.

(** ** LineLoopHelper: the other paths of the entry points *)

(** The handle [allocate] hands out is the handle of the buffer in use
    when it returns. *)
Lemma allocate_Ok_handle (sizeInBytes : Z) (handleRequested flagRequested : bool)
  (self self1 : DynamicBuffer.t) (renderer renderer1 : RendererVk.t)
  (out : DynamicBuffer.AllocateOut) :
  DynamicBuffer.allocate sizeInBytes handleRequested flagRequested (self, renderer)
  = (Ok out, (self1, renderer1)) ->
  DynamicBuffer.handleOut out
  = (if handleRequested then Some (DynamicBuffer.mBuffer self1) else None).
Proof.
  intros Hrun.
  destruct (Z.eq_dec (DynamicBuffer.mAlignment self) 0) as [Hzero | Hvalid].
  { unfold DynamicBuffer.allocate, DynamicBuffer.this, bind in Hrun. cbn [fst snd] in Hrun.
    rewrite Hzero in Hrun. discriminate. }
  destruct (DynamicBuffer.needsNewBuffer
              (Machine.roundUp sizeInBytes (DynamicBuffer.mAlignment self)) self) eqn:Hrot.
  - destruct (allocate_rotate_Ok _ _ _ _ _ _ _ _ Hvalid Hrot Hrun) as (-> & -> & _).
    reflexivity.
  - rewrite (allocate_reuse _ _ _ _ _ Hvalid Hrot) in Hrun. injection Hrun as <- <- <-.
    reflexivity.
Qed.

(** [flush] of the index buffer leaves the commands of the helper alone. *)
Lemma lineLoop_flush_commands (helper : LineLoopHelper.t) (renderer : RendererVk.t) :
  LineLoopHelper.mCommands
    (fst (snd (LineLoopHelper.onDevice (LineLoopHelper.onIndexBuffer DynamicBuffer.flush)
                 (helper, renderer))))
  = LineLoopHelper.mCommands helper.
Proof. rewrite lineLoop_onDevice_run, onIndexBuffer_run. reflexivity. Qed.

(** X10. [getIndexBufferForElementArrayBuffer] on [indexCount] indices of
    a device buffer ([indexCount + 1] an [int]): when the allocation of
    [(indexCount + 1) * unit] bytes and the flush succeed, the call records exactly one buffer copy of two
    regions from the element array buffer into the buffer in use. The first
    region copies the [indexCount] indices to the offset of the allocation;
    the second copies one unit from the same source offset, the first index,
    right behind them. The two regions fill the allocation exactly. The
    element array buffer gets the helper's node as a reader, and nothing is
    written through the host pointer. *)
Theorem getIndexBufferForElementArrayBuffer_copies (helper : LineLoopHelper.t)
  (renderer : RendererVk.t) (elementArrayBufferVk : BufferVk.t) (indexType : Vk.VkIndexType)
  (indexCount elementArrayOffset : Z)
  (alloc : DynamicBuffer.AllocateOut) (self1 : DynamicBuffer.t) (renderer1 : RendererVk.t) :
  let unit := LineLoopHelper.unitSizeOf indexType in
  let dst := DynamicBuffer.offsetOut alloc in
  0 <= indexCount ->
  indexCount + 1 < 2 ^ 31 ->
  0 <= elementArrayOffset < 2 ^ 63 ->
  DynamicBuffer.allocate (unit * (indexCount + 1)) true false
    (DynamicBuffer.releaseRetainedBuffers (LineLoopHelper.mDynamicIndexBuffer helper, renderer))
  = (Ok alloc, (self1, renderer1)) ->
  0 <= dst < 2 ^ 32 ->
  Device.nextResult (RendererVk.mDevice renderer1) = Vk.VK_SUCCESS ->
  let copy1 := {| Vk.srcOffset := elementArrayOffset;
                  Vk.dstOffset := dst;
                  Vk.size := indexCount * unit |} in
  let copy2 := {| Vk.srcOffset := elementArrayOffset;
                  Vk.dstOffset := dst + indexCount * unit;
                  Vk.size := unit |} in
  exists helper' renderer',
    LineLoopHelper.getIndexBufferForElementArrayBuffer elementArrayBufferVk indexType
      indexCount elementArrayOffset (helper, renderer)
    = (Ok ({| LineLoopHelper.bufferHandleOut := Some (DynamicBuffer.mBuffer self1);
              LineLoopHelper.offsetOut := dst |},
           BufferVk.addReadDependency (LineLoopHelper.mCurrentWritingNode helper)
             elementArrayBufferVk),
       (helper', renderer'))
    /\ LineLoopHelper.mCommands helper'
       = LineLoopHelper.mCommands helper
         ++ [CommandBuffer.copyBuffer (BufferVk.mBuffer elementArrayBufferVk)
               (DynamicBuffer.mBuffer self1) 2 [copy1; copy2]]
    /\ Vk.dstOffset copy2 = Vk.dstOffset copy1 + Vk.size copy1
    /\ Vk.size copy1 + Vk.size copy2 = unit * (indexCount + 1)
    /\ Device.hostWrites (RendererVk.mDevice renderer')
       = Device.hostWrites (RendererVk.mDevice renderer1)
    /\ Device.calls (RendererVk.mDevice renderer')
       = Device.calls (RendererVk.mDevice renderer1) ++ Expected.flushCalls self1.
Proof.
  intros unit dst Hcount Hint Hoffset Halloc Hdst Hok copy1 copy2.
  assert (Hunit : unit = 2 \/ unit = 4) by (subst unit; destruct indexType; auto).
  pose proof (allocate_Ok_handle _ _ _ _ _ _ _ _ Halloc) as Hhandle. cbv iota in Hhandle.
  set (helper0 :=
         LineLoopHelper.set_mDynamicIndexBuffer self1
           (LineLoopHelper.set_mDynamicIndexBuffer
              (fst (DynamicBuffer.releaseRetainedBuffers
                      (LineLoopHelper.mDynamicIndexBuffer helper, renderer))) helper)).
  set (helper1 :=
         LineLoopHelper.set_mCommands
           (CommandBuffer.record
              (CommandBuffer.copyBuffer (BufferVk.mBuffer elementArrayBufferVk)
                 (DynamicBuffer.mBuffer self1) 2 [copy1; copy2])
              (LineLoopHelper.mCommands helper0)) helper0).
  destruct (lineLoop_flush_run helper1 renderer1 Hok)
    as (helper' & renderer' & Hflush & Hw' & Hc' & _).
  exists helper', renderer'.
  split; [| split; [| split; [| split; [| split]]]].
  - unfold LineLoopHelper.getIndexBufferForElementArrayBuffer. cbv zeta. fold unit.
    rewrite (add_int_small indexCount 1) by lia.
    rewrite (to_size_t_small (indexCount + 1)) by lia.
    rewrite (to_size_t_small (unit * (indexCount + 1))) by lia.
    rewrite (to_size_t_small indexCount) by lia.
    rewrite (to_size_t_small elementArrayOffset) by lia.
    rewrite (to_size_t_small (indexCount * unit)) by lia.
    rewrite modify_bind. cbn [fst snd].
    erewrite bind_Ok;
      [| rewrite onIndexBuffer_run;
         cbn [fst snd LineLoopHelper.mDynamicIndexBuffer LineLoopHelper.set_mDynamicIndexBuffer];
         rewrite <- surjective_pairing, Halloc; reflexivity].
    cbn [fst snd]. fold helper0. fold dst.
    rewrite (to_size_t_small (dst + indexCount * unit)) by lia.
    rewrite Hhandle. cbn [default from_option id].
    unfold bind at 1. cbn [fst snd]. rewrite modify_bind. cbn [fst snd].
    change (BufferVk.mBuffer
              (BufferVk.addReadDependency (LineLoopHelper.mCurrentWritingNode helper0)
                 elementArrayBufferVk))
      with (BufferVk.mBuffer elementArrayBufferVk).
    fold copy1 copy2. fold helper1.
    erewrite bind_Ok; [| exact Hflush]. reflexivity.
  - pose proof (lineLoop_flush_commands helper1 renderer1) as Hkeep.
    rewrite Hflush in Hkeep. cbn [fst snd] in Hkeep. rewrite Hkeep. reflexivity.
  - reflexivity.
  - cbn. lia.
  - exact Hw'.
  - rewrite Hc'. reflexivity.
Qed.

(** X10, witness: three 16-bit indices at byte 6 of the element array
    buffer 50. Six bytes go to offset 0 of the new buffer and the two bytes
    of the first index behind them, at offset 6. *)
Lemma getIndexBufferForElementArrayBuffer_copies_witness :
  let elementArrayBufferVk :=
    {| BufferVk.mBuffer := 50; BufferVk.mCurrentReadingNodes := [] |} in
  let run := LineLoopHelper.getIndexBufferForElementArrayBuffer elementArrayBufferVk
               Vk.VK_INDEX_TYPE_UINT16 3 6 (Scenario.lineLoopHelper 1048576) in
  fst run
  = Ok ({| LineLoopHelper.bufferHandleOut := Some 1; LineLoopHelper.offsetOut := 0 |},
        {| BufferVk.mBuffer := 50; BufferVk.mCurrentReadingNodes := [1] |})
  /\ LineLoopHelper.mCommands (fst (snd run))
     = [CommandBuffer.copyBuffer 50 1 2
          [{| Vk.srcOffset := 6; Vk.dstOffset := 0; Vk.size := 6 |};
           {| Vk.srcOffset := 6; Vk.dstOffset := 6; Vk.size := 2 |}]].
Proof.
  cbv zeta.
  set (helper := fst (Scenario.lineLoopHelper 1048576)).
  set (renderer := snd (Scenario.lineLoopHelper 1048576)).
  set (res := DynamicBuffer.allocate 8 true false
                (DynamicBuffer.releaseRetainedBuffers
                   (LineLoopHelper.mDynamicIndexBuffer helper, renderer))).
  destruct (getIndexBufferForElementArrayBuffer_copies helper renderer
              {| BufferVk.mBuffer := 50; BufferVk.mCurrentReadingNodes := [] |}
              Vk.VK_INDEX_TYPE_UINT16 3 6
              {| DynamicBuffer.ptrOut := Some {| Device.region := 2; Device.byteOffset := 0 |};
                 DynamicBuffer.handleOut := Some 1;
                 DynamicBuffer.offsetOut := 0;
                 DynamicBuffer.newBufferAllocatedOut := None |}
              (fst (snd res)) (snd (snd res)))
    as (helper' & renderer' & Hrun & Hcmd & _).
  - lia.
  - lia.
  - lia.
  - vm_compute. reflexivity.
  - cbn. lia.
  - vm_compute. reflexivity.
  - change (Scenario.lineLoopHelper 1048576) with (helper, renderer).
    rewrite Hrun. cbn [fst snd]. split; [vm_compute; reflexivity |].
    rewrite Hcmd. vm_compute. reflexivity.
Defined.

(** X11. [getIndexBufferForClientElementArray] on [n] client indices of
    16 or 32 bits ([n] at least one with [n + 1] an [int], the source
    readable over [n * unit] bytes): when the allocation of
    [(n + 1) * unit] bytes and the flush succeed, the call copies the [n * unit] bytes of the source to the
    pointer of the allocation and the first [unit] bytes of the source, the
    first index, right behind them. The two copies fill the allocation
    exactly. *)
Theorem getIndexBufferForClientElementArray_wide (helper : LineLoopHelper.t)
  (renderer : RendererVk.t) (drawCallParams : Gl.DrawCallParams)
  (alloc : DynamicBuffer.AllocateOut) (self1 : DynamicBuffer.t) (renderer1 : RendererVk.t)
  (p : Device.HostPointer) :
  let n := Gl.indexCount drawCallParams in
  let src := Gl.indices drawCallParams in
  let unit := LineLoopHelper.unitSizeOf (Gl.GetIndexType (Gl.type drawCallParams)) in
  Gl.type drawCallParams <> Gl.GL_UNSIGNED_BYTE ->
  1 <= n ->
  n + 1 < 2 ^ 31 ->
  unit * n <= Z.of_nat (length src) ->
  DynamicBuffer.allocate (unit * (n + 1)) true false
    (LineLoopHelper.mDynamicIndexBuffer helper, renderer)
  = (Ok alloc, (self1, renderer1)) ->
  DynamicBuffer.ptrOut alloc = Some p ->
  Device.nextResult (RendererVk.mDevice renderer1) = Vk.VK_SUCCESS ->
  let body := take (Z.to_nat (unit * n)) src in
  let head := take (Z.to_nat unit) src in
  exists helper' renderer',
    LineLoopHelper.getIndexBufferForClientElementArray drawCallParams (helper, renderer)
    = (Ok {| LineLoopHelper.bufferHandleOut := DynamicBuffer.handleOut alloc;
             LineLoopHelper.offsetOut := DynamicBuffer.offsetOut alloc |},
       (helper', renderer'))
    /\ Device.hostWrites (RendererVk.mDevice renderer')
       = Device.hostWrites (RendererVk.mDevice renderer1)
         ++ [Device.WriteBytes p body;
             Device.WriteBytes (LineLoopHelper.advance p (unit * n)) head]
    /\ Z.of_nat (length body) + Z.of_nat (length head) = unit * (n + 1)
    /\ head = take (Z.to_nat unit) body
    /\ Device.calls (RendererVk.mDevice renderer')
       = Device.calls (RendererVk.mDevice renderer1) ++ Expected.flushCalls self1.
Proof.
  intros n src unit Htype Hn Hint Hsrc Halloc Hptr Hok body head.
  assert (Hunit : unit = 2 \/ unit = 4).
  { subst unit. destruct (Gl.type drawCallParams); cbn; auto. }
  set (helper1 := LineLoopHelper.set_mDynamicIndexBuffer self1 helper).
  set (renderer2 :=
         Expected.writtenAll
           [Device.WriteBytes p body;
            Device.WriteBytes (LineLoopHelper.advance p (unit * n)) head] renderer1).
  destruct (writtenAll_fields
              [Device.WriteBytes p body;
               Device.WriteBytes (LineLoopHelper.advance p (unit * n)) head] renderer1)
    as (Hw & Hc & Hp & _).
  fold renderer2 in Hw, Hc, Hp.
  destruct (lineLoop_flush_run helper1 renderer2)
    as (helper' & renderer' & Hflush & Hw' & Hc' & _).
  { unfold Device.nextResult in *. rewrite Hp. exact Hok. }
  exists helper', renderer'.
  split; [| split; [| split; [| split]]].
  - unfold LineLoopHelper.getIndexBufferForClientElementArray. cbv zeta.
    fold unit. fold n. fold src. rewrite (add_int_small n 1) by lia.
    rewrite (to_size_t_small (n + 1)) by lia.
    rewrite (to_size_t_small (unit * (n + 1))) by lia.
    erewrite bind_Ok; [| rewrite onIndexBuffer_run, Halloc; reflexivity].
    cbn [fst snd]. fold helper1. rewrite Hptr.
    destruct (decide (Gl.type drawCallParams = Gl.GL_UNSIGNED_BYTE)) as [Hbyte | _];
      [contradiction |].
    unfold LineLoopHelper.clientBytes.
    replace ((0 <=? unit * n) && (unit * n <=? Z.of_nat (length src))) with true
      by (symmetry; apply andb_true_iff; split; apply Z.leb_le; lia).
    replace ((0 <=? unit) && (unit <=? Z.of_nat (length src))) with true
      by (symmetry; apply andb_true_iff; split; apply Z.leb_le; lia).
    fold body head.
    erewrite bind_Ok;
      [| erewrite bind_Ok; [| apply store_run]; rewrite store_run; reflexivity].
    rewrite <- (writtenAll_app [Device.WriteBytes p body]). cbn [app]. fold renderer2.
    erewrite bind_Ok; [| exact Hflush]. reflexivity.
  - rewrite Hw', Hw. reflexivity.
  - subst body head. rewrite !length_take. lia.
  - subst body head. rewrite take_take. f_equal. lia.
  - rewrite Hc', Hc. reflexivity.
Qed.

(** X11, witness: two 16-bit client indices, bytes [1,0,2,0]. The four
    bytes are copied, then the two bytes of the first index. *)
Lemma getIndexBufferForClientElementArray_wide_witness :
  let params := {| Gl.mFirstVertex := 0; Gl.mVertexCount := 0; Gl.mIndexCount := 2;
                   Gl.mType := Gl.GL_UNSIGNED_SHORT; Gl.mIndices := [1; 0; 2; 0] |} in
  let run := LineLoopHelper.getIndexBufferForClientElementArray params
               (Scenario.lineLoopHelper 1048576) in
  fst run = Ok {| LineLoopHelper.bufferHandleOut := Some 1; LineLoopHelper.offsetOut := 0 |}
  /\ Device.hostWrites (RendererVk.mDevice (snd (snd run)))
     = [Device.WriteBytes {| Device.region := 2; Device.byteOffset := 0 |} [1; 0; 2; 0];
        Device.WriteBytes {| Device.region := 2; Device.byteOffset := 4 |} [1; 0]].
Proof.
  cbv zeta.
  set (params := {| Gl.mFirstVertex := 0; Gl.mVertexCount := 0; Gl.mIndexCount := 2;
                    Gl.mType := Gl.GL_UNSIGNED_SHORT; Gl.mIndices := [1; 0; 2; 0] |}).
  set (helper := fst (Scenario.lineLoopHelper 1048576)).
  set (renderer := snd (Scenario.lineLoopHelper 1048576)).
  set (res := DynamicBuffer.allocate 6 true false
                (LineLoopHelper.mDynamicIndexBuffer helper, renderer)).
  destruct (getIndexBufferForClientElementArray_wide helper renderer params
              {| DynamicBuffer.ptrOut := Some {| Device.region := 2; Device.byteOffset := 0 |};
                 DynamicBuffer.handleOut := Some 1;
                 DynamicBuffer.offsetOut := 0;
                 DynamicBuffer.newBufferAllocatedOut := None |}
              (fst (snd res)) (snd (snd res))
              {| Device.region := 2; Device.byteOffset := 0 |})
    as (helper' & renderer' & Hrun & Hw & _).
  - discriminate.
  - cbn. lia.
  - cbn. lia.
  - cbn. lia.
  - vm_compute. reflexivity.
  - reflexivity.
  - vm_compute. reflexivity.
  - change (Scenario.lineLoopHelper 1048576) with (helper, renderer).
    rewrite Hrun. cbn [fst snd]. split; [reflexivity |].
    rewrite Hw. vm_compute. reflexivity.
Defined.

(** X12. When the allocation from the dynamic index buffer fails, each of
    the three entry points returns the error of the allocation and stops
    there: the helper and the renderer are left exactly as the failed
    allocation left them, so no index is stored, no command is recorded and
    nothing is flushed. For [getIndexBufferForDrawArrays] and
    [getIndexBufferForElementArrayBuffer] the retained buffers have been
    released before. The index count of the two entry points that take one
    is such that its successor is an [int]. *)
Theorem lineLoop_allocation_failure (helper : LineLoopHelper.t) (renderer : RendererVk.t)
  (drawCallParams : Gl.DrawCallParams) (elementArrayBufferVk : BufferVk.t)
  (indexType : Vk.VkIndexType) (indexCount elementArrayOffset : Z) (e : Vk.VkResult) :
  let released :=
    DynamicBuffer.releaseRetainedBuffers (LineLoopHelper.mDynamicIndexBuffer helper, renderer) in
  let left (a : Result DynamicBuffer.AllocateOut * (DynamicBuffer.t * RendererVk.t)) :=
    (LineLoopHelper.set_mDynamicIndexBuffer (fst (snd a)) helper, snd (snd a)) in
  let forDrawArrays :=
    DynamicBuffer.allocate
      (Machine.to_size_t (4 * Machine.to_size_t (Gl.vertexCount drawCallParams + 1)))
      true false released in
  let forElementArrayBuffer :=
    DynamicBuffer.allocate
      (Machine.to_size_t
         (LineLoopHelper.unitSizeOf indexType * Machine.to_size_t (indexCount + 1)))
      true false released in
  let forClientElementArray :=
    DynamicBuffer.allocate
      (Machine.to_size_t
         (LineLoopHelper.unitSizeOf (Gl.GetIndexType (Gl.type drawCallParams))
          * Machine.to_size_t (Gl.indexCount drawCallParams + 1)))
      true false (LineLoopHelper.mDynamicIndexBuffer helper, renderer) in
  (fst forDrawArrays = Err e ->
   LineLoopHelper.getIndexBufferForDrawArrays drawCallParams (helper, renderer)
   = (Err e, left forDrawArrays))
  /\ (- 2 ^ 31 <= indexCount + 1 < 2 ^ 31 ->
      fst forElementArrayBuffer = Err e ->
      LineLoopHelper.getIndexBufferForElementArrayBuffer elementArrayBufferVk indexType
        indexCount elementArrayOffset (helper, renderer)
      = (Err e, left forElementArrayBuffer))
  /\ (- 2 ^ 31 <= Gl.indexCount drawCallParams + 1 < 2 ^ 31 ->
      fst forClientElementArray = Err e ->
      LineLoopHelper.getIndexBufferForClientElementArray drawCallParams (helper, renderer)
      = (Err e, left forClientElementArray)).
Proof.
  cbv zeta. split; [| split]; [| intros Hint | intros Hint]; intros Herr.
  - unfold LineLoopHelper.getIndexBufferForDrawArrays. cbv zeta. rewrite modify_bind.
    cbn [fst snd]. unfold bind at 1. rewrite onIndexBuffer_run.
    cbn [fst snd LineLoopHelper.mDynamicIndexBuffer LineLoopHelper.set_mDynamicIndexBuffer].
    rewrite <- surjective_pairing, Herr. reflexivity.
  - unfold LineLoopHelper.getIndexBufferForElementArrayBuffer. cbv zeta.
    rewrite (add_int_small _ _ Hint). rewrite modify_bind.
    cbn [fst snd]. unfold bind at 1. rewrite onIndexBuffer_run.
    cbn [fst snd LineLoopHelper.mDynamicIndexBuffer LineLoopHelper.set_mDynamicIndexBuffer].
    rewrite <- surjective_pairing, Herr. reflexivity.
  - unfold LineLoopHelper.getIndexBufferForClientElementArray. cbv zeta.
    rewrite (add_int_small _ _ Hint). unfold bind at 1. rewrite onIndexBuffer_run. cbn [fst snd]. rewrite Herr. reflexivity.
Qed.

(** X12, witness: scenario S6 with a driver that refuses the buffer. The
    draw-arrays call fails with the driver's error, no index is stored and
    the only call the driver has seen is the refused creation. *)
Lemma lineLoop_allocation_failure_witness :
  let r := Scenario.rendererAnswering [Vk.VK_ERROR_OUT_OF_DEVICE_MEMORY] 1048576 in
  let run := LineLoopHelper.getIndexBufferForDrawArrays (Scenario.drawArraysParams 10 4)
               (LineLoopHelper.LineLoopHelper r 1, r) in
  fst run = Err Vk.VK_ERROR_OUT_OF_DEVICE_MEMORY
  /\ Device.hostWrites (RendererVk.mDevice (snd (snd run))) = []
  /\ length (Device.calls (RendererVk.mDevice (snd (snd run)))) = 1%nat
  /\ LineLoopHelper.mCommands (fst (snd run)) = [].
Proof.
  cbv zeta.
  set (r := Scenario.rendererAnswering [Vk.VK_ERROR_OUT_OF_DEVICE_MEMORY] 1048576).
  destruct (lineLoop_allocation_failure (LineLoopHelper.LineLoopHelper r 1) r
              (Scenario.drawArraysParams 10 4)
              {| BufferVk.mBuffer := 50; BufferVk.mCurrentReadingNodes := [] |}
              Vk.VK_INDEX_TYPE_UINT16 3 6 Vk.VK_ERROR_OUT_OF_DEVICE_MEMORY)
    as (Hrun & _).
  rewrite Hrun by (vm_compute; reflexivity).
  cbn [fst snd]. split; [reflexivity |]. repeat split; vm_compute; reflexivity.
Defined.

(** ** ImageHelper: chains of transitions, copies inside one image, sizes *)

Lemma last_cons_default {A : Type} (l : list A) :
  forall (v d1 d2 : A), List.last (v :: l) d1 = List.last (v :: l) d2.
Proof.
  induction l as [| w rest IH]; intros v d1 d2; [reflexivity |].
  change (List.last (w :: rest) d1 = List.last (w :: rest) d2). apply IH.
Qed.

(** X13. Along any run of [changeLayoutWithStages] calls on an image, each
    call records one barrier, also when the layout asked for is the one the
    image is in; the barriers are linked: the first starts from the layout
    the image had, each of the others from the layout the one before ended
    in. The image ends in the last layout asked for. *)
Theorem changeLayoutAll_linked (aspectMask srcStageMask dstStageMask : Z)
  (layouts : list Vk.VkImageLayout) (self : ImageHelper.t)
  (commandBuffer : CommandBuffer.t) :
  let res := ImageHelper.changeLayoutAll aspectMask srcStageMask dstStageMask layouts
               (self, commandBuffer) in
  exists recorded,
    snd res = commandBuffer ++ recorded
    /\ length recorded = length layouts
    /\ Recorded.transitions (ImageHelper.mImage self) recorded
       = zip (ImageHelper.mCurrentLayout self :: layouts) layouts
    /\ ImageHelper.mCurrentLayout (fst res)
       = List.last layouts (ImageHelper.mCurrentLayout self)
    /\ fst res = ImageHelper.set_mCurrentLayout (ImageHelper.mCurrentLayout (fst res)) self.
Proof.
  revert self commandBuffer.
  induction layouts as [| L rest IH]; intros self commandBuffer; cbv zeta.
  - exists []. cbn. rewrite app_nil_r. repeat split. destruct self; reflexivity.
  - change (ImageHelper.changeLayoutAll aspectMask srcStageMask dstStageMask (L :: rest)
              (self, commandBuffer))
      with (ImageHelper.changeLayoutAll aspectMask srcStageMask dstStageMask rest
              (ImageHelper.changeLayoutWithStages aspectMask L srcStageMask dstStageMask
                 (self, commandBuffer))).
    set (s1 := ImageHelper.changeLayoutWithStages aspectMask L srcStageMask dstStageMask
                 (self, commandBuffer)).
    destruct (IH (fst s1) (snd s1)) as (recorded & Hcb & Hlen & Htrans & Hlast & Hself).
    rewrite <- surjective_pairing in Hcb, Hlast, Hself.
    assert (Hs1 : exists c,
               snd s1 = commandBuffer ++ [c]
               /\ Recorded.transitions (ImageHelper.mImage self) [c]
                  = [(ImageHelper.mCurrentLayout self, L)]).
    { subst s1. unfold ImageHelper.changeLayoutWithStages, CommandBuffer.record.
      cbn [fst snd]. eexists. split; [reflexivity |].
      cbn. rewrite Z.eqb_refl. reflexivity. }
    destruct Hs1 as (c & Hc & Hone).
    exists (c :: recorded).
    rewrite Hcb, Hc, <- app_assoc. cbn [app length].
    split; [reflexivity |]. split; [rewrite Hlen; reflexivity |].
    split; [| split].
    + change (c :: recorded) with ([c] ++ recorded).
      unfold Recorded.transitions in *. rewrite flat_map_app, Hone.
      change (ImageHelper.mImage self) with (ImageHelper.mImage (fst s1)).
      rewrite Htrans. reflexivity.
    + rewrite Hlast. change (ImageHelper.mCurrentLayout (fst s1)) with L.
      destruct rest as [| v rest]; [reflexivity |].
      change (List.last (L :: v :: rest) (ImageHelper.mCurrentLayout self))
        with (List.last (v :: rest) (ImageHelper.mCurrentLayout self)).
      apply last_cons_default.
    + rewrite Hself at 1. reflexivity.
Qed.

(** X14. [getSize] never gives a width or a height below 1 and leaves the
    depth alone. For extents that are not negative, level 0 of an image of
    at least one texel is the size of the image, each level is half the
    level before (rounded down, and not below 1), and a level beyond the
    number of bits of a side has a side of 1. *)
Theorem getSize_mip_chain (mipLevel : Z) (self : ImageHelper.t) :
  let w := Gl.width (ImageHelper.mExtents self) in
  let h := Gl.height (ImageHelper.mExtents self) in
  0 <= mipLevel -> mipLevel + 1 < 32 -> 0 <= w -> 0 <= h ->
  exists this next,
    ImageHelper.getSize mipLevel self = Ok this
    /\ ImageHelper.getSize (mipLevel + 1) self = Ok next
    /\ Gl.width next = Z.max 1 (Gl.width this / 2)
    /\ Gl.height next = Z.max 1 (Gl.height this / 2)
    /\ 1 <= Gl.width next <= Gl.width this
    /\ 1 <= Gl.height next <= Gl.height this
    /\ Gl.depth next = Gl.depth (ImageHelper.mExtents self)
    /\ (mipLevel = 0 -> 1 <= w -> 1 <= h ->
        Gl.width this = w /\ Gl.height this = h)
    /\ (w < 2 ^ mipLevel -> Gl.width this = 1).
Proof.
  intros w h Hlevel Hnext Hw Hh.
  unfold ImageHelper.getSize.
  replace ((0 <=? mipLevel) && (mipLevel <? 32)) with true
    by (symmetry; apply andb_true_iff; split; [apply Z.leb_le | apply Z.ltb_lt]; lia).
  replace ((0 <=? mipLevel + 1) && (mipLevel + 1 <? 32)) with true
    by (symmetry; apply andb_true_iff; split; [apply Z.leb_le | apply Z.ltb_lt]; lia).
  eexists _, _. split; [reflexivity |]. split; [reflexivity |].
  cbn [Gl.width Gl.height Gl.depth]. fold w h.
  rewrite !Z.shiftr_div_pow2 by lia.
  assert (Hpow : 0 < 2 ^ mipLevel) by (apply Z.pow_pos_nonneg; lia).
  assert (Hsucc : 2 ^ (mipLevel + 1) = 2 ^ mipLevel * 2) by (rewrite Z.pow_add_r; lia).
  rewrite Hsucc, <- !Z.div_div by lia.
  pose proof (Z.div_pos w (2 ^ mipLevel) Hw Hpow) as Hqw.
  pose proof (Z.div_pos h (2 ^ mipLevel) Hh Hpow) as Hqh.
  set (qw := w / 2 ^ mipLevel) in *. set (qh := h / 2 ^ mipLevel) in *.
  assert (Hhalf : forall q, 0 <= q ->
             Z.max 1 (q / 2) = Z.max 1 (Z.max 1 q / 2)
             /\ 1 <= Z.max 1 (q / 2) <= Z.max 1 q).
  { intros q Hq. pose proof (Z.div_pos q 2 Hq ltac:(lia)).
    assert (q / 2 <= q) by (apply Z.div_le_upper_bound; lia).
    destruct (Z.eq_dec q 0) as [-> |].
    - vm_compute. repeat split; reflexivity || discriminate.
    - rewrite (Z.max_r 1 q) by lia. lia. }
  destruct (Hhalf qw Hqw) as (Hw1 & Hw2). destruct (Hhalf qh Hqh) as (Hh1 & Hh2).
  split; [exact Hw1 |]. split; [exact Hh1 |]. split; [exact Hw2 |]. split; [exact Hh2 |].
  split; [reflexivity |]. split.
  - intros -> Hw1' Hh1'. subst qw qh. rewrite Z.pow_0_r, !Z.div_1_r. lia.
  - intros Hsmall. subst qw. rewrite Z.div_small by lia. reflexivity.
Qed.

(** X14, witness: an image of 16 by 16 texels. Level 3 is 2 by 2 and
    level 4 is 1 by 1. *)
Lemma getSize_mip_chain_witness :
  let self := Scenario.image 10 Vk.VK_IMAGE_LAYOUT_UNDEFINED in
  ImageHelper.getSize 3 self = Ok {| Gl.width := 2; Gl.height := 2; Gl.depth := 1 |}
  /\ ImageHelper.getSize 4 self = Ok {| Gl.width := 1; Gl.height := 1; Gl.depth := 1 |}
  /\ ImageHelper.getSize 32 self = Undefined.
Proof.
  cbv zeta.
  destruct (getSize_mip_chain 3 (Scenario.image 10 Vk.VK_IMAGE_LAYOUT_UNDEFINED))
    as (this & next & Hthis & Hnext & _).
  - lia.
  - lia.
  - cbn. lia.
  - cbn. lia.
  - split; [reflexivity |]. split; reflexivity.
Defined.

(** X15. [Copy] with the same image as source and destination. The image
    is taken to transfer-src-optimal and then on to transfer-dst-optimal,
    unless it is in the general layout, which it keeps. The copy is recorded
    with one and the same layout on both sides: unless the image is in the
    general layout, the layout given for the source is
    transfer-dst-optimal, and the last barrier before the copy is the one
    that takes the image out of transfer-src-optimal. *)
Theorem Copy_same_image (image : Z) (srcOffset dstOffset : Gl.Offset)
  (copySize : Gl.Extents) (aspectMask : Z)
  (images : gmap Z ImageHelper.t) (commandBuffer : CommandBuffer.t) (self : ImageHelper.t) :
  images !! image = Some self ->
  let layout := ImageHelper.mCurrentLayout self in
  let final :=
    if decide (layout = Vk.VK_IMAGE_LAYOUT_GENERAL)
    then Vk.VK_IMAGE_LAYOUT_GENERAL else Vk.VK_IMAGE_LAYOUT_TRANSFER_DST_OPTIMAL in
  exists images' recorded region,
    ImageHelper.Copy image image srcOffset dstOffset copySize aspectMask
      (images, commandBuffer)
    = (Ok tt,
       (images',
        commandBuffer ++ recorded
        ++ [CommandBuffer.copyImage (ImageHelper.mImage self) final
              (ImageHelper.mImage self) final 1 [region]]))
    /\ images' !! image = Some (ImageHelper.set_mCurrentLayout final self)
    /\ (forall p, p <> image -> images' !! p = images !! p)
    /\ Recorded.transitions (ImageHelper.mImage self) recorded
       = (if decide (layout = Vk.VK_IMAGE_LAYOUT_GENERAL) then []
          else (if decide (layout = Vk.VK_IMAGE_LAYOUT_TRANSFER_SRC_OPTIMAL) then []
                else [(layout, Vk.VK_IMAGE_LAYOUT_TRANSFER_SRC_OPTIMAL)])
               ++ [(Vk.VK_IMAGE_LAYOUT_TRANSFER_SRC_OPTIMAL,
                    Vk.VK_IMAGE_LAYOUT_TRANSFER_DST_OPTIMAL)])
    /\ length recorded = length (Recorded.transitions (ImageHelper.mImage self) recorded).
Proof.
  intros Hself layout final. subst final layout.
  unfold ImageHelper.Copy, ImageHelper.deref, ImageHelper.through, bind, ret, modify.
  cbn [fst snd]. rewrite Hself.
  unfold ImageHelper.getCurrentLayout, ImageHelper.getImage, Recorded.transitions.
  destruct self as [hImage hMemory extents format samples allocated layout layers].
  destruct layout;
    repeat first
      [ progress cbn [negb andb fst snd ImageHelper.mCurrentLayout ImageHelper.mImage
                        ImageHelper.mLayerCount]
      | rewrite lookup_insert_eq
      | rewrite Hself
      | progress unfold ImageHelper.changeLayoutWithStages, ImageHelper.set_mCurrentLayout,
          CommandBuffer.record
      | match goal with
        | |- context [bool_decide (?a = ?b)] =>
            first [ rewrite (bool_decide_eq_true_2 (a = b)) by reflexivity
                  | rewrite (bool_decide_eq_false_2 (a = b)) by discriminate ]
        | |- context [decide (?a = ?b)] =>
            first [ rewrite (decide_True (P := a = b)) by reflexivity
                  | rewrite (decide_False (P := a = b)) by discriminate ]
        end ];
    rewrite <- ?app_assoc; cbn [app];
    first [ eexists _, [], _; split; [reflexivity |]
          | eexists _, [_], _; split; [reflexivity |]
          | eexists _, [_; _], _; split; [reflexivity |] ];
    (split; [rewrite ?lookup_insert_eq; try assumption; reflexivity |]);
    (split; [intros p Hp; rewrite ?lookup_insert_ne by congruence; reflexivity |]);
    cbn [flat_map app Vk.image Vk.oldLayout Vk.newLayout length];
    rewrite ?Z.eqb_refl; cbn [app length]; split; reflexivity.
Qed.

(** X15, witness: a copy inside the image at address 100 of the scenario,
    which is in the undefined layout. Two barriers are recorded and the copy
    names transfer-dst-optimal on both sides. *)
Lemma Copy_same_image_witness :
  exists images' recorded region,
    ImageHelper.Copy 100 100 Scenario.origin Scenario.origin Scenario.extents
      Vk.VK_IMAGE_ASPECT_COLOR_BIT (Scenario.images, [])
    = (Ok tt,
       (images',
        recorded
        ++ [CommandBuffer.copyImage 10 Vk.VK_IMAGE_LAYOUT_TRANSFER_DST_OPTIMAL
              10 Vk.VK_IMAGE_LAYOUT_TRANSFER_DST_OPTIMAL 1 [region]]))
    /\ Recorded.transitions 10 recorded
       = [(Vk.VK_IMAGE_LAYOUT_UNDEFINED, Vk.VK_IMAGE_LAYOUT_TRANSFER_SRC_OPTIMAL);
          (Vk.VK_IMAGE_LAYOUT_TRANSFER_SRC_OPTIMAL, Vk.VK_IMAGE_LAYOUT_TRANSFER_DST_OPTIMAL)].
Proof.
  assert (H : Scenario.images !! 100
              = Some (Scenario.image 10 Vk.VK_IMAGE_LAYOUT_UNDEFINED))
    by (vm_compute; reflexivity).
  destruct (Copy_same_image 100 Scenario.origin Scenario.origin Scenario.extents
              Vk.VK_IMAGE_ASPECT_COLOR_BIT Scenario.images []
              (Scenario.image 10 Vk.VK_IMAGE_LAYOUT_UNDEFINED) H)
    as (images' & recorded & region & Hrun & _ & _ & Htrans & _).
  exists images', recorded, region. split; [exact Hrun | exact Htrans].
Defined.

(** ** DynamicBuffer: no handle is lost *)

(** Whatever a rotation comes to, the handles held before are still held,
    and so is every handle the driver created on the way. *)
Lemma rotate_handles (need : Z) (self : DynamicBuffer.t) (renderer : RendererVk.t) :
  let s' := snd (DynamicBuffer.rotate need (self, renderer)) in
  Held.handles self ⊆ Held.handles (fst s')
  /\ RendererVk.mGarbage (snd s') = RendererVk.mGarbage renderer
  /\ exists new,
       Device.calls (RendererVk.mDevice (snd s'))
       = Device.calls (RendererVk.mDevice renderer) ++ new
       /\ Held.created new ⊆ Held.handles (fst s').
Proof.
  cbv zeta.
  unfold DynamicBuffer.rotate, DynamicBuffer.this, DynamicBuffer.assign,
    DynamicBuffer.AllocateBufferMemory, DynamicBuffer.onDevice, zoom, modify, bind, ret,
    DynamicBuffer.isMapped, DynamicBuffer.flush, DynamicBuffer.this, bind, ret,
    DynamicBuffer.mBuffer_init, DynamicBuffer.mMemory_map, DynamicBuffer.mMemory_unmap,
    DynamicBuffer.assign, modify,
    Device.ANGLE_VK_TRY, Device.vkFlushMappedMemoryRanges, Device.call, Device.create.
  cbn [fst snd].
  destruct (DynamicBuffer.mMappedMemory self) as [mapped |] eqn:Hmapped;
    cbn [fst snd];
    repeat match goal with
           | |- context [if ?a <? ?b then _ else _] =>
               destruct (a <? b); cbn [fst snd]
           | |- context [match Device.nextResult ?d with _ => _ end] =>
               destruct (Device.nextResult d) eqn:?; cbn [fst snd]
           end;
    unfold Held.handles; cbn; rewrite ?flat_map_app; cbn;
    (split; [list_subset |]); (split; [reflexivity |]);
    eexists; (split; [rewrite <- ?app_assoc; cbn [app];
                      first [reflexivity | symmetry; apply app_nil_r] |]);
    unfold Held.created; cbn in *;
    repeat match goal with
           | H : Device.nextResult _ = _ |- _ => first [rewrite H | idtac]; clear H
           end;
    cbn; list_subset.
Qed.

(** The state a request that rotates leaves behind, in terms of the
    rotation. *)
Lemma allocate_rotate_state (sizeInBytes : Z) (handleRequested flagRequested : bool)
  (self : DynamicBuffer.t) (renderer : RendererVk.t) :
  DynamicBuffer.mAlignment self <> 0 ->
  DynamicBuffer.needsNewBuffer
    (Machine.roundUp sizeInBytes (DynamicBuffer.mAlignment self)) self = true ->
  let need := Machine.roundUp sizeInBytes (DynamicBuffer.mAlignment self) in
  let rotation := DynamicBuffer.rotate need (self, renderer) in
  snd (DynamicBuffer.allocate sizeInBytes handleRequested flagRequested (self, renderer))
  = match fst rotation with
    | Ok _ =>
        (DynamicBuffer.set_mNextAllocationOffset
           (Machine.to_uint32
              (DynamicBuffer.mNextAllocationOffset (fst (snd rotation))
               + Machine.to_uint32 need)) (fst (snd rotation)),
         snd (snd rotation))
    | _ => snd rotation
    end.
Proof.
  intros Hvalid Hrot need rotation. subst rotation need.
  unfold DynamicBuffer.allocate.
  unfold DynamicBuffer.this at 1. unfold bind at 1. cbn [fst snd].
  destruct (Z.eqb_spec (DynamicBuffer.mAlignment self) 0); [contradiction |].
  cbv zeta. rewrite Hrot.
  destruct (DynamicBuffer.rotate _ (self, renderer)) as [[[] | e |] [self1 r1]] eqn:Hr.
  - erewrite bind_Ok; [| erewrite bind_Ok; [| exact Hr]; reflexivity].
    reflexivity.
  - unfold bind at 1. unfold bind at 1. rewrite Hr. reflexivity.
  - unfold bind at 1. unfold bind at 1. rewrite Hr. reflexivity.
Qed.

Lemma handles_of_entries (serial : Z) (l : list DynamicBuffer.BufferAndMemory) :
  map (fun entry : Z * RendererVk.GarbageObject => RendererVk.handle (snd entry))
    (Released.entries serial l)
  = flat_map (fun toFree => [DynamicBuffer.buffer toFree; DynamicBuffer.memory toFree]) l.
Proof.
  induction l as [| toFree rest IH]; [reflexivity |].
  unfold Released.entries in *. cbn. rewrite IH. reflexivity.
Qed.

(** X16. [allocate] loses no handle, whatever it comes to (success, a
    driver error at any step, or an object that is not valid): every handle
    the buffer held before the call, in use or retained, it still holds
    after it, and so it does every buffer and memory the driver created
    during the call; the deferred-release queue is not touched. A [release]
    then puts every handle held into the queue. *)
Theorem allocate_loses_no_handle (sizeInBytes : Z) (handleRequested flagRequested : bool)
  (self : DynamicBuffer.t) (renderer : RendererVk.t) :
  let s' := snd (DynamicBuffer.allocate sizeInBytes handleRequested flagRequested
                   (self, renderer)) in
  Held.handles self ⊆ Held.handles (fst s')
  /\ RendererVk.mGarbage (snd s') = RendererVk.mGarbage renderer
  /\ (exists new,
        Device.calls (RendererVk.mDevice (snd s'))
        = Device.calls (RendererVk.mDevice renderer) ++ new
        /\ Held.created new ⊆ Held.handles (fst s'))
  /\ Held.handles (fst s') ⊆ Held.queued (snd (DynamicBuffer.release s')).
Proof.
  cbv zeta. split; [| split; [| split]].
  4: {
    set (s' := snd (DynamicBuffer.allocate sizeInBytes handleRequested flagRequested
                      (self, renderer))).
    unfold DynamicBuffer.release, DynamicBuffer.releaseRetainedBuffers. cbv zeta.
    cbn [fst snd].
    destruct (releaseOne_fold (DynamicBuffer.mRetainedBuffers (fst s')) (snd s'))
      as (Hg & Hs & _).
    unfold Held.queued, Held.handles, RendererVk.getCurrentQueueSerial. cbn.
    rewrite Hg, !map_app, handles_of_entries. cbn [map snd RendererVk.handle].
    list_subset. }
  all: destruct (Z.eq_dec (DynamicBuffer.mAlignment self) 0) as [Hzero | Hvalid];
    [ unfold DynamicBuffer.allocate, DynamicBuffer.this, bind; cbn [fst snd];
      rewrite Hzero; cbn [fst snd Z.eqb undefined];
      first [ reflexivity
            | exists []; split; [symmetry; apply app_nil_r | intros x Hx; inversion Hx] ]
    | destruct (DynamicBuffer.needsNewBuffer
                  (Machine.roundUp sizeInBytes (DynamicBuffer.mAlignment self)) self)
        eqn:Hrot;
      [ rewrite (allocate_rotate_state _ handleRequested flagRequested _ _ Hvalid Hrot);
        cbv zeta;
        destruct (rotate_handles
                    (Machine.roundUp sizeInBytes (DynamicBuffer.mAlignment self))
                    self renderer) as (Hheld & Hqueue & Hnew);
        destruct (fst (DynamicBuffer.rotate _ (self, renderer))) as [[] | e |];
        cbn [fst snd]; assumption
      | rewrite (allocate_reuse _ _ _ _ _ Hvalid Hrot); cbn [fst snd];
        first [ reflexivity
              | exists []; split; [symmetry; apply app_nil_r | intros x Hx; inversion Hx] ]
      ] ].
Qed.
